(** * craigslistBot: incremental crawl and deduplication controller

    A shallow embedding of the crawl controller of [backend/main.py]
    (identity of a scraped listing, the initial / incremental scrape loop,
    the seen-set store on Firestore, the LLM evaluation with its fallbacks,
    the strictness filter and the serverless entry point), together with
    the older store of the root [main.py].

    Conventions.
    - A Python [str] is a [string]; positions count bytes.
    - A Python [set] of strings is a [gset string], a [dict] with string
      keys is a [gmap string _], a missing key is [None].
    - A Python [float] is its exact rational value, or one of the three
      special values; the score of a listing is whatever JSON value the
      language model put under ["match_score"].
    - An exception is a value of the result type ([None], or a dedicated
      constructor); [try ... except] is a [match] on it.
    - The world outside the process (the web, the language model, the
      Firestore service) is a parameter of the functions that talk to it. *)

From Stdlib Require Import QArith.
From stdpp Require Import base gmap sets list strings pretty.
From Stdlib Require Import Ascii String.

Close Scope Q_scope.
Open Scope string_scope.
Open Scope list_scope.

(** ** Strings *)

Module PyStr.

(** [s.startswith('/')] *)
Definition startswith_slash (s : string) : bool :=
  match s with
  | String c _ => if decide (c = "/"%char) then true else false
  | EmptyString => false
  end.

(** [p] is a prefix of [s] *)
Fixpoint startswith (p s : string) : bool :=
  match p, s with
  | EmptyString, _ => true
  | String a p', String b s' => if decide (a = b) then startswith p' s' else false
  | String _ _, EmptyString => false
  end.

(** [t in s] for two strings *)
Fixpoint contains (t s : string) : bool :=
  startswith t s ||
  match s with
  | EmptyString => false
  | String _ s' => contains t s'
  end.

(** [s.replace(' ', '+')] *)
Fixpoint replace_space_plus (s : string) : string :=
  match s with
  | EmptyString => EmptyString
  | String c s' =>
      String (if decide (c = " "%char) then "+"%char else c) (replace_space_plus s')
  end.

(** [s.split('.')[0]] *)
Fixpoint before_first_dot (s : string) : string :=
  match s with
  | EmptyString => EmptyString
  | String c s' =>
      if decide (c = "."%char) then EmptyString else String c (before_first_dot s')
  end.

(** [s.find(c)]: the first position of [c], or [-1] *)
Fixpoint find (c : ascii) (s : string) : Z :=
  match s with
  | EmptyString => (-1)%Z
  | String a s' =>
      if decide (a = c) then 0%Z
      else let r := find c s' in if decide (r = (-1)%Z) then (-1)%Z else (r + 1)%Z
  end.

(** [s.rfind(c)]: the last position of [c], or [-1] *)
Fixpoint rfind (c : ascii) (s : string) : Z :=
  match s with
  | EmptyString => (-1)%Z
  | String a s' =>
      let r := rfind c s' in
      if decide (r = (-1)%Z) then (if decide (a = c) then 0%Z else (-1)%Z)
      else (r + 1)%Z
  end.

(** [s[a:b]] for [0 <= a] and [0 <= b] (the only use in the program) *)
Definition slice (s : string) (a b : Z) : string :=
  substring (Z.to_nat a) (Z.to_nat (b - a)) s.

(** Truthiness of a string: [if s] *)
Definition truthy (s : string) : bool :=
  match s with EmptyString => false | _ => true end.

End PyStr.

(** ** Identity of a listing

    [extract_listing_id_from_url] searches the URL with two regular
    expressions.  The characters of a string are those below 256; among
    them [\d] matches the digits [0] to [9] and nothing else.  Python's
    [\d] also matches the decimal digits of other scripts, which these
    strings do not hold: a statement that depends on what [\d] takes is
    made for URLs of ASCII characters. *)

Definition is_digit (c : ascii) : bool :=
  (48 <=? nat_of_ascii c)%nat && (nat_of_ascii c <=? 57)%nat.

(** The longest prefix of characters satisfying [p], and the rest. *)
Fixpoint span (p : ascii → bool) (s : string) : string * string :=
  match s with
  | EmptyString => (EmptyString, EmptyString)
  | String c s' =>
      if p c then let '(a, b) := span p s' in (String c a, b)
      else (EmptyString, s)
  end.

(** A match of [/(\d+)\.html] that starts at the first character: group 1.
    The digits are followed by a dot, so the greedy [\d+] takes them all. *)
Definition match_numeric_here (s : string) : option string :=
  match s with
  | String c r =>
      if decide (c = "/"%char) then
        let '(ds, r') := span is_digit r in
        if PyStr.truthy ds && PyStr.startswith ".html" r' then Some ds else None
      else None
  | EmptyString => None
  end.

(** A match of [/d/([^/]+)/(\d+)\.html] that starts at the first character:
    group 2.  [[^/]+] must stop in front of a slash, so it is the whole run
    of characters other than the slash. *)
Definition match_titled_here (s : string) : option string :=
  match s with
  | String c0 (String c1 (String c2 r)) =>
      if decide (c0 = "/"%char ∧ c1 = "d"%char ∧ c2 = "/"%char) then
        let '(seg, r') := span (λ c, if decide (c = "/"%char) then false else true) r in
        if PyStr.truthy seg then match_numeric_here r' else None
      else None
  | _ => None
  end.

(** [re.search]: the leftmost position at which the pattern matches. *)
Fixpoint re_search (here : string → option string) (s : string) : option string :=
  match here s with
  | Some g => Some g
  | None =>
      match s with
      | EmptyString => None
      | String _ s' => re_search here s'
      end
  end.

Definition extract_listing_id_from_url (url : string) : option string :=
  match re_search match_numeric_here url with
  | Some g => Some g
  | None => re_search match_titled_here url
  end.

(** [f"json_ld_{i}_{hash(title) % 100000}"]; [py_hash] is Python's [hash]
    on strings, [%] with a positive modulus is [Z.modulo]. *)
Definition json_ld_listing_id (py_hash : string → Z) (i : nat) (title : string) : string :=
  "json_ld_" +:+ pretty i +:+ "_" +:+ pretty (py_hash title `mod` 100000)%Z.

(** [f"dom_{i}_{numeric_id}"] *)
Definition dom_listing_id (i : nat) (numeric_id : string) : string :=
  "dom_" +:+ pretty i +:+ "_" +:+ numeric_id.

(** ** Values decoded from JSON, and Python's comparison with a float *)

Inductive pyfloat : Type :=
  | Finite (q : Q)
  | PosInf
  | NegInf
  | NaN.

(** What [json.loads] can put under a key.  The elements of an array and
    the members of a nested object are never looked at by the program. *)
Inductive json_value : Type :=
  | JNull
  | JBool (b : bool)
  | JInt (z : Z)
  | JFloat (x : pyfloat)
  | JStr (s : string)
  | JArr
  | JObj.

(** The name [type(v).__name__] that Python prints in a [TypeError]. *)
Definition type_name (v : json_value) : string :=
  match v with
  | JNull => "NoneType"
  | JBool _ => "bool"
  | JInt _ => "int"
  | JFloat _ => "float"
  | JStr _ => "str"
  | JArr => "list"
  | JObj => "dict"
  end.

(** [v >= threshold] for a float [threshold]: a number is compared by
    value ([True] is 1, [False] is 0, a NaN is never [>=]); anything else
    raises [TypeError] ([None]). *)
Definition py_ge (v : json_value) (threshold : Q) : option bool :=
  match v with
  | JFloat (Finite q) => Some (Qle_bool threshold q)
  | JFloat PosInf => Some true
  | JFloat NegInf => Some false
  | JFloat NaN => Some false
  | JInt z => Some (Qle_bool threshold (inject_Z z))
  | JBool b => Some (Qle_bool threshold (inject_Z (if b then 1 else 0)))
  | JNull | JStr _ | JArr | JObj => None
  end.

(** The binary64 values of the literals [0.50], [0.70] and [0.85]. *)
Definition float_0_50 : Q := 1 # 2.
Definition float_0_70 : Q := 3152519739159347 # 4503599627370496.
Definition float_0_85 : Q := 7656119366529843 # 9007199254740992.

Definition STRICTNESS_THRESHOLDS : gmap string Q :=
  <["less_strict" := float_0_50]>
  (<["strict" := float_0_70]>
  (<["very_strict" := float_0_85]> ∅)).

(** ** Listings *)

Record listing : Type := Listing {
  id : string;
  url : string;
  title : string;
  text : string;
  price : string;
  location_zip : string
}.

(** The dictionary returned by [llm_evaluate_listing]. *)
Abbreviation evaluation_dict := (gmap string json_value).

(** [listing.copy()] extended with the key ['evaluation']. *)
Record evaluated_listing : Type := Evaluated {
  the_listing : listing;
  evaluation : evaluation_dict
}.

(** ** The scorer: [llm_evaluate_listing] *)

(** What [openai_client.chat.completions.create] followed by
    [response.choices[0].message.content.strip()] gives: an exception with
    its message, or the stripped text. *)
Inductive completion : Type :=
  | ApiRaises (message : string)
  | ApiText (response_text : string).

(** The three dictionaries returned when no evaluation was obtained. *)
Definition fallback_evaluation (reasoning : string) : evaluation_dict :=
  <["match_score" := JFloat (Finite (1 # 2))]>
  (<["reasoning" := JStr reasoning]>
  (<["feature_match" := JStr "Unknown"]>
  (<["quality_assessment" := JStr "Unknown"]> ∅))).

Definition required_fields : list string :=
  ["match_score"; "reasoning"; "feature_match"; "quality_assessment"].

(** [for field in required_fields: if field not in evaluation:
    evaluation[field] = 'Unknown'] *)
Definition fill_required (evaluation : evaluation_dict) : evaluation_dict :=
  foldl (λ ev field,
           match ev !! field with
           | Some _ => ev
           | None => <[field := JStr "Unknown"]> ev
           end) evaluation required_fields.

(** [evaluation['reasoning'][:100]] inside the [print]: a string or a list
    can be sliced, anything else raises; the result is the message (for an
    object, the one of Python before 3.12; later versions raise a
    [KeyError], which takes the same way). *)
Definition slice_error (v : json_value) : option string :=
  match v with
  | JStr _ | JArr => None
  | JObj => Some "unhashable type: 'slice'"
  | _ => Some ("'" +:+ type_name v +:+ "' object is not subscriptable")
  end.

Section Scorer.

(** [openai_client] is not [None]. *)
Variable openai_client : bool.
(** The language model, asked about a listing with the user's criteria. *)
Variable chat : listing → string → completion.
(** [json.loads] on a non-empty text that starts with an opening brace:
    the decoded object, or [None] for [JSONDecodeError]. *)
Variable json_decode : string → option evaluation_dict.

(** [json.loads]: the empty text is never valid JSON. *)
Definition json_loads (json_text : string) : option evaluation_dict :=
  if PyStr.truthy json_text then json_decode json_text else None.

(** The inner [try]: [None] stands for the [JSONDecodeError] or
    [ValueError] it catches, [Some (inl message)] for any other exception
    (it reaches the outer handler), [Some (inr e)] for the [return]. *)
Definition parse_evaluation (response_text : string)
  : option (string + evaluation_dict) :=
  let json_start := PyStr.find "{"%char response_text in
  let json_end := (PyStr.rfind "}"%char response_text + 1)%Z in
  if decide (json_start ≠ (-1)%Z ∧ json_end ≠ (-1)%Z) then
    let json_text := PyStr.slice response_text json_start json_end in
    match json_loads json_text with
    | None => None
    | Some decoded =>
        let evaluation := fill_required decoded in
        match evaluation !! "reasoning" with
        | Some v =>
            match slice_error v with
            | Some message => Some (inl message)
            | None => Some (inr evaluation)
            end
        | None => Some (inl "'reasoning'")
        end
    end
  else None.

Definition llm_evaluate_listing (l : listing) (user_criteria : string)
  : evaluation_dict :=
  if negb openai_client then fallback_evaluation "LLM evaluation unavailable"
  else
    match chat l user_criteria with
    | ApiRaises message => fallback_evaluation ("Evaluation error: " +:+ message)
    | ApiText response_text =>
        match parse_evaluation response_text with
        | None => fallback_evaluation "Failed to parse LLM response"
        | Some (inl message) => fallback_evaluation ("Evaluation error: " +:+ message)
        | Some (inr evaluation) => evaluation
        end
    end.


(** The evaluation loop of the entry point. *)
Definition evaluate_listings (new_listings : list listing) (query : string)
  : list evaluated_listing :=
  map (λ l, Evaluated l (llm_evaluate_listing l query)) new_listings.

End Scorer.

(** ** The strictness filter: [get_production_listings]

    The comprehension raises as soon as one comparison raises; [inl] holds
    the message of the [TypeError] (or of the [KeyError]). *)
Definition meets_threshold (l : evaluated_listing) (threshold : Q) : string + bool :=
  match evaluation l !! "match_score" with
  | None => inl "'match_score'"
  | Some v =>
      match py_ge v threshold with
      | Some b => inr b
      | None =>
          inl ("'>=' not supported between instances of '" +:+ type_name v
               +:+ "' and 'float'")
      end
  end.

Fixpoint get_production_listings (recommended_listings : list evaluated_listing)
    (threshold : Q) : string + list evaluated_listing :=
  match recommended_listings with
  | [] => inr []
  | l :: rest =>
      match meets_threshold l threshold with
      | inl message => inl message
      | inr keep =>
          match get_production_listings rest threshold with
          | inl message => inl message
          | inr kept => inr (if keep then l :: kept else kept)
          end
      end
  end.

(** ** The seen-set store: collection ['seen_listings'] on Firestore *)

Record seen_doc : Type := SeenDoc {
  listing_ids : list string;
  last_updated : nat
}.

(** The Firestore service as the process sees it at one moment: whether
    [firestore_client] was initialised, whether a [get] or a [set] made at
    that moment raises, the server's clock and the documents of the
    collection.  One call of [save_listing_ids] makes one [get] and one
    [set]; a run asks the service at two moments, when it reads the seen
    set and when it saves, and what raises at one need not raise at the
    other (see [craigslist_bot_entry_point_at]). *)
Record firestore : Type := Firestore {
  firestore_client : bool;
  get_raises : bool;
  set_raises : bool;
  server_timestamp : nat;
  seen_listings : gmap string seen_doc
}.

Definition with_seen_listings (fs : firestore) (docs : gmap string seen_doc) : firestore :=
  {| firestore_client := firestore_client fs;
     get_raises := get_raises fs;
     set_raises := set_raises fs;
     server_timestamp := server_timestamp fs;
     seen_listings := docs |}.

(** [doc_ref.get()] then [data.get('listing_ids', [])]; [None] when the
    call raises. *)
Definition read_listing_ids (fs : firestore) (search_hash : string) : option (list string) :=
  if get_raises fs then None
  else Some (match seen_listings fs !! search_hash with
             | Some doc => listing_ids doc
             | None => []
             end).

(** [doc_ref.set({...})]; [None] when the call raises, and then nothing
    was written. *)
Definition write_listing_ids (fs : firestore) (search_hash : string) (ids : list string)
  : option firestore :=
  if set_raises fs then None
  else Some (with_seen_listings fs
               (<[search_hash := SeenDoc ids (server_timestamp fs)]> (seen_listings fs))).

Definition get_seen_listing_ids (fs : firestore) (search_hash : string) : list string :=
  if negb (firestore_client fs) then []
  else match read_listing_ids fs search_hash with
       | Some seen_ids => seen_ids
       | None => []
       end.

(** [list(set(existing_ids + listing_ids))]: the elements without
    duplicates, in an order the program does not choose. *)
Definition list_of_set (ids : list string) : list string :=
  elements (list_to_set ids : gset string).

Definition save_listing_ids (fs : firestore) (search_hash : string) (ids : list string)
  : firestore * bool :=
  if negb (firestore_client fs) then (fs, false)
  else match ids with
       | [] => (fs, true)
       | _ =>
           match read_listing_ids fs search_hash with
           | None => (fs, false)
           | Some existing_ids =>
               let all_ids := list_of_set (existing_ids ++ ids) in
               match write_listing_ids fs search_hash all_ids with
               | None => (fs, false)
               | Some fs' => (fs', true)
               end
           end
       end.

(** The identities recorded for a fingerprint, as a set. *)
Definition recorded (fs : firestore) (search_hash : string) : gset string :=
  match seen_listings fs !! search_hash with
  | Some doc => list_to_set (listing_ids doc)
  | None => ∅
  end.

(** The store of the root [main.py]. *)
Module Legacy.

Definition save_listing_ids (fs : firestore) (search_hash : string) (ids : list string)
  : firestore * bool :=
  if negb (firestore_client fs) then (fs, false)
  else match ids with
       | [] => (fs, true)
       | _ =>
           match write_listing_ids fs search_hash ids with
           | None => (fs, false)
           | Some fs' => (fs', true)
           end
       end.

End Legacy.

(** ** The crawl: [scrape_new_listings_data] *)

(** The first [<a href=...>] of a search result: its [href] and its text. *)
Record anchor : Type := Anchor {
  href : string;
  link_text : string
}.

(** An [<li class="cl-static-search-result">] of the result page. *)
Record dom_element : Type := DomElement {
  link : option anchor
}.

(** An entry of [json_ld_listings] (its ['images'] and ['position'] are
    stored and never read again). *)
Record json_ld_item : Type := JsonLdItem {
  ld_title : string;
  ld_price : string;
  ld_description : string;
  ld_location : string
}.

(** What the result page parses to. *)
Record search_page : Type := SearchPage {
  dom_elements : list dom_element;
  json_ld_listings : list json_ld_item
}.

(** What a listing's own page parses to: the text of its posting body, its
    price and the zip code found on it. *)
Record listing_page : Type := ListingPage {
  page_text : string;
  page_price : string;
  page_zip : string
}.

Inductive listing_element : Type :=
  | FromJsonLd (item : json_ld_item)
  | FromDom (element : dom_element).

(** [l[:n]] *)
Definition py_take {A : Type} (n : Z) (l : list A) : list A :=
  if decide (0 ≤ n)%Z then take (Z.to_nat n) l
  else take (Z.to_nat (Z.of_nat (List.length l) + n)) l.

(** [listing_id in seen_ids], behind [seen_ids and ...]: [None] and the
    empty set are both false. *)
Definition seen_before (seen_ids : option (gset string)) (listing_id : string) : bool :=
  match seen_ids with
  | None => false
  | Some seen => if decide (seen = ∅) then false else bool_decide (listing_id ∈ seen)
  end.

Section Crawl.

(** Python's [hash] on strings. *)
Variable py_hash : string → Z.
(** [urlparse(u).netloc] *)
Variable netloc : string → string.
(** [requests.get] on the search URL and the parse of its answer;
    [None] when the request raises. *)
Variable fetch_search : string → option search_page.
(** The same for the page of one listing. *)
Variable fetch_listing : string → option listing_page.

(** The link of the first result whose text is the title or holds it. *)
Fixpoint find_dom_link (title : string) (elements : list dom_element) : option anchor :=
  match elements with
  | [] => None
  | e :: rest =>
      match link e with
      | Some a =>
          if bool_decide (link_text a = title) || PyStr.contains title (link_text a)
          then Some a
          else find_dom_link title rest
      | None => find_dom_link title rest
      end
  end.

(** [base_url + u] when [u] starts with a slash.  The function imports
    [urlparse] in its own body, further down, so the name is local to it
    and unbound until that line has run: [None] is the
    [UnboundLocalError]. *)
Definition make_absolute (urlparse_bound : bool) (search_url u : string) : option string :=
  if PyStr.startswith_slash u then
    if urlparse_bound then Some ("https://" +:+ netloc search_url +:+ u) else None
  else Some u.

(** One turn of the loop up to the test on [seen_ids]: whether [urlparse]
    is bound afterwards, and the listing about to be appended, or [None]
    when the turn ends in [continue] (also through the [except]). *)
Definition process_element (dom : list dom_element) (search_url : string)
    (urlparse_bound : bool) (i : nat) (e : listing_element) : bool * option listing :=
  match e with
  | FromJsonLd item =>
      let title := ld_title item in
      let listing_id := json_ld_listing_id py_hash i title in
      let actual_listing_url :=
        match find_dom_link title dom with
        | Some a => option_map Some (make_absolute urlparse_bound search_url (href a))
        | None => Some None
        end in
      match actual_listing_url with
      | None => (urlparse_bound, None)
      | Some actual =>
          let region := PyStr.before_first_dot (netloc search_url) in
          let listing_url :=
            match actual with
            | Some u => if PyStr.truthy u then u
                        else "https://" +:+ region +:+ ".craigslist.org/search/sss?query="
                             +:+ PyStr.replace_space_plus title
            | None => "https://" +:+ region +:+ ".craigslist.org/search/sss?query="
                      +:+ PyStr.replace_space_plus title
            end in
          let text_content :=
            if PyStr.truthy (ld_description item) then ld_description item else title in
          (true, Some (Listing listing_id listing_url title text_content
                         (ld_price item) (ld_location item)))
      end
  | FromDom element =>
      match link element with
      | None => (urlparse_bound, None)
      | Some a =>
          if negb (PyStr.truthy (href a)) then (urlparse_bound, None)
          else
            match make_absolute urlparse_bound search_url (href a) with
            | None => (urlparse_bound, None)
            | Some listing_url =>
                match extract_listing_id_from_url listing_url with
                | None => (urlparse_bound, None)
                | Some numeric_id =>
                    match fetch_listing listing_url with
                    | None => (urlparse_bound, None)
                    | Some page =>
                        (urlparse_bound,
                         Some (Listing (dom_listing_id i numeric_id) listing_url
                                 (link_text a) (page_text page) (page_price page)
                                 (page_zip page)))
                    end
                end
            end
      end
  end.

(** The loop over [enumerate(listing_elements)], from index [i] on: the
    listings appended from there, up to the [break]. *)
Fixpoint scrape_loop (dom : list dom_element) (search_url : string)
    (is_initial_run : bool) (seen_ids : option (gset string))
    (urlparse_bound : bool) (i : nat) (elements : list listing_element) : list listing :=
  match elements with
  | [] => []
  | e :: rest =>
      match process_element dom search_url urlparse_bound i e with
      | (bound, None) =>
          scrape_loop dom search_url is_initial_run seen_ids bound (S i) rest
      | (bound, Some l) =>
          if negb is_initial_run && seen_before seen_ids (id l) then []
          else l :: scrape_loop dom search_url is_initial_run seen_ids bound (S i) rest
      end
  end.

(** The elements the loop walks: the JSON-LD entries when there are any,
    else the DOM results; cut to the first ones on an initial run. *)
Definition listing_elements (page : search_page) (is_initial_run : bool)
    (initial_scrape_count : Z) : list listing_element :=
  let elements :=
    match json_ld_listings page with
    | [] => map FromDom (dom_elements page)
    | _ => map FromJsonLd (json_ld_listings page)
    end in
  if is_initial_run then py_take initial_scrape_count elements else elements.

Definition scrape_new_listings_data (search_url : string) (is_initial_run : bool)
    (initial_scrape_count : Z) (seen_ids : option (gset string)) : list listing :=
  match fetch_search search_url with
  | None => []
  | Some page =>
      scrape_loop (dom_elements page) search_url is_initial_run seen_ids false 0
        (listing_elements page is_initial_run initial_scrape_count)
  end.

End Crawl.

(** ** The run: [craigslist_bot_entry_point] *)

(** The configuration parsed from the request (['is_initial_scrape'] is
    read from the request and never used). *)
Record run_config : Type := RunConfig {
  location : string;
  distance : string;
  search_query : string;
  strictness : string;
  user_id : string;
  task_id : option string;
  enable_initial_scrape : bool;
  initial_scrape_count : Z;
  seed_seen_set : bool
}.

(** The fields of a document of ['user_tasks'] that the run reads. *)
Record task_doc : Type := TaskDoc {
  is_active : bool;
  total_runs : nat
}.

Inductive response_body : Type :=
  | Report (message : string) (total_listings new_listings recommended_listings : nat)
      (notification_sent : bool) (strictness_used : string)
      (sample_listings : list evaluated_listing)
  | Failure (error : string).

Record response : Type := Response {
  statusCode : nat;
  body : response_body
}.

(** What a run does to the outside, in order: the request for the result
    page, a call of the scorer, a notification, a call of
    [save_listing_ids], a call of [update_task_stats] (with the message and
    the level of its log entry). *)
Inductive event : Type :=
  | FetchedSearch (search_url : string)
  | Scored (listing_id : string)
  | Notified (listing_ids : list string)
  | SavedIds (search_hash : string) (listing_ids : list string)
  | TaskStats (task : string) (total_scrapes total_matches : nat)
      (message level : string) (increment_run_count : bool).

Section Run.

(** Python's [repr] on a [str]: the text of [str(KeyError(key))]. *)
Variable py_repr : string → string.
Variable py_hash : string → Z.
Variable netloc : string → string.
Variable fetch_search : string → option search_page.
Variable fetch_listing : string → option listing_page.
Variable openai_client : bool.
Variable chat : listing → string → completion.
Variable json_decode : string → option evaluation_dict.
(** [format_llm_query], [build_craigslist_url] and [create_search_hash] *)
Variable format_llm_query : string → string.
Variable build_craigslist_url : string → string → string → string.
Variable create_search_hash : string → string → string → string → option string → string.
(** [send_notification_via_discord] on a non-empty list *)
Variable send_notification_via_discord : list evaluated_listing → string → bool.
(** The collection ['user_tasks'] *)
Variable user_tasks : gmap string task_doc.

Definition scrape := scrape_new_listings_data py_hash netloc fetch_search fetch_listing.

Definition run_count_of (task : string) : nat :=
  match user_tasks !! task with
  | Some doc => total_runs doc
  | None => 0
  end.

(** The log entries written before the crawl, on the first run of a task. *)
Definition opening_logs (cfg : run_config) (refined_query search_url : string) : list event :=
  match task_id cfg with
  | Some task =>
      if decide (run_count_of task = 0) then
        [ TaskStats task 0 0
            ("LLM evaluating best Craigslist search: " +:+ refined_query) "info" false;
          TaskStats task 0 0
            ("LLM evaluating filters: " +:+
             match strictness cfg with
             | "less_strict" => "broad matching with lower quality threshold"
             | "strict" => "balanced matching with moderate quality threshold"
             | "very_strict" => "precise matching with high quality threshold"
             | _ => "standard filtering"
             end) "info" false;
          TaskStats task 0 0 ("LLM built query link: " +:+ search_url) "info" false ]
      else []
  | None => []
  end.

Definition task_is_paused (cfg : run_config) : bool :=
  match task_id cfg with
  | Some task =>
      match user_tasks !! task with
      | Some doc => negb (is_active doc)
      | None => false
      end
  | None => false
  end.

(** [update_task_stats(task_id, ...)] under [if task_id:] *)
Definition task_log (cfg : run_config) (scrapes matches : nat)
    (message : nat → string) (level : string) (is_initial_run : bool) : list event :=
  match task_id cfg with
  | Some task =>
      let log_run_count := if is_initial_run then 0 else run_count_of task + 1 in
      [TaskStats task scrapes matches (message log_run_count) level true]
  | None => []
  end.

(** The run.  [fs_read] is the service at the moment of
    [get_seen_listing_ids], [fs] the service at the moment of
    [save_listing_ids]; the run returns its response, the service after it
    and what it did. *)
Definition craigslist_bot_entry_point_at (cfg : run_config) (fs_read fs : firestore)
  : response * firestore * list event :=
  let user_strictness := strictness cfg in
  let refined_query := format_llm_query (search_query cfg) in
  let search_url := build_craigslist_url refined_query (location cfg) (distance cfg) in
  let search_hash :=
    create_search_hash refined_query (location cfg) (distance cfg) (user_id cfg)
      (task_id cfg) in
  let opening := opening_logs cfg refined_query search_url in
  if task_is_paused cfg then
    (Response 200 (Report "Task is paused - skipping execution" 0 0 0 false
                     user_strictness []), fs, opening)
  else
  let seen_ids : gset string := list_to_set (get_seen_listing_ids fs_read search_hash) in
  if seed_seen_set cfg then
    match scrape search_url true 1 None with
    | most_recent :: _ =>
        let '(fs', _) := save_listing_ids fs search_hash [id most_recent] in
        (Response 200 (Report "Seeding completed successfully" 0 0 0 false
                         (strictness cfg) []),
         fs',
         opening ++ [FetchedSearch search_url; SavedIds search_hash [id most_recent]]
         ++ match task_id cfg with
            | Some task =>
                [TaskStats task 0 0 "Seeding completed - monitoring from now" "success" false]
            | None => []
            end)
    | [] =>
        (Response 200 (Report "No listings found for seeding" 0 0 0 false
                         (strictness cfg) []),
         fs, opening ++ [FetchedSearch search_url])
    end
  else
  let is_initial_run := enable_initial_scrape cfg && bool_decide (size seen_ids = 0) in
  let listings := scrape search_url is_initial_run (initial_scrape_count cfg) (Some seen_ids) in
  let fetched := opening ++ [FetchedSearch search_url] in
  if bool_decide (List.length listings = 0)
     && negb (negb is_initial_run && bool_decide (0 < size seen_ids)) then
    (Response 200 (Report "No listings found - search criteria may need adjustment"
                     0 0 0 false user_strictness []),
     fs,
     fetched ++ task_log cfg 0 0
       (λ n, "Scrape: " +:+ pretty n +:+ " - No posts found") "success" is_initial_run)
  else
  let new_listings := listings in
  if bool_decide (List.length new_listings = 0) then
    let '(fs', _) := save_listing_ids fs search_hash (map id listings) in
    (Response 200
       (Report (if is_initial_run
                then "No listings found - search criteria may need adjustment"
                else "No new listings found - all listings have been processed previously")
          (List.length listings) 0 0 false user_strictness []),
     fs',
     fetched ++ [SavedIds search_hash (map id listings)]
     ++ task_log cfg
          (if is_initial_run && bool_decide (0 < List.length listings)
           then List.length listings else 0) 0
          (λ n, if is_initial_run then "Scrape: " +:+ pretty n +:+ " - No posts found"
                else "Scrape: " +:+ pretty n +:+ " - No new posts found")
          "warning" is_initial_run)
  else
  let evaluated_listings :=
    evaluate_listings openai_client chat json_decode new_listings (search_query cfg) in
  let evaluated := fetched ++ map (λ l, Scored (id l)) new_listings in
  match STRICTNESS_THRESHOLDS !! user_strictness with
  | None =>
      (Response 500 (Failure ("Craigslist bot execution failed: "
                              +:+ py_repr user_strictness)), fs, evaluated)
  | Some threshold =>
      match get_production_listings evaluated_listings threshold with
      | inl error =>
          (Response 500 (Failure ("Craigslist bot execution failed: " +:+ error)),
           fs, evaluated)
      | inr recommended_listings =>
          let notification_sent :=
            match recommended_listings with
            | [] => false
            | _ => send_notification_via_discord recommended_listings (search_query cfg)
            end in
          let notified :=
            match recommended_listings with
            | [] => []
            | _ => [Notified (map (λ l, id (the_listing l)) recommended_listings)]
            end in
          let logged :=
            task_log cfg (List.length listings) (List.length recommended_listings)
              (λ n, if bool_decide (List.length listings = 0)
                    then "Scrape: " +:+ pretty n +:+ " - No posts found"
                    else match recommended_listings with
                         | [] => "Scrape: " +:+ pretty n +:+ " - No posts found"
                         | _ => "Scrape: " +:+ pretty n +:+ " - Found "
                                +:+ pretty (List.length recommended_listings)
                                +:+ " matches"
                         end)
              (if bool_decide (List.length listings = 0) then "success"
               else match recommended_listings with [] => "info" | _ => "success" end)
              is_initial_run in
          let '(fs', saved) :=
            match listings with
            | [] => (fs, [])
            | _ => ((save_listing_ids fs search_hash (map id listings)).1,
                    [SavedIds search_hash (map id listings)])
            end in
          (Response 200
             (Report "Craigslist bot execution completed" (List.length listings)
                (List.length new_listings) (List.length recommended_listings)
                notification_sent user_strictness (take 3 recommended_listings)),
           fs',
           evaluated ++ notified ++ logged ++ saved)
      end
  end.

(** The run on a service that is the same at both moments. *)
Definition craigslist_bot_entry_point (cfg : run_config) (fs : firestore)
  : response * firestore * list event :=
  craigslist_bot_entry_point_at cfg fs fs.

End Run.

(** ** The behaviour the specification asks of an incremental run

    The longest prefix of a rank-ordered list of items in front of the
    first item whose identity is in the seen set. *)
Fixpoint prefix_before_first_seen (seen : gset string) (items : list listing) : list listing :=
  match items with
  | [] => []
  | l :: rest =>
      if bool_decide (id l ∈ seen) then [] else l :: prefix_before_first_seen seen rest
  end.


(** The score of an evaluated listing when it is a finite number. *)
Definition score (l : evaluated_listing) : option Q :=
  match evaluation l !! "match_score" with
  | Some (JFloat (Finite q)) => Some q
  | Some (JInt z) => Some (inject_Z z)
  | _ => None
  end.

(** The store as a run reads it: one on which every call succeeds, and
    which is empty when the read of the real one raises. *)
Definition store_as_read (fs : firestore) : firestore :=
  {| firestore_client := firestore_client fs;
     get_raises := false;
     set_raises := false;
     server_timestamp := server_timestamp fs;
     seen_listings := if get_raises fs then ∅ else seen_listings fs |}.

(** ** Observations on a run *)

(** The identities handed to the scorer, in order. *)
Definition scored (trace : list event) : list string :=
  omap (λ e, match e with Scored i => Some i | _ => None end) trace.

(** The requests for a result page. *)
Definition fetches (trace : list event) : list string :=
  omap (λ e, match e with FetchedSearch u => Some u | _ => None end) trace.

(** The calls of [save_listing_ids] with their identities. *)
Definition saves (trace : list event) : list (list string) :=
  omap (λ e, match e with SavedIds _ ids => Some ids | _ => None end) trace.

(** The notifications sent. *)
Definition notifications (trace : list event) : list (list string) :=
  omap (λ e, match e with Notified ids => Some ids | _ => None end) trace.

(** The counts of a report: [total_listings] and [new_listings]. *)
Definition reported_counts (r : response) : option (nat * nat) :=
  match body r with
  | Report _ total new _ _ _ _ => Some (total, new)
  | Failure _ => None
  end.

(** ** Sample worlds, on which the definitions can be run *)

Module Sample.

(** [repr] on a text whose characters beyond ASCII are printable: the
    quote is double when the text holds a single quote and no double one;
    the quote and the backslash are escaped, a control character is
    written [\t], [\n], [\r] or [\x] and two digits. *)
Definition hex_lower (n : nat) : ascii :=
  match n with
  | 0 => "0" | 1 => "1" | 2 => "2" | 3 => "3" | 4 => "4" | 5 => "5" | 6 => "6"
  | 7 => "7" | 8 => "8" | 9 => "9" | 10 => "a" | 11 => "b" | 12 => "c" | 13 => "d"
  | 14 => "e" | _ => "f"
  end%char.
Definition py_repr (s : string) : string :=
  let double_quote := ascii_of_nat 34 in
  let quote :=
    if PyStr.contains "'" s && negb (PyStr.contains (String double_quote "") s)
    then double_quote else "'"%char in
  let fix body (s : string) : string :=
    match s with
    | EmptyString => String quote ""
    | String c rest =>
        let n := nat_of_ascii c in
        (if bool_decide (c = quote) || bool_decide (c = "\"%char) then String "\" (String c "")
         else if (n =? 9)%nat then "\t"
         else if (n =? 10)%nat then "\n"
         else if (n =? 13)%nat then "\r"
         else if (n <? 32)%nat || (n =? 127)%nat then
           String "\" (String "x" (String (hex_lower (n / 16))
                                     (String (hex_lower (n `mod` 16)) "")))
         else String c "") +:+ body rest
    end in
  String quote (body s).

Definition py_hash (s : string) : Z := (Z.of_nat (String.length s) * 7919 - 40000)%Z.
Definition netloc (u : string) : string := "sfbay.craigslist.org".
Definition search_url : string :=
  "https://sfbay.craigslist.org/search/sss?query=road+bike&postal=94105&search_distance=15&sort=date".

Definition item (t : string) : json_ld_item := JsonLdItem t "500" "" "San Francisco".

(** A result page with the four entries A, B, C and D. *)
Definition page_abcd : search_page :=
  SearchPage [] [item "A"; item "B"; item "C"; item "D"].

(** A result page with fifty entries. *)
Definition page_50 : search_page :=
  SearchPage [] (map (λ n : nat, item ("bike " +:+ pretty n)) (seq 0 50)).

(** A result page read from the DOM: two results with absolute links. *)
Definition result (n t : string) : dom_element :=
  DomElement (Some (Anchor ("https://sfbay.craigslist.org/sfc/bik/d/" +:+ t +:+ "/" +:+ n
                            +:+ ".html") t)).
Definition page_dom : search_page :=
  SearchPage [result "7801234567" "trek-domane"; result "7801234000" "cannondale-caad"] [].

Definition fetch_listing (u : string) : option listing_page :=
  Some (ListingPage "Well kept, 54cm." "$500" "94105").
Definition no_listing (u : string) : option listing_page := None.

Definition serve (page : search_page) (u : string) : option search_page := Some page.
Definition unreachable (u : string) : option search_page := None.

(** Without a language model [format_llm_query] returns the query. *)
Definition format_llm_query (q : string) : string := q.
Definition build_craigslist_url (q postal dist : string) : string := search_url.
Definition create_search_hash (q loc dist user : string) (task : option string) : string :=
  q +:+ "_" +:+ loc +:+ "_" +:+ dist +:+ "_" +:+ user.

(** A language model that answers every listing with the same object. *)
Definition chat (l : listing) (criteria : string) : completion :=
  ApiText "{score}".
(** A language model that is down, and one that answers in prose. *)
Definition chat_down (l : listing) (criteria : string) : completion :=
  ApiRaises "Connection error.".
Definition chat_prose (l : listing) (criteria : string) : completion :=
  ApiText "This looks like a good match.".
Definition json_decode (json_text : string) : option evaluation_dict :=
  Some (<["match_score" := JFloat (Finite (9 # 10))]>
        (<["reasoning" := JStr "Right size and groupset."]> ∅)).
Definition send_notification_via_discord (ls : list evaluated_listing) (q : string) : bool :=
  true.

Definition store (docs : gmap string seen_doc) : firestore :=
  Firestore true false false 0 docs.
Definition config (level : string) : run_config :=
  RunConfig "94105" "15" "road bike" level "u1" None true 6 false.
(** The same for a task that has run three times. *)
Definition task_config (level : string) : run_config :=
  RunConfig "94105" "15" "road bike" level "u1" (Some "t1") true 6 false.
Definition user_tasks : gmap string task_doc := {["t1" := TaskDoc true 3]}.
(** A store that works and holds one identity for the fingerprint. *)
Definition used_store : firestore :=
  store {["road bike_94105_15_u1" := SeenDoc ["dom_0_7801230000"] 0]}.
(** A store whose reads raise, holding both listings of [page_dom]. *)
Definition broken_store : firestore :=
  Firestore true true false 0
    {["road bike_94105_15_u1" := SeenDoc ["dom_0_7801234567"; "dom_1_7801234000"] 0]}.
Definition search_hash : string := "road bike_94105_15_u1".

Definition scored_listing (n : string) (v : json_value) : evaluated_listing :=
  Evaluated (Listing n ("https://sfbay.craigslist.org/sfc/bik/d/bike/" +:+ n +:+ ".html")
               "bike" "" "$500" "94105")
    (<["match_score" := v]> (<["reasoning" := JStr "."]> ∅)).

End Sample.

(** * Further parts of the program *)

(** ** Predicates on strings used in the statements *)

(** Every character of [s] satisfies [p]. *)
Fixpoint all_chars (p : ascii → bool) (s : string) : bool :=
  match s with
  | EmptyString => true
  | String c s' => p c && all_chars p s'
  end.

(** [c] is a character of ASCII ([str.isascii] on every character). *)
Definition is_ascii (c : ascii) : bool := (nat_of_ascii c <? 128)%nat.

(** ** More sample worlds *)

Module Sample2.

(** A run with the initial scrape disabled, and a seeding run. *)
Definition config_no_initial : run_config :=
  RunConfig "94105" "15" "road bike" "strict" "u1" None false 6 false.
Definition config_seed : run_config :=
  RunConfig "94105" "15" "road bike" "strict" "u1" None true 6 true.

(** A language model whose answer is an object without a score. *)
Definition chat_no_score (l : listing) (criteria : string) : completion :=
  ApiText "Here it is: {reasoning}".
Definition json_decode_no_score (json_text : string) : option evaluation_dict :=
  Some (<["reasoning" := JStr "Looks close."]> ∅).

Definition trek : listing :=
  Listing "dom_0_7801234567"
    "https://sfbay.craigslist.org/sfc/bik/d/trek-domane/7801234567.html"
    "trek-domane" "Well kept, 54cm." "$500" "94105".

(** A fingerprint of three fields, for the root [main.py]; it agrees with
    [Sample.search_hash] on the sample search. *)
Definition create_search_hash (q loc dist : string) : string :=
  q +:+ "_" +:+ loc +:+ "_" +:+ dist +:+ "_u1".

End Sample2.

(** ** The program of the root [main.py]

    The older copy of the bot: its crawl reads the DOM results only and
    has neither a limit nor an early stop, the identity of a listing is
    the numeric id of its URL, and the run filters the new listings after
    the crawl.  [get_seen_listing_ids], [get_production_listings] and
    [STRICTNESS_THRESHOLDS] are the same as in [backend/main.py]; the store
    is [Legacy.save_listing_ids]. *)

Module Root.

Section Scorer.

Variable openai_client : bool.
Variable chat : listing → string → completion.
Variable json_decode : string → option evaluation_dict.

(** The inner [try] of [llm_evaluate_listing]: here nothing is printed from
    the decoded object, so nothing raises once it is decoded. *)
Definition parse_evaluation (response_text : string) : option evaluation_dict :=
  let json_start := PyStr.find "{"%char response_text in
  let json_end := (PyStr.rfind "}"%char response_text + 1)%Z in
  if decide (json_start ≠ (-1)%Z ∧ json_end ≠ (-1)%Z) then
    let json_text := PyStr.slice response_text json_start json_end in
    match json_loads json_decode json_text with
    | None => None
    | Some decoded => Some (fill_required decoded)
    end
  else None.

Definition llm_evaluate_listing (l : listing) (user_criteria : string)
  : evaluation_dict :=
  if negb openai_client then fallback_evaluation "LLM evaluation unavailable"
  else
    match chat l user_criteria with
    | ApiRaises message => fallback_evaluation ("Evaluation error: " +:+ message)
    | ApiText response_text =>
        match parse_evaluation response_text with
        | None => fallback_evaluation "Failed to parse LLM response"
        | Some evaluation => evaluation
        end
    end.

End Scorer.

Section Crawl.

Variable netloc : string → string.
Variable fetch_search : string → option search_page.
Variable fetch_listing : string → option listing_page.

(** One turn of the loop: the listing appended, or [None] for [continue]
    (also through the [except]).  [urlparse] is the one imported by the
    module. *)
Definition process_element (search_url : string) (e : dom_element) : option listing :=
  match link e with
  | None => None
  | Some a =>
      if negb (PyStr.truthy (href a)) then None
      else
        let listing_url :=
          if PyStr.startswith_slash (href a)
          then "https://" +:+ netloc search_url +:+ href a
          else href a in
        match extract_listing_id_from_url listing_url with
        | None => None
        | Some listing_id =>
            match fetch_listing listing_url with
            | None => None
            | Some page =>
                Some (Listing listing_id listing_url (link_text a) (page_text page)
                        (page_price page) (page_zip page))
            end
        end
  end.

Definition scrape_new_listings_data (search_url : string) : list listing :=
  match fetch_search search_url with
  | None => []
  | Some page => omap (process_element search_url) (dom_elements page)
  end.

End Crawl.

(** The body of a response: a plain message, the summary of a completed
    run, or an error. *)
Inductive response_body : Type :=
  | Message (message : string)
  | Summary (message : string) (total_listings new_listings recommended_listings : nat)
      (notification_sent : bool) (strictness_used : string)
  | Failure (error : string).

Record response : Type := Response {
  statusCode : nat;
  body : response_body
}.

Section Run.

Variable py_repr : string → string.
Variable netloc : string → string.
Variable fetch_search : string → option search_page.
Variable fetch_listing : string → option listing_page.
Variable openai_client : bool.
Variable chat : listing → string → completion.
Variable json_decode : string → option evaluation_dict.
Variable format_llm_query : string → string.
Variable build_craigslist_url : string → string → string → string.
Variable create_search_hash : string → string → string → string.
Variable send_notification_via_discord : list evaluated_listing → string → bool.
(** The configuration read from the environment. *)
Variable SEARCH_QUERY SEARCH_POSTAL SEARCH_DISTANCE PRODUCTION_STRICTNESS : string.

Definition craigslist_bot_entry_point (fs : firestore) : response * firestore * list event :=
  let refined_query := format_llm_query SEARCH_QUERY in
  let search_url := build_craigslist_url refined_query SEARCH_POSTAL SEARCH_DISTANCE in
  let search_hash := create_search_hash SEARCH_QUERY SEARCH_POSTAL SEARCH_DISTANCE in
  let seen_ids := get_seen_listing_ids fs search_hash in
  let listings := scrape_new_listings_data netloc fetch_search fetch_listing search_url in
  let fetched := [FetchedSearch search_url] in
  match listings with
  | [] =>
      (Response 200 (Message "No listings found - search criteria may need adjustment"),
       fs, fetched)
  | _ =>
      let new_listings := filter (λ l, id l ∉ seen_ids) listings in
      match new_listings with
      | [] =>
          (Response 200
             (Message "No new listings found - all listings have been processed previously"),
           (Legacy.save_listing_ids fs search_hash (map id listings)).1,
           fetched ++ [SavedIds search_hash (map id listings)])
      | _ =>
          let evaluated_listings :=
            map (λ l, Evaluated l (llm_evaluate_listing openai_client chat json_decode l
                                     SEARCH_QUERY)) new_listings in
          let evaluated := fetched ++ map (λ l, Scored (id l)) new_listings in
          match STRICTNESS_THRESHOLDS !! PRODUCTION_STRICTNESS with
          | None =>
              (Response 500 (Failure ("Craigslist bot execution failed: "
                                      +:+ py_repr PRODUCTION_STRICTNESS)), fs, evaluated)
          | Some threshold =>
              match get_production_listings evaluated_listings threshold with
              | inl error =>
                  (Response 500 (Failure ("Craigslist bot execution failed: " +:+ error)),
                   fs, evaluated)
              | inr recommended_listings =>
                  let notification_sent :=
                    match recommended_listings with
                    | [] => false
                    | _ => send_notification_via_discord recommended_listings SEARCH_QUERY
                    end in
                  let notified :=
                    match recommended_listings with
                    | [] => []
                    | _ => [Notified (map (λ l, id (the_listing l)) recommended_listings)]
                    end in
                  (Response 200
                     (Summary "Craigslist bot execution completed" (List.length listings)
                        (List.length new_listings) (List.length recommended_listings)
                        notification_sent PRODUCTION_STRICTNESS),
                   (Legacy.save_listing_ids fs search_hash (map id listings)).1,
                   evaluated ++ notified ++ [SavedIds search_hash (map id listings)])
              end
          end
      end
  end.

End Run.

End Root.

(** ** The search URL: [get_craigslist_region_from_zip] and
    [build_craigslist_url] of [backend/main.py] *)

Module Url.

(** The table of [get_craigslist_region_from_zip], on the integer. *)
Definition region_of_int (zip_int : Z) : string :=
  if decide (33000 ≤ zip_int ≤ 34999)%Z then "miami"
  else if decide (10000 ≤ zip_int ≤ 14999)%Z then "newyork"
  else if decide (90000 ≤ zip_int ≤ 96699)%Z then "sfbay"
  else if decide (75000 ≤ zip_int ≤ 79999)%Z then "dallas"
  else if decide (60000 ≤ zip_int ≤ 62999)%Z then "chicago"
  else if decide (98000 ≤ zip_int ≤ 99499)%Z then "seattle"
  else if decide (1000 ≤ zip_int ≤ 5599)%Z then "boston"
  else if decide (30000 ≤ zip_int ≤ 31999)%Z then "atlanta"
  else if decide (80000 ≤ zip_int ≤ 81699)%Z then "denver"
  else if decide (97000 ≤ zip_int ≤ 97999)%Z then "portland"
  else if decide (89000 ≤ zip_int ≤ 89899)%Z then "lasvegas"
  else if decide (85000 ≤ zip_int ≤ 86599)%Z then "phoenix"
  else if decide (27000 ≤ zip_int ≤ 28999)%Z then "raleigh"
  else if decide (22000 ≤ zip_int ≤ 24699)%Z then "norfolk"
  else if decide (15000 ≤ zip_int ≤ 19699)%Z then "philadelphia"
  else if decide (43000 ≤ zip_int ≤ 45999)%Z then "columbus"
  else if decide (48000 ≤ zip_int ≤ 49999)%Z then "detroit"
  else if decide (55000 ≤ zip_int ≤ 56999)%Z then "minneapolis"
  else if decide (63000 ≤ zip_int ≤ 65899)%Z then "kansascity"
  else if decide (37000 ≤ zip_int ≤ 38599)%Z then "nashville"
  else if decide (70000 ≤ zip_int ≤ 71499)%Z then "neworleans"
  else if decide (35000 ≤ zip_int ≤ 36999)%Z then "birmingham"
  else if decide (38600 ≤ zip_int ≤ 39799)%Z then "jackson"
  else if decide (71600 ≤ zip_int ≤ 72999)%Z then "littlerock"
  else if decide (73000 ≤ zip_int ≤ 74999)%Z then "oklahomacity"
  else if decide (66000 ≤ zip_int ≤ 67999)%Z then "wichita"
  else if decide (68000 ≤ zip_int ≤ 69399)%Z then "omaha"
  else if decide (50000 ≤ zip_int ≤ 52899)%Z then "desmoines"
  else if decide (53000 ≤ zip_int ≤ 54999)%Z then "milwaukee"
  else if decide (46000 ≤ zip_int ≤ 47999)%Z then "indianapolis"
  else if decide (40000 ≤ zip_int ≤ 42999)%Z then "louisville"
  else if decide (24700 ≤ zip_int ≤ 26999)%Z then "charlestonwv"
  else if decide (20600 ≤ zip_int ≤ 21999)%Z then "baltimore"
  else if decide (19700 ≤ zip_int ≤ 19999)%Z then "delaware"
  else if decide (7000 ≤ zip_int ≤ 8999)%Z then "newjersey"
  else if decide (6000 ≤ zip_int ≤ 6999)%Z then "hartford"
  else if decide (2800 ≤ zip_int ≤ 2999)%Z then "providence"
  else if decide (5000 ≤ zip_int ≤ 5999)%Z then "burlington"
  else if decide (3000 ≤ zip_int ≤ 3999)%Z then "nh"
  else if decide (3900 ≤ zip_int ≤ 4999)%Z then "maine"
  else if decide (99500 ≤ zip_int ≤ 99999)%Z then "anchorage"
  else if decide (96700 ≤ zip_int ≤ 96899)%Z then "honolulu"
  else if decide (84000 ≤ zip_int ≤ 84799)%Z then "saltlakecity"
  else if decide (83200 ≤ zip_int ≤ 83899)%Z then "boise"
  else if decide (59000 ≤ zip_int ≤ 59999)%Z then "montana"
  else if decide (82000 ≤ zip_int ≤ 83199)%Z then "wyoming"
  else if decide (58000 ≤ zip_int ≤ 58899)%Z then "fargo"
  else if decide (57000 ≤ zip_int ≤ 57799)%Z then "siouxfalls"
  else if decide (87000 ≤ zip_int ≤ 88499)%Z then "albuquerque"
  else "sfbay".

(** [urllib.parse.quote_plus] on the bytes of the text: the characters
    that are always safe stay, a space becomes a plus sign, every other
    byte becomes a percent sign and two upper-case hexadecimal digits. *)
Definition always_safe (c : ascii) : bool :=
  let n := nat_of_ascii c in
  ((65 <=? n)%nat && (n <=? 90)%nat) || ((97 <=? n)%nat && (n <=? 122)%nat)
  || ((48 <=? n)%nat && (n <=? 57)%nat)
  || bool_decide (c = "_"%char) || bool_decide (c = "."%char)
  || bool_decide (c = "-"%char) || bool_decide (c = "~"%char).

Definition hex_digit (n : nat) : ascii :=
  match n with
  | 0 => "0" | 1 => "1" | 2 => "2" | 3 => "3" | 4 => "4" | 5 => "5" | 6 => "6"
  | 7 => "7" | 8 => "8" | 9 => "9" | 10 => "A" | 11 => "B" | 12 => "C" | 13 => "D"
  | 14 => "E" | _ => "F"
  end%char.

Definition quote_byte (c : ascii) : string :=
  if always_safe c then String c ""
  else if bool_decide (c = " "%char) then "+"
  else String "%" (String (hex_digit (nat_of_ascii c / 16))
                     (String (hex_digit (nat_of_ascii c `mod` 16)) "")).

Fixpoint quote_plus (s : string) : string :=
  match s with
  | EmptyString => EmptyString
  | String c s' => quote_byte c +:+ quote_plus s'
  end.

(** The characters a quoted text is made of. *)
Definition quoted_char (c : ascii) : bool :=
  always_safe c || bool_decide (c = "+"%char) || bool_decide (c = "%"%char).

(** ['&'.join(...)] *)
Fixpoint join_amp (parts : list string) : string :=
  match parts with
  | [] => ""
  | [p] => p
  | p :: rest => p +:+ "&" +:+ join_amp rest
  end.

(** [urllib.parse.urlencode] on a dictionary of strings, in the order of
    its keys. *)
Definition urlencode (params : list (string * string)) : string :=
  join_amp (map (λ kv, quote_plus kv.1 +:+ "=" +:+ quote_plus kv.2) params).

Section Build.

(** Python's [int] on a string; [None] is the [ValueError]. *)
Variable py_int : string → option Z.

Definition get_craigslist_region_from_zip (zip_code : string) : string :=
  match py_int zip_code with
  | None => "sfbay"
  | Some zip_int => region_of_int zip_int
  end.

Definition build_craigslist_url (query postal distance : string) : string :=
  let region := get_craigslist_region_from_zip postal in
  let base_url := "https://" +:+ region +:+ ".craigslist.org/search/sss" in
  let query_string :=
    urlencode [("query", query); ("postal", postal); ("search_distance", distance);
               ("sort", "date")] in
  base_url +:+ "?" +:+ query_string.

End Build.

(** A reading of decimal numerals, to run the functions above. *)
Definition digits_to_int (s : string) : option Z :=
  if PyStr.truthy s && all_chars is_digit s
  then Some (Z.of_N (fold_left (λ acc c, acc * 10 + (N_of_ascii c - 48))%N
                       (list_ascii_of_string s) 0%N))
  else None.

End Url.

(** ** The fingerprint of a search: [create_search_hash] of
    [backend/main.py] *)

Module Fingerprint.

Section Hash.

(** [hashlib.md5(s.encode()).hexdigest()] and [str.lower]. *)
Variable md5_hexdigest : string → string.
Variable lower : string → string.

(** Truth of an optional text: [None] and the empty text are false. *)
Definition given (x : option string) : bool :=
  match x with
  | None => false
  | Some s => PyStr.truthy s
  end.

Definition create_search_hash (query location distance : string)
  (user_id task_id : option string) : string :=
  let search_string :=
    if given user_id && given task_id then
      lower query +:+ "_" +:+ location +:+ "_" +:+ distance +:+ "_" +:+ default "" user_id
        +:+ "_" +:+ default "" task_id
    else if given user_id then
      lower query +:+ "_" +:+ location +:+ "_" +:+ distance +:+ "_" +:+ default "" user_id
    else
      lower query +:+ "_" +:+ location +:+ "_" +:+ distance in
  md5_hexdigest search_string.

End Hash.

End Fingerprint.

(** ** Tasks: [task_api.py] *)

(** [x >= v] for a float [x]: the mirror of [py_ge]. *)
Definition py_float_ge (x : Q) (v : json_value) : option bool :=
  match v with
  | JFloat (Finite q) => Some (Qle_bool q x)
  | JFloat PosInf => Some false
  | JFloat NegInf => Some true
  | JFloat NaN => Some false
  | JInt z => Some (Qle_bool (inject_Z z) x)
  | JBool b => Some (Qle_bool (inject_Z (if b then 1 else 0)) x)
  | JNull | JStr _ | JArr | JObj => None
  end.

Module TaskApi.

(** The schedule that [create_user_task] gives to the job of a task, for a
    frequency that is an integer. *)
Definition cron_schedule (frequency_minutes : Z) : string :=
  let min_frequency := 2%Z in
  let frequency_minutes :=
    if decide (frequency_minutes < min_frequency)%Z then min_frequency
    else frequency_minutes in
  if decide (frequency_minutes < 60)%Z then
    "*/" +:+ pretty frequency_minutes +:+ " * * * *"
  else if decide (frequency_minutes = 60)%Z then "0 * * * *"
  else if decide (frequency_minutes < 1440)%Z then
    let hours := (frequency_minutes `div` 60)%Z in
    "0 */" +:+ pretty hours +:+ " * * *"
  else
    let days := (frequency_minutes `div` 1440)%Z in
    if decide (days = 1)%Z then "0 0 * * *"
    else "0 0 */" +:+ pretty days +:+ " * *".

(** A document of ['user_tasks'] is the dictionary of its fields; an array
    ([logs]) is kept without its elements. *)
Local Abbreviation task_data := (gmap string json_value).

(** The collection ['user_tasks'], with what its calls do: [reads_raise]
    when [task_ref.get()] raises, [updates_raise] and [deletes_raise] for
    [task_ref.update] and [task_ref.delete]. *)
Record database : Type := Database {
  reads_raise : bool;
  updates_raise : bool;
  deletes_raise : bool;
  tasks : gmap string task_data
}.

Definition with_tasks (db : database) (docs : gmap string task_data) : database :=
  Database (reads_raise db) (updates_raise db) (deletes_raise db) docs.

(** What a function asks of the outside: the thread that posts an immediate
    run to the cloud function, and the calls of the scheduler client (their
    own failures are caught on the spot). *)
Inductive call : Type :=
  | ImmediateRun (task_id : string)
  | ResumeJob (task_id : string)
  | PauseJob (task_id : string)
  | DeleteJob (task_id : string).

(** [task_data.get('user_id') != user_id] is false only for a text equal
    to [user_id]. *)
Definition owned_by (data : task_data) (user_id : string) : bool :=
  match data !! "user_id" with
  | Some (JStr u) => bool_decide (u = user_id)
  | _ => false
  end.

(** [c + k] for a stored counter [c] and an integer [k]; [None] is the
    [TypeError].  [float_add] is the sum of a float and an integer. *)
Definition py_add (float_add : pyfloat → Z → pyfloat) (c : json_value) (k : Z)
  : option json_value :=
  match c with
  | JInt z => Some (JInt (z + k))
  | JBool b => Some (JInt ((if b then 1 else 0) + k))
  | JFloat x => Some (JFloat (float_add x k))
  | JNull | JStr _ | JArr | JObj => None
  end.

Section Api.

(** [time.strftime('%Y-%m-%dT%H:%M:%SZ', time.gmtime(t))] for the time of
    the clock. *)
Variable strftime_gmtime : Q → string.
(** The same for [current_time + frequency * 60], where [frequency] is the
    stored field: [None] when the expression raises (a frequency that is
    not a number, a time out of range). *)
Variable cooldown_iso : Q → json_value → option string.
Variable float_add : pyfloat → Z → pyfloat.

(** [update_task_stats]; [log_entry] tells whether a log entry that is not
    empty is given. *)
Definition update_task_stats (current_time : Q) (db : database) (task_id : string)
  (total_scrapes total_matches : Z) (log_entry increment_run_count : bool)
  : bool * database :=
  if reads_raise db then (false, db)
  else
    match tasks db !! task_id with
    | None => (false, db)
    | Some data =>
        let current_runs := default (JInt 0) (data !! "total_runs") in
        let current_scrapes := default (JInt 0) (data !! "total_scrapes") in
        let current_matches := default (JInt 0) (data !! "total_matches") in
        match cooldown_iso current_time (default (JInt 60) (data !! "frequency_minutes")),
              py_add float_add current_runs (if increment_run_count then 1 else 0),
              py_add float_add current_scrapes total_scrapes,
              py_add float_add current_matches total_matches with
        | Some next_cooldown_iso, Some runs, Some scrapes, Some matches =>
            if updates_raise db then (false, db)
            else
              let updated :=
                <["total_runs" := runs]>
                (<["total_scrapes" := scrapes]>
                (<["total_matches" := matches]>
                (<["last_run" := JStr (strftime_gmtime current_time)]>
                (<["next_cooldown" := JStr next_cooldown_iso]> data)))) in
              let updated := if log_entry then <["logs" := JArr]> updated else updated in
              (true, with_tasks db (<[task_id := updated]> (tasks db)))
        | _, _, _, _ => (false, db)
        end
    end.

End Api.

(** [toggle_task_active]: the answer, the collection afterwards and the
    calls made. *)
Definition toggle_task_active (current_time : Q) (db : database)
  (task_id user_id : string) (is_active : bool) : bool * database * list call :=
  if reads_raise db then (false, db, [])
  else
    match tasks db !! task_id with
    | None => (false, db, [])
    | Some data =>
        if negb (owned_by data user_id) then (false, db, [])
        else
          let immediate : option (list call) :=
            if is_active then
              let next_cooldown :=
                default (JFloat (Finite current_time)) (data !! "next_cooldown") in
              match py_float_ge current_time next_cooldown with
              | None => None
              | Some true => Some [ImmediateRun task_id]
              | Some false => Some []
              end
            else Some [] in
          match immediate with
          | None => (false, db, [])
          | Some started =>
              if updates_raise db then (false, db, started)
              else
                (true,
                 with_tasks db (<[task_id := <["is_active" := JBool is_active]> data]>
                                  (tasks db)),
                 started ++ [if is_active then ResumeJob task_id else PauseJob task_id])
          end
    end.

Definition delete_user_task (db : database) (task_id user_id : string)
  : bool * database * list call :=
  if reads_raise db then (false, db, [])
  else
    match tasks db !! task_id with
    | None => (false, db, [])
    | Some data =>
        if negb (owned_by data user_id) then (false, db, [])
        else if deletes_raise db then (false, db, [])
        else (true, with_tasks db (delete task_id (tasks db)), [DeleteJob task_id])
    end.

(** A collection that works, holding one task of user [u1] as
    [create_user_task] writes it (the fields read here). *)
Definition sample_task : task_data :=
  <["user_id" := JStr "u1"]>
  (<["frequency_minutes" := JInt 120]>
  (<["is_active" := JBool true]>
  (<["next_cooldown" := JStr "2025-01-01T02:00:00Z"]>
  (<["total_runs" := JInt 0]>
  (<["total_scrapes" := JInt 0]>
  (<["total_matches" := JInt 0]> ∅)))))).
Definition sample_db : database :=
  Database false false false {["u1_1735689600" := sample_task]}.
Definition sample_iso (t : Q) : string := "2025-01-01T00:00:00Z".
Definition sample_cooldown (t : Q) (frequency : json_value) : option string :=
  match frequency with
  | JInt _ | JFloat _ | JBool _ => Some "2025-01-01T02:00:00Z"
  | _ => None
  end.
Definition sample_float_add (x : pyfloat) (k : Z) : pyfloat :=
  match x with
  | Finite q => Finite (q + inject_Z k)
  | _ => x
  end.

End TaskApi.

(** * Properties *)

(** ** Strings and identities *)

Lemma length_append (s t : string) :
  String.length (s +:+ t) = String.length s + String.length t.
Proof. induction s as [|c s IH]; simpl; [done | by rewrite IH]. Qed.

Lemma append_inv_tail (s1 s2 t : string) : s1 +:+ t = s2 +:+ t → s1 = s2.
Proof.
  revert s2. induction s1 as [|c s1 IH]; intros [|d s2] H; simpl in H.
  - done.
  - apply (f_equal String.length) in H. rewrite !length_append in H. simpl in H. lia.
  - apply (f_equal String.length) in H. rewrite !length_append in H. simpl in H. lia.
  - injection H as -> H. f_equal. by apply IH.
Qed.

(** The index of enumeration is part of both forms of the identity: two
    different ranks never give the same identity. *)
Lemma json_ld_listing_id_rank py_hash (i j : nat) (t : string) :
  json_ld_listing_id py_hash i t = json_ld_listing_id py_hash j t → i = j.
Proof.
  unfold json_ld_listing_id. intros H.
  apply (inj (String.append "json_ld_")) in H.
  apply append_inv_tail in H. by apply (inj pretty) in H.
Qed.

Lemma dom_listing_id_rank (i j : nat) (numeric_id : string) :
  dom_listing_id i numeric_id = dom_listing_id j numeric_id → i = j.
Proof.
  unfold dom_listing_id. intros H.
  apply (inj (String.append "dom_")) in H.
  apply append_inv_tail in H. by apply (inj pretty) in H.
Qed.

(** ** The scrape loop *)

Section CrawlFacts.

Variable py_hash : string → Z.
Variable netloc : string → string.
Variable fetch_search : string → option search_page.
Variable fetch_listing : string → option listing_page.

Local Abbreviation loop := (scrape_loop py_hash netloc fetch_listing).
Local Abbreviation crawl :=
  (scrape_new_listings_data py_hash netloc fetch_search fetch_listing).

(** An initial run never looks at the seen identities. *)
Lemma scrape_loop_initial dom u seen bound i els :
  loop dom u true seen bound i els = loop dom u true None bound i els.
Proof.
  revert bound i. induction els as [|e els IH]; intros bound i; simpl; [done|].
  destruct (process_element _ _ _ _ _ _ _ _) as [bound' [l|]]; simpl; by rewrite IH.
Qed.

Lemma scrape_loop_length dom u initial seen bound i els :
  (List.length (loop dom u initial seen bound i els) ≤ List.length els)%nat.
Proof.
  revert bound i. induction els as [|e els IH]; intros bound i; simpl; [done|].
  destruct (process_element _ _ _ _ _ _ _ _) as [bound' [l|]].
  - destruct (negb initial && seen_before seen (id l)); simpl; [lia|].
    specialize (IH bound' (S i)). lia.
  - specialize (IH bound' (S i)). lia.
Qed.

(** Each listing is tested before it is appended. *)
Lemma scrape_loop_unseen dom u seen bound i els l :
  l ∈ loop dom u false seen bound i els → seen_before seen (id l) = false.
Proof.
  revert bound i. induction els as [|e els IH]; intros bound i; simpl.
  - by intros ?%elem_of_nil.
  - destruct (process_element _ _ _ _ _ _ _ _) as [bound' [l'|]]; [|by apply IH].
    destruct (seen_before seen (id l')) eqn:Hseen; simpl.
    + by intros ?%elem_of_nil.
    + intros [->|Hin]%elem_of_cons; [done | by eapply IH].
Qed.

(** The listings of an incremental run are those of the same walk without
    a seen set, cut in front of the first seen identity. *)
Lemma scrape_loop_cut dom u (seen : gset string) bound i els :
  loop dom u false (Some seen) bound i els
  = prefix_before_first_seen seen (loop dom u false None bound i els).
Proof.
  revert bound i. induction els as [|e els IH]; intros bound i; simpl; [done|].
  destruct (process_element _ _ _ _ _ _ _ _) as [bound' [l|]]; simpl; [|by apply IH].
  destruct (decide (seen = ∅)) as [->|Hne].
  - rewrite bool_decide_eq_false_2 by set_solver. by rewrite IH.
  - destruct (bool_decide (id l ∈ seen)); [done | by rewrite IH].
Qed.

Lemma scrape_cut u count (seen : gset string) :
  crawl u false count (Some seen)
  = prefix_before_first_seen seen (crawl u false count None).
Proof.
  unfold scrape_new_listings_data. destruct (fetch_search u); [|done].
  apply scrape_loop_cut.
Qed.

End CrawlFacts.

Lemma prefix_before_first_seen_app (seen : gset string) pre b post :
  (∀ l, l ∈ pre → id l ∉ seen) → id b ∈ seen →
  prefix_before_first_seen seen (pre ++ b :: post) = pre.
Proof.
  intros Hpre Hb. induction pre as [|a pre IH]; simpl.
  - by rewrite bool_decide_eq_true_2.
  - rewrite bool_decide_eq_false_2 by (apply Hpre; left).
    rewrite IH; [done|]. intros l Hl. apply Hpre. by right.
Qed.

Lemma prefix_before_first_seen_all (seen : gset string) items :
  (∀ l, l ∈ items → id l ∉ seen) → prefix_before_first_seen seen items = items.
Proof.
  intros H. induction items as [|a items IH]; simpl; [done|].
  rewrite bool_decide_eq_false_2 by (apply H; left).
  rewrite IH; [done|]. intros l Hl. apply H. by right.
Qed.

(** ** C1: the identity of a listing and its rank *)

(** C1 (the code departs from it).  The claim asks that a listing keeps its
    identity when its rank in the result page changes.  Here a page that
    holds one entry is fetched, then fetched again after a newer entry was
    inserted above it: both crawls return the entry, with the same title,
    and under two different identities, whatever Python's [hash] is. *)
Theorem C1_identity_changes_with_rank :
  ∀ (py_hash : string → Z) (netloc : string → string)
    (fetch_listing : string → option listing_page) (search_url : string)
    (item newer : json_ld_item),
    ∃ l1 l0 l2,
      scrape_new_listings_data py_hash netloc (λ _, Some (SearchPage [] [item]))
        fetch_listing search_url false 6 None = [l1]
      ∧ scrape_new_listings_data py_hash netloc (λ _, Some (SearchPage [] [newer; item]))
          fetch_listing search_url false 6 None = [l0; l2]
      ∧ title l1 = ld_title item ∧ title l2 = ld_title item
      ∧ id l1 ≠ id l2.
Proof.
  intros. unfold scrape_new_listings_data, listing_elements. cbn -[json_ld_listing_id].
  do 3 eexists. repeat split.
  cbn -[json_ld_listing_id]. intros H%json_ld_listing_id_rank. discriminate.
Qed.

(** ** C2: where an incremental run stops *)

(** C2.  Let the result page yield the rank-ordered listings
    [pre ++ b :: post] (what the crawl returns when nothing stops it), let
    no identity of [pre] be in the seen set and let the identity of [b] be
    in it.  Then the incremental crawl returns exactly [pre]: it stops at
    [b], whatever follows.  With [pre = [A]] and [post = [C; D]] this is
    the list [A, B, C, D] of the claim. *)
Theorem C2_incremental_run_stops_at_first_seen :
  ∀ (py_hash : string → Z) (netloc : string → string)
    (fetch_search : string → option search_page)
    (fetch_listing : string → option listing_page)
    (search_url : string) (count : Z) (seen : gset string)
    (pre : list listing) (b : listing) (post : list listing),
    scrape_new_listings_data py_hash netloc fetch_search fetch_listing
      search_url false count None = pre ++ b :: post →
    (∀ l, l ∈ pre → id l ∉ seen) →
    id b ∈ seen →
    scrape_new_listings_data py_hash netloc fetch_search fetch_listing
      search_url false count (Some seen) = pre.
Proof.
  intros * Hfetched Hpre Hb.
  rewrite scrape_cut, Hfetched. by apply prefix_before_first_seen_app.
Qed.

Lemma C2_witness :
  let seen : gset string := {["json_ld_1_67919"; "json_ld_2_67919"; "json_ld_3_67919"]} in
  ∃ a b c d,
    id b ∈ seen ∧ id c ∈ seen ∧ id d ∈ seen ∧ (id a ∉ seen)
    ∧ scrape_new_listings_data Sample.py_hash Sample.netloc
        (Sample.serve Sample.page_abcd) Sample.fetch_listing Sample.search_url
        false 6 None = [a; b; c; d]
    ∧ scrape_new_listings_data Sample.py_hash Sample.netloc
        (Sample.serve Sample.page_abcd) Sample.fetch_listing Sample.search_url
        false 6 (Some seen) = [a].
Proof.
  intros seen.
  set (mk := λ (n t : string),
         Listing n ("https://sfbay.craigslist.org/search/sss?query=" +:+ t) t t "500"
           "San Francisco").
  exists (mk "json_ld_0_67919" "A"), (mk "json_ld_1_67919" "B"),
         (mk "json_ld_2_67919" "C"), (mk "json_ld_3_67919" "D").
  assert (Hfetched :
    scrape_new_listings_data Sample.py_hash Sample.netloc
      (Sample.serve Sample.page_abcd) Sample.fetch_listing Sample.search_url
      false 6 None
    = [mk "json_ld_0_67919" "A"]
      ++ mk "json_ld_1_67919" "B" :: [mk "json_ld_2_67919" "C"; mk "json_ld_3_67919" "D"])
    by (vm_compute; reflexivity).
  assert (Ha : id (mk "json_ld_0_67919" "A") ∉ seen).
  { subst seen. simpl. rewrite !not_elem_of_union, !not_elem_of_singleton.
    repeat split; discriminate. }
  assert (Hb : id (mk "json_ld_1_67919" "B") ∈ seen) by (subst seen; simpl; set_solver).
  split_and!.
  - exact Hb.
  - subst seen; simpl; set_solver.
  - subst seen; simpl; set_solver.
  - exact Ha.
  - exact Hfetched.
  - apply (C2_incremental_run_stops_at_first_seen _ _ _ _ _ _ seen
             [mk "json_ld_0_67919" "A"] (mk "json_ld_1_67919" "B")
             [mk "json_ld_2_67919" "C"; mk "json_ld_3_67919" "D"] Hfetched);
      [|exact Hb].
    intros l ->%list_elem_of_singleton. exact Ha.
Defined.

(** ** C10: an incremental run returns unseen listings only *)

(** C10.  When the crawl is not an initial run and is given a non-empty
    set of seen identities, no listing it returns has its identity in that
    set. *)
Theorem C10_incremental_run_returns_unseen :
  ∀ (py_hash : string → Z) (netloc : string → string)
    (fetch_search : string → option search_page)
    (fetch_listing : string → option listing_page)
    (search_url : string) (count : Z) (seen : gset string) (l : listing),
    seen ≠ ∅ →
    l ∈ scrape_new_listings_data py_hash netloc fetch_search fetch_listing
          search_url false count (Some seen) →
    id l ∉ seen.
Proof.
  intros * Hne Hin. unfold scrape_new_listings_data in Hin.
  destruct (fetch_search search_url) as [page|]; [|by apply elem_of_nil in Hin].
  apply scrape_loop_unseen in Hin. unfold seen_before in Hin.
  destruct (decide (seen = ∅)); [done|]. by apply bool_decide_eq_false in Hin.
Qed.

Lemma C10_witness :
  let seen : gset string := {["dom_1_7801234000"]} in
  let l := Listing "dom_0_7801234567"
             "https://sfbay.craigslist.org/sfc/bik/d/trek-domane/7801234567.html"
             "trek-domane" "Well kept, 54cm." "$500" "94105" in
  seen ≠ ∅
  ∧ l ∈ scrape_new_listings_data Sample.py_hash Sample.netloc
          (Sample.serve Sample.page_dom) Sample.fetch_listing Sample.search_url
          false 6 (Some seen)
  ∧ id l ∉ seen.
Proof.
  intros seen l.
  assert (Hne : seen ≠ ∅) by (subst seen; apply non_empty_singleton_L).
  assert (Hin : l ∈ scrape_new_listings_data Sample.py_hash Sample.netloc
                      (Sample.serve Sample.page_dom) Sample.fetch_listing
                      Sample.search_url false 6 (Some seen)).
  { replace (scrape_new_listings_data _ _ _ _ _ _ _ _) with [l]
      by (vm_compute; reflexivity).
    apply list_elem_of_singleton. reflexivity. }
  split_and!; [exact Hne | exact Hin |].
  exact (C10_incremental_run_returns_unseen _ _ _ _ _ _ seen l Hne Hin).
Defined.

(** ** The seen-set store: what a merge records *)

Lemma recorded_write fs h ids fs' h' :
  write_listing_ids fs h ids = Some fs' →
  recorded fs' h' = if decide (h = h') then list_to_set ids else recorded fs h'.
Proof.
  unfold write_listing_ids. destruct (set_raises fs); [done|]. intros [= <-].
  unfold recorded. simpl. rewrite lookup_insert. by case_decide.
Qed.

Lemma recorded_read fs h ids :
  read_listing_ids fs h = Some ids → recorded fs h = list_to_set ids.
Proof.
  unfold read_listing_ids, recorded. destruct (get_raises fs); [done|].
  intros [= <-]. by destruct (seen_listings fs !! h).
Qed.

Lemma list_of_set_elements (ids : list string) :
  list_to_set (list_of_set ids) =@{gset string} list_to_set ids.
Proof. unfold list_of_set. apply list_to_set_elements_L. Qed.

(** What [save_listing_ids] of [backend/main.py] leaves in the store: the
    union when it reports success on a non-empty list, the same store in
    every other case. *)
Lemma save_listing_ids_recorded fs h ids h' :
  recorded (save_listing_ids fs h ids).1 h'
  = if decide (h = h' ∧ (save_listing_ids fs h ids).2 = true)
    then recorded fs h' ∪ list_to_set ids
    else recorded fs h'.
Proof.
  unfold save_listing_ids. destruct (firestore_client fs); simpl.
  2:{ rewrite decide_False; [done | by intros [_ ?]]. }
  destruct ids as [|i ids].
  { simpl. case_decide; [|done]. set_solver. }
  destruct (read_listing_ids fs h) as [existing|] eqn:Hread; simpl.
  2:{ rewrite decide_False; [done | by intros [_ ?]]. }
  destruct (write_listing_ids fs h _) as [fs'|] eqn:Hwrite; simpl.
  2:{ rewrite decide_False; [done | by intros [_ ?]]. }
  rewrite (recorded_write _ _ _ _ h' Hwrite).
  destruct (decide (h = h')) as [<-|Hne].
  - rewrite decide_True by done. rewrite list_of_set_elements, list_to_set_app_L.
    by rewrite (recorded_read _ _ _ Hread).
  - rewrite decide_False; [done | by intros [? _]].
Qed.

(** The store of [backend/main.py] only grows. *)
Lemma save_listing_ids_monotone fs h ids h' :
  recorded fs h' ⊆ recorded (save_listing_ids fs h ids).1 h'.
Proof. rewrite save_listing_ids_recorded. case_decide; set_solver. Qed.

Lemma save_listing_ids_succeeds fs h ids :
  firestore_client fs = true → get_raises fs = false → set_raises fs = false →
  (save_listing_ids fs h ids).2 = true
  ∧ firestore_client (save_listing_ids fs h ids).1 = true
  ∧ get_raises (save_listing_ids fs h ids).1 = false
  ∧ set_raises (save_listing_ids fs h ids).1 = false.
Proof.
  intros Hc Hg Hs. unfold save_listing_ids, read_listing_ids, write_listing_ids.
  rewrite Hc, Hg, Hs. simpl. by destruct ids.
Qed.

(** On a store that works, two merges of [backend/main.py] leave the union. *)
(** ** C7: an initial run is bounded and stops nowhere *)

Lemma py_take_length {A : Type} (n : Z) (l : list A) :
  (0 ≤ n)%Z → (List.length (py_take n l) ≤ Z.to_nat n)%nat.
Proof.
  intros Hn. unfold py_take. rewrite decide_True by done.
  rewrite length_take. lia.
Qed.

Section RunFacts.

Variable py_repr : string → string.
Variable py_hash : string → Z.
Variable netloc : string → string.
Variable fetch_search : string → option search_page.
Variable fetch_listing : string → option listing_page.
Variable openai_client : bool.
Variable chat : listing → string → completion.
Variable json_decode : string → option evaluation_dict.
Variable format_llm_query : string → string.
Variable build_craigslist_url : string → string → string → string.
Variable create_search_hash : string → string → string → string → option string → string.
Variable send_notification_via_discord : list evaluated_listing → string → bool.
Variable user_tasks : gmap string task_doc.

Local Abbreviation crawl :=
  (scrape_new_listings_data py_hash netloc fetch_search fetch_listing).
Local Abbreviation run :=
  (craigslist_bot_entry_point py_repr py_hash netloc fetch_search fetch_listing openai_client
     chat json_decode format_llm_query build_craigslist_url create_search_hash
     send_notification_via_discord user_tasks).
Local Abbreviation run_at :=
  (craigslist_bot_entry_point_at py_repr py_hash netloc fetch_search fetch_listing openai_client
     chat json_decode format_llm_query build_craigslist_url create_search_hash
     send_notification_via_discord user_tasks).

Lemma scrape_initial_length u count seen :
  (0 ≤ count)%Z → (List.length (crawl u true count seen) ≤ Z.to_nat count)%nat.
Proof.
  intros Hc. unfold scrape_new_listings_data.
  destruct (fetch_search u) as [page|]; simpl; [|lia].
  etrans; [apply scrape_loop_length|].
  unfold listing_elements. by apply py_take_length.
Qed.

Lemma scrape_initial_no_stop u count seen :
  crawl u true count seen = crawl u true count None.
Proof.
  unfold scrape_new_listings_data. destruct (fetch_search u); [|done].
  apply scrape_loop_initial.
Qed.

Lemma scored_opening_logs cfg q u : scored (opening_logs user_tasks cfg q u) = [].
Proof.
  unfold opening_logs. destruct (task_id cfg); [|done]. by case_decide.
Qed.

Lemma scored_task_log cfg a b m lv ini : scored (task_log user_tasks cfg a b m lv ini) = [].
Proof. unfold task_log. by destruct (task_id cfg). Qed.

Lemma scored_map_Scored (ls : list listing) : scored (map (λ l, Scored (id l)) ls) = map id ls.
Proof. induction ls as [|l ls IH]; simpl; [done|]. unfold scored in *. simpl. by rewrite IH. Qed.

Lemma scored_app (a b : list event) : scored (a ++ b) = scored a ++ scored b.
Proof. apply omap_app. Qed.

Lemma scored_notified (rec : list evaluated_listing) :
  scored match rec with
         | [] => []
         | _ => [Notified (map (λ l, id (the_listing l)) rec)]
         end = [].
Proof. by destruct rec. Qed.

(** On an initial run every scraped listing goes to the scorer, and the
    report counts every one of them as new. *)
Lemma run_initial_all_new cfg fs :
  let refined_query := format_llm_query (search_query cfg) in
  let search_url := build_craigslist_url refined_query (location cfg) (distance cfg) in
  let search_hash :=
    create_search_hash refined_query (location cfg) (distance cfg) (user_id cfg)
      (task_id cfg) in
  let listings := crawl search_url true (initial_scrape_count cfg) None in
  enable_initial_scrape cfg = true →
  seed_seen_set cfg = false →
  task_is_paused user_tasks cfg = false →
  get_seen_listing_ids fs search_hash = [] →
  scored (run cfg fs).2 = map id listings
  ∧ ∀ total new, reported_counts (run cfg fs).1.1 = Some (total, new) →
      total = List.length listings ∧ new = List.length listings.
Proof.
  intros refined_query search_url search_hash listings Hen Hseed Hpause Hseen.
  unfold craigslist_bot_entry_point, craigslist_bot_entry_point_at.
  fold refined_query. fold search_url. fold search_hash.
  rewrite Hpause, Hseed, Hseen, Hen. simpl list_to_set.
  rewrite size_empty. cbn [andb negb]. unfold scrape.
  rewrite scrape_initial_no_stop. fold listings.
  rewrite (bool_decide_eq_true_2 (0 = 0)) by done.
  rewrite (bool_decide_eq_false_2 (0 < 0)) by lia. cbn [andb negb]. rewrite andb_true_r.
  destruct (bool_decide (List.length listings = 0)) eqn:Hlen.
  - apply bool_decide_eq_true in Hlen.
    apply length_zero_iff_nil in Hlen. rewrite Hlen. cbn [fst snd].
    rewrite !scored_app, scored_opening_logs, scored_task_log.
    split; [done|]. by intros ?? [= <- <-].
  - destruct (STRICTNESS_THRESHOLDS !! strictness cfg) as [threshold|]; cbn [fst snd].
    + destruct (get_production_listings _ _) as [error|rec]; cbn [fst snd].
      * rewrite !scored_app, scored_opening_logs, scored_map_Scored.
        split; [done|]. intros ?? [=].
      * destruct listings as [|l0 ls0]; [done|]. cbn [fst snd].
        rewrite !scored_app, scored_opening_logs, scored_map_Scored, scored_notified,
          scored_task_log.
        split; [by rewrite !app_nil_r|]. by intros ?? [= <- <-].
    + rewrite !scored_app, scored_opening_logs, scored_map_Scored.
      split; [done|]. intros ?? [=].
Qed.

(** C7.  An initial run (initial scraping enabled, nothing recorded for
    the fingerprint, no seeding) with a limit [initial_scrape_count >= 0]:
    the crawl returns at most that many listings, whatever the page holds
    (at most 6 of 50 for the limit 6); it returns the same listings
    whatever seen set it is given, so it stops nowhere early; and every
    listing it returns is handed to the scorer and counted as new in the
    report. *)
Theorem C7_initial_run_bounded cfg fs :
  let refined_query := format_llm_query (search_query cfg) in
  let search_url := build_craigslist_url refined_query (location cfg) (distance cfg) in
  let search_hash :=
    create_search_hash refined_query (location cfg) (distance cfg) (user_id cfg)
      (task_id cfg) in
  (0 ≤ initial_scrape_count cfg)%Z →
  enable_initial_scrape cfg = true →
  seed_seen_set cfg = false →
  task_is_paused user_tasks cfg = false →
  get_seen_listing_ids fs search_hash = [] →
  ∃ listings,
    listings = crawl search_url true (initial_scrape_count cfg) (Some ∅)
    ∧ (List.length listings ≤ Z.to_nat (initial_scrape_count cfg))%nat
    ∧ (∀ seen, crawl search_url true (initial_scrape_count cfg) seen = listings)
    ∧ scored (run cfg fs).2 = map id listings
    ∧ ∀ total new, reported_counts (run cfg fs).1.1 = Some (total, new) →
        total = List.length listings ∧ new = List.length listings.
Proof.
  intros refined_query search_url search_hash Hcount Hen Hseed Hpause Hseen.
  eexists. split; [reflexivity|]. split; [by apply scrape_initial_length|].
  split.
  { intros seen. by rewrite scrape_initial_no_stop, (scrape_initial_no_stop _ _ (Some _)). }
  rewrite scrape_initial_no_stop.
  by apply run_initial_all_new.
Qed.

(** *** The run and the store *)

(** The response and the trace of a run depend on the store only through
    the identities [get_seen_listing_ids] returns. *)
Lemma run_reads_store_once cfg fs1 fs2 :
  (let refined_query := format_llm_query (search_query cfg) in
   let search_hash :=
     create_search_hash refined_query (location cfg) (distance cfg) (user_id cfg)
       (task_id cfg) in
   get_seen_listing_ids fs1 search_hash = get_seen_listing_ids fs2 search_hash) →
  (run cfg fs1).1.1 = (run cfg fs2).1.1 ∧ (run cfg fs1).2 = (run cfg fs2).2.
Proof.
  cbv zeta. intros Hseen. unfold craigslist_bot_entry_point, craigslist_bot_entry_point_at. cbv zeta.
  rewrite Hseen.
  repeat (case_match; simplify_eq/=; try done).
Qed.

Lemma save_listing_ids_failing fs h ids :
  get_raises fs = true ∨ set_raises fs = true → (save_listing_ids fs h ids).1 = fs.
Proof.
  intros Hfail. unfold save_listing_ids, read_listing_ids, write_listing_ids.
  destruct (firestore_client fs); [|done]. destruct ids; [done|]. simpl.
  destruct (get_raises fs); [done|]. destruct (set_raises fs); [done|].
  by destruct Hfail.
Qed.

(** The store a run leaves is the one it was given, or what one call of
    [save_listing_ids] made of it. *)
Lemma run_final_store cfg fs :
  (run cfg fs).1.2 = fs
  ∨ ∃ h ids, (run cfg fs).1.2 = (save_listing_ids fs h ids).1.
Proof.
  unfold craigslist_bot_entry_point, craigslist_bot_entry_point_at. cbv zeta.
  repeat (case_match; simplify_eq/=; try (by left));
    right; do 2 eexists;
    first [ reflexivity
          | match goal with H : save_listing_ids _ _ _ = _ |- _ => by rewrite H end ].
Qed.

Lemma get_seen_listing_ids_as_read fs h :
  get_seen_listing_ids fs h = get_seen_listing_ids (store_as_read fs) h.
Proof.
  unfold get_seen_listing_ids, read_listing_ids, store_as_read. simpl.
  destruct (firestore_client fs); [|done]. simpl.
  destruct (get_raises fs); [by rewrite lookup_empty | done].
Qed.

(** The response and the trace of a run depend on the service only
    through the identities its read of the seen set returns. *)
Lemma run_at_reads_store_once cfg fr1 fs1 fr2 fs2 :
  (let refined_query := format_llm_query (search_query cfg) in
   let search_hash :=
     create_search_hash refined_query (location cfg) (distance cfg) (user_id cfg)
       (task_id cfg) in
   get_seen_listing_ids fr1 search_hash = get_seen_listing_ids fr2 search_hash) →
  (run_at cfg fr1 fs1).1.1 = (run_at cfg fr2 fs2).1.1
  ∧ (run_at cfg fr1 fs1).2 = (run_at cfg fr2 fs2).2.
Proof.
  cbv zeta. intros Hseen. unfold craigslist_bot_entry_point_at. cbv zeta.
  rewrite Hseen.
  repeat (case_match; simplify_eq/=; try done).
Qed.

Lemma run_at_final_store cfg fs_read fs :
  (run_at cfg fs_read fs).1.2 = fs
  ∨ ∃ h ids, (run_at cfg fs_read fs).1.2 = (save_listing_ids fs h ids).1.
Proof.
  unfold craigslist_bot_entry_point_at. cbv zeta.
  repeat (case_match; simplify_eq/=; try (by left));
    right; do 2 eexists;
    first [ reflexivity
          | match goal with H : save_listing_ids _ _ _ = _ |- _ => by rewrite H end ].
Qed.

(** C6 (as amended).  [fs_read] is the service when the run reads the
    seen set, [fs] the service when it saves.  When the read or the write
    raises, the run is not aborted: its response and everything it does
    (fetch, evaluations, notification, log) are those of a run on a
    service that works, and whose seen set is empty when it is the read
    that raised.  When the write raises (the [get] or the [set] of
    [save_listing_ids]) the documents are left as they were.  When the
    read raises and the write works, a run that is neither paused nor
    seeding and ends with status 200 on a crawl that is not empty records
    the crawled identities on top of the stored ones, although it ran as
    if nothing was stored. *)
Theorem C6_persistence_failure_is_swallowed cfg fs_read fs :
  let refined_query := format_llm_query (search_query cfg) in
  let search_url := build_craigslist_url refined_query (location cfg) (distance cfg) in
  let search_hash :=
    create_search_hash refined_query (location cfg) (distance cfg) (user_id cfg)
      (task_id cfg) in
  get_raises fs_read = true ∨ get_raises fs = true ∨ set_raises fs = true →
  (run_at cfg fs_read fs).1.1 = (run cfg (store_as_read fs_read)).1.1
  ∧ (run_at cfg fs_read fs).2 = (run cfg (store_as_read fs_read)).2
  ∧ (get_raises fs_read = true →
     get_seen_listing_ids (store_as_read fs_read) search_hash = [])
  ∧ (get_raises fs = true ∨ set_raises fs = true → (run_at cfg fs_read fs).1.2 = fs)
  ∧ (get_raises fs_read = true →
     firestore_client fs = true → get_raises fs = false → set_raises fs = false →
     seed_seen_set cfg = false → task_is_paused user_tasks cfg = false →
     let listings :=
       crawl search_url (enable_initial_scrape cfg) (initial_scrape_count cfg) (Some ∅) in
     listings ≠ [] →
     statusCode (run_at cfg fs_read fs).1.1 = 200 →
     recorded (run_at cfg fs_read fs).1.2 search_hash
     = recorded fs search_hash ∪ list_to_set (map id listings)).
Proof.
  intros refined_query search_url search_hash Hfail.
  destruct (run_at_reads_store_once cfg fs_read fs (store_as_read fs_read)
              (store_as_read fs_read)) as [Hresp Htrace].
  { cbv zeta. apply get_seen_listing_ids_as_read. }
  split_and!; [exact Hresp | exact Htrace | | |].
  - intros Hread. unfold get_seen_listing_ids, read_listing_ids, store_as_read.
    cbn [firestore_client get_raises seen_listings]. rewrite Hread.
    destruct (firestore_client fs_read); cbn [negb]; [by rewrite lookup_empty | done].
  - intros Hwrite.
    destruct (run_at_final_store cfg fs_read fs) as [H|(h & ids & H)]; [done|].
    rewrite H. by apply save_listing_ids_failing.
  - intros Hread Hc Hg Hs Hseed Hpause listings Hne.
    assert (Hseen : get_seen_listing_ids fs_read search_hash = []).
    { unfold get_seen_listing_ids, read_listing_ids. rewrite Hread.
      by destruct (firestore_client fs_read). }
    unfold craigslist_bot_entry_point_at. cbv zeta.
    fold refined_query. fold search_url. fold search_hash.
    rewrite Hpause, Hseed, Hseen. unfold scrape.
    rewrite list_to_set_nil, size_empty, (bool_decide_eq_true_2 (0 = 0)) by done.
    rewrite andb_true_r. fold listings.
    destruct listings as [|l ls] eqn:Hl; [done|].
    rewrite (bool_decide_eq_false_2 (List.length (l :: ls) = 0)) by done. cbn [andb].
    destruct (STRICTNESS_THRESHOLDS !! strictness cfg) as [t|]; cbn [fst snd];
      [|done].
    destruct (get_production_listings _ _) as [e|rec]; cbn [fst snd]; [done|].
    intros _. rewrite save_listing_ids_recorded, decide_True; [done|].
    split; [done|]. by apply save_listing_ids_succeeds.
Qed.

(** *** The run and the fetch *)

Lemma py_take_nil {A : Type} (n : Z) : py_take n ([] : list A) = [].
Proof. unfold py_take. case_decide; apply take_nil. Qed.

Lemma scrape_unreachable u initial count seen :
  fetch_search u = None → crawl u initial count seen = [].
Proof. unfold scrape_new_listings_data. by intros ->. Qed.

Lemma scrape_empty_page u initial count seen :
  fetch_search u = Some (SearchPage [] []) → crawl u initial count seen = [].
Proof.
  unfold scrape_new_listings_data, listing_elements. intros ->. simpl.
  destruct initial; [by rewrite py_take_nil | done].
Qed.

(** A run whose crawls return nothing reports no listing, with status 200. *)
Lemma run_nothing_scraped cfg fs :
  (∀ initial count seen,
     crawl (build_craigslist_url (format_llm_query (search_query cfg)) (location cfg)
              (distance cfg)) initial count seen = []) →
  statusCode (run cfg fs).1.1 = 200
  ∧ ∃ new, reported_counts (run cfg fs).1.1 = Some (0, new).
Proof.
  intros Hnone. unfold craigslist_bot_entry_point, craigslist_bot_entry_point_at, scrape. cbv zeta.
  rewrite !Hnone. simpl.
  repeat (case_match; simpl; try (by eauto)).
Qed.

(** The run sees the web only through its crawls of the search URL. *)
Lemma run_same_crawl fetch_search' cfg fs :
  (∀ initial count seen,
     crawl (build_craigslist_url (format_llm_query (search_query cfg)) (location cfg)
              (distance cfg)) initial count seen
     = scrape_new_listings_data py_hash netloc fetch_search' fetch_listing
         (build_craigslist_url (format_llm_query (search_query cfg)) (location cfg)
            (distance cfg)) initial count seen) →
  run cfg fs
  = craigslist_bot_entry_point py_repr py_hash netloc fetch_search' fetch_listing openai_client
      chat json_decode format_llm_query build_craigslist_url create_search_hash
      send_notification_via_discord user_tasks cfg fs.
Proof.
  intros Hsame. unfold craigslist_bot_entry_point, craigslist_bot_entry_point_at, scrape. cbv zeta.
  by rewrite !Hsame.
Qed.

(** C4 (as amended).  When the request for the result page fails, the
    crawl returns the empty list and the run reports [total_listings = 0]
    with status 200; and the whole outcome of the run (response, store,
    fetches, log entries) is the outcome of the same run over a result
    page that holds no item: the failure is not told apart from it. *)
Theorem C4_fetch_failure_reported_as_empty fetch_empty cfg fs :
  let search_url :=
    build_craigslist_url (format_llm_query (search_query cfg)) (location cfg)
      (distance cfg) in
  fetch_search search_url = None →
  fetch_empty search_url = Some (SearchPage [] []) →
  (∀ initial count seen, crawl search_url initial count seen = [])
  ∧ statusCode (run cfg fs).1.1 = 200
  ∧ (∃ new, reported_counts (run cfg fs).1.1 = Some (0, new))
  ∧ run cfg fs
    = craigslist_bot_entry_point py_repr py_hash netloc fetch_empty fetch_listing openai_client
        chat json_decode format_llm_query build_craigslist_url create_search_hash
        send_notification_via_discord user_tasks cfg fs.
Proof.
  intros search_url Hfail Hempty.
  assert (Hnone : ∀ initial count seen, crawl search_url initial count seen = [])
    by (intros; by apply scrape_unreachable).
  destruct (run_nothing_scraped cfg fs Hnone) as [Hstatus Hcounts].
  split_and!; [exact Hnone | exact Hstatus | exact Hcounts |].
  apply run_same_crawl. intros initial count seen. fold search_url.
  rewrite Hnone. symmetry.
  unfold scrape_new_listings_data, listing_elements. rewrite Hempty. simpl.
  destruct initial; [by rewrite py_take_nil | done].
Qed.

(** *** The run and the strictness *)

Lemma fetches_app (a b : list event) : fetches (a ++ b) = fetches a ++ fetches b.
Proof. apply omap_app. Qed.

Lemma fetches_opening_logs cfg q u : fetches (opening_logs user_tasks cfg q u) = [].
Proof. unfold opening_logs. destruct (task_id cfg); [|done]. by case_decide. Qed.

Lemma fetches_task_log cfg a b m lv ini : fetches (task_log user_tasks cfg a b m lv ini) = [].
Proof. unfold task_log. by destruct (task_id cfg). Qed.

Lemma fetches_map_Scored (ls : list listing) : fetches (map (λ l, Scored (id l)) ls) = [].
Proof. induction ls as [|l ls IH]; [done|]. exact IH. Qed.

Lemma saves_app (a b : list event) : saves (a ++ b) = saves a ++ saves b.
Proof. apply omap_app. Qed.

Lemma saves_opening_logs cfg q u : saves (opening_logs user_tasks cfg q u) = [].
Proof. unfold opening_logs. destruct (task_id cfg); [|done]. by case_decide. Qed.

Lemma saves_map_Scored (ls : list listing) : saves (map (λ l, Scored (id l)) ls) = [].
Proof. induction ls as [|l ls IH]; [done|]. exact IH. Qed.

Lemma notifications_app (a b : list event) :
  notifications (a ++ b) = notifications a ++ notifications b.
Proof. apply omap_app. Qed.

Lemma notifications_opening_logs cfg q u :
  notifications (opening_logs user_tasks cfg q u) = [].
Proof. unfold opening_logs. destruct (task_id cfg); [|done]. by case_decide. Qed.

Lemma notifications_map_Scored (ls : list listing) :
  notifications (map (λ l, Scored (id l)) ls) = [].
Proof. induction ls as [|l ls IH]; [done|]. exact IH. Qed.

(** C5 (as amended).  A run with a strictness that is not a key of
    [STRICTNESS_THRESHOLDS] (the task not paused, no seeding) is not
    rejected before the fetch.  The result page is requested and the
    listings are scraped; when the crawl returns listings, every one of
    them is evaluated, and only then the run fails with status 500 and
    the text of the [KeyError], which is the [repr] of the name, having
    sent no notification and saved no identity; when the crawl returns
    nothing the run ends with status 200 and the name is never looked
    up. *)
Theorem C5_strictness_checked_after_evaluation cfg fs :
  let refined_query := format_llm_query (search_query cfg) in
  let search_url := build_craigslist_url refined_query (location cfg) (distance cfg) in
  let search_hash :=
    create_search_hash refined_query (location cfg) (distance cfg) (user_id cfg)
      (task_id cfg) in
  let seen_ids : gset string := list_to_set (get_seen_listing_ids fs search_hash) in
  let is_initial_run := enable_initial_scrape cfg && bool_decide (size seen_ids = 0) in
  let listings :=
    crawl search_url is_initial_run (initial_scrape_count cfg) (Some seen_ids) in
  STRICTNESS_THRESHOLDS !! strictness cfg = None →
  task_is_paused user_tasks cfg = false →
  seed_seen_set cfg = false →
  fetches (run cfg fs).2 = [search_url]
  ∧ (listings ≠ [] →
     (run cfg fs).1.1
     = Response 500 (Failure ("Craigslist bot execution failed: "
                              +:+ py_repr (strictness cfg)))
     ∧ scored (run cfg fs).2 = map id listings
     ∧ notifications (run cfg fs).2 = []
     ∧ saves (run cfg fs).2 = []
     ∧ (run cfg fs).1.2 = fs)
  ∧ (listings = [] → statusCode (run cfg fs).1.1 = 200).
Proof.
  intros refined_query search_url search_hash seen_ids is_initial_run listings
    Hbad Hpause Hseed.
  unfold craigslist_bot_entry_point, craigslist_bot_entry_point_at. cbv zeta.
  fold refined_query. fold search_url. fold search_hash. fold seen_ids.
  fold is_initial_run. unfold scrape. fold listings.
  rewrite Hpause, Hseed, Hbad.
  destruct listings as [|l ls] eqn:Hl.
  - rewrite (bool_decide_eq_true_2 (List.length [] = 0)) by done.
    split_and!; [|done|intros _].
    + repeat (case_match; cbn [fst snd]);
        rewrite ?fetches_app, ?fetches_opening_logs, ?fetches_task_log; done.
    + repeat (case_match; cbn [fst snd]); done.
  - rewrite (bool_decide_eq_false_2 (List.length (l :: ls) = 0)) by done.
    cbn [andb fst snd].
    split_and!; [|intros _|done].
    + by rewrite !fetches_app, fetches_opening_logs, fetches_map_Scored.
    + split_and!; [done| | | |done].
      * by rewrite !scored_app, scored_opening_logs, scored_map_Scored.
      * by rewrite !notifications_app, notifications_opening_logs,
          notifications_map_Scored.
      * by rewrite !saves_app, saves_opening_logs, saves_map_Scored.
Qed.

End RunFacts.

(** ** C8: the threshold is inclusive *)

Lemma meets_threshold_score (l : evaluated_listing) (t q : Q) :
  score l = Some q → meets_threshold l t = inr (Qle_bool t q).
Proof.
  unfold score, meets_threshold.
  destruct (evaluation l !! "match_score") as [[| | |[]| | |]|]; try discriminate;
    by intros [= <-].
Qed.

(** C8.  When every evaluated listing carries a finite number as its
    score, the filter returns a list; a listing is in it if and only if it
    is in the input and its score is greater than or equal to the
    threshold; in particular a listing whose score equals the threshold is
    kept.  The order of the input is preserved. *)
Theorem C8_threshold_inclusive :
  ∀ (recommended_listings : list evaluated_listing) (threshold : Q),
    (∀ l, l ∈ recommended_listings → is_Some (score l)) →
    ∃ kept,
      get_production_listings recommended_listings threshold = inr kept
      ∧ (∀ l, l ∈ kept ↔
              l ∈ recommended_listings ∧ ∃ q, score l = Some q ∧ (threshold <= q)%Q)
      ∧ (∀ l q, l ∈ recommended_listings → score l = Some q → (q == threshold)%Q →
                l ∈ kept)
      ∧ sublist kept recommended_listings.
Proof.
  intros ls t Hnum.
  assert (∃ kept, get_production_listings ls t = inr kept
            ∧ (∀ l, l ∈ kept ↔ l ∈ ls ∧ ∃ q, score l = Some q ∧ (t <= q)%Q)
            ∧ sublist kept ls) as (kept & Heq & Hiff & Hsub).
  { induction ls as [|a ls IH]; simpl.
    - exists []. split_and!; [done| |done].
      intros l. split; [by intros ?%elem_of_nil | by intros [?%elem_of_nil _]].
    - destruct IH as (kept & Heq & Hiff & Hsub).
      { intros l Hl. apply Hnum. by right. }
      destruct (Hnum a) as [q Hq]; [by left|].
      rewrite (meets_threshold_score a t q Hq), Heq.
      destruct (Qle_bool t q) eqn:Hle.
      + exists (a :: kept). split_and!; [done| |by constructor].
        intros l. rewrite !elem_of_cons, Hiff. split.
        * intros [->|[Hin Hs]]; [|by auto].
          split; [by left|]. exists q. split; [done|]. by apply Qle_bool_iff.
        * intros [[->|Hin] Hs]; [by left | by right].
      + exists kept. split_and!; [done| |by constructor].
        intros l. rewrite elem_of_cons, Hiff. split.
        * intros [Hin Hs]. by auto.
        * intros [[->|Hin] Hs]; [|done].
          destruct Hs as (q' & Hq' & Hle'). rewrite Hq in Hq'. injection Hq' as <-.
          apply Qle_bool_iff in Hle'. congruence. }
  exists kept. split_and!; [done..| |done].
  intros l q Hin Hq Heqq. apply Hiff. split; [done|]. exists q. split; [done|].
  rewrite Heqq. apply Qle_refl.
Qed.

Lemma C8_witness :
  let at_threshold := Sample.scored_listing "1" (JFloat (Finite float_0_70)) in
  let below := Sample.scored_listing "2" (JFloat (Finite (6 # 10))) in
  let above := Sample.scored_listing "3" (JInt 1) in
  (∀ l, l ∈ [at_threshold; below; above] → is_Some (score l))
  ∧ ∃ kept,
      get_production_listings [at_threshold; below; above] float_0_70 = inr kept
      ∧ at_threshold ∈ kept ∧ below ∉ kept.
Proof.
  intros at_threshold below above.
  assert (Hnum : ∀ l, l ∈ [at_threshold; below; above] → is_Some (score l)).
  { intros l Hl. apply list_elem_of_In in Hl. simpl in Hl.
    destruct Hl as [<-|[<-|[<-|[]]]]; vm_compute; eauto. }
  split; [exact Hnum|].
  destruct (C8_threshold_inclusive [at_threshold; below; above] float_0_70 Hnum)
    as (kept & Heq & Hiff & Hat & _).
  exists kept. split_and!; [exact Heq | |].
  - apply (Hat at_threshold float_0_70); [by left | reflexivity | reflexivity].
  - rewrite Hiff. intros [_ (q & Hq & Hle)].
    vm_compute in Hq. injection Hq as <-. vm_compute in Hle. by apply Hle.
Defined.

(** ** C9: a failing scorer gives the neutral evaluation *)

Lemma fallback_match_score (r : string) :
  fallback_evaluation r !! "match_score" = Some (JFloat (Finite (1 # 2))).
Proof. unfold fallback_evaluation. by rewrite lookup_insert_eq. Qed.


(** Whatever happens, the function returns one of the fallbacks or the
    decoded object: it never raises. *)
Lemma llm_evaluate_listing_cases openai_client chat json_decode l c :
  (∃ r, llm_evaluate_listing openai_client chat json_decode l c = fallback_evaluation r
        ∧ (r = "LLM evaluation unavailable" ∨ r = "Failed to parse LLM response"
           ∨ ∃ m, r = "Evaluation error: " +:+ m))
  ∨ (∃ t e, openai_client = true ∧ chat l c = ApiText t
            ∧ parse_evaluation json_decode t = Some (inr e)
            ∧ llm_evaluate_listing openai_client chat json_decode l c = e).
Proof.
  unfold llm_evaluate_listing. destruct openai_client; simpl.
  - destruct (chat l c) as [m|t] eqn:Hchat.
    + left. eexists. split; [reflexivity|]. right. right. by eexists.
    + destruct (parse_evaluation json_decode t) as [[m|e]|] eqn:Hparse.
      * left. eexists. split; [reflexivity|]. right. right. by eexists.
      * right. by exists t, e.
      * left. eexists. split; [reflexivity|]. right. by left.
  - left. eexists. split; [reflexivity|]. by left.
Qed.



(** ** C3: the seen-set store *)

Lemma save_listing_ids_twice fs h (x y z : string) :
  firestore_client fs = true → get_raises fs = false → set_raises fs = false →
  let fs1 := (save_listing_ids fs h [x; y]).1 in
  let fs2 := (save_listing_ids fs1 h [y; z]).1 in
  recorded fs2 h = recorded fs h ∪ {[x; y; z]}
  ∧ list_to_set (get_seen_listing_ids fs2 h) = recorded fs h ∪ {[x; y; z]}.
Proof.
  intros Hc Hg Hs fs1 fs2.
  destruct (save_listing_ids_succeeds fs h [x; y] Hc Hg Hs) as (Hok1 & Hc1 & Hg1 & Hs1).
  fold fs1 in Hok1, Hc1, Hg1, Hs1.
  destruct (save_listing_ids_succeeds fs1 h [y; z] Hc1 Hg1 Hs1) as (Hok2 & Hc2 & Hg2 & Hs2).
  fold fs2 in Hok2, Hc2, Hg2, Hs2.
  assert (Hrec : recorded fs2 h = recorded fs h ∪ {[x; y; z]}).
  { subst fs2. rewrite save_listing_ids_recorded, decide_True by done.
    subst fs1. rewrite save_listing_ids_recorded, decide_True by done.
    set_solver. }
  split; [exact Hrec|]. rewrite <- Hrec.
  unfold get_seen_listing_ids, read_listing_ids, recorded. rewrite Hc2, Hg2. simpl.
  by destruct (seen_listings fs2 !! h).
Qed.

(** C3 (the store of the root [main.py] departs from it).  The claim asks
    that a merge unions the new identities into the recorded ones.  On a
    store that works, the root [main.py] saves [x, y] and then [y, z]:
    [x] is recorded after the first call, and after the second the
    recorded set is exactly [{y, z}]; [x] has been evicted. *)
Theorem C3_legacy_store_overwrites :
  ∀ (fs : firestore) (search_hash x y z : string),
    firestore_client fs = true → set_raises fs = false →
    x ≠ y → x ≠ z →
    let fs1 := (Legacy.save_listing_ids fs search_hash [x; y]).1 in
    let fs2 := (Legacy.save_listing_ids fs1 search_hash [y; z]).1 in
    x ∈ recorded fs1 search_hash
    ∧ recorded fs2 search_hash = {[y; z]}
    ∧ x ∉ recorded fs2 search_hash.
Proof.
  intros fs h x y z Hc Hs Hxy Hxz fs1 fs2.
  assert (H1 : recorded fs1 h = {[x; y]}).
  { subst fs1. unfold Legacy.save_listing_ids, write_listing_ids, recorded.
    rewrite Hc, Hs. simpl. rewrite lookup_insert_eq. simpl. set_solver. }
  assert (H2 : recorded fs2 h = {[y; z]}).
  { subst fs2 fs1. unfold Legacy.save_listing_ids, write_listing_ids, recorded.
    rewrite Hc, Hs. simpl. rewrite Hc, Hs. simpl. rewrite lookup_insert_eq. simpl.
    set_solver. }
  rewrite H1, H2. set_solver.
Qed.

Lemma C3_witness :
  let fs := Sample.store ∅ in
  let fs1 := (Legacy.save_listing_ids fs "fp" ["x"; "y"]).1 in
  let fs2 := (Legacy.save_listing_ids fs1 "fp" ["y"; "z"]).1 in
  "x" ∈ recorded fs1 "fp"
  ∧ recorded fs2 "fp" = {["y"; "z"]}
  ∧ "x" ∉ recorded fs2 "fp".
Proof.
  apply (C3_legacy_store_overwrites (Sample.store ∅) "fp" "x" "y" "z");
    [reflexivity | reflexivity | discriminate | discriminate].
Defined.

Lemma C7_witness :
  let listings :=
    scrape_new_listings_data Sample.py_hash Sample.netloc (Sample.serve Sample.page_50)
      Sample.fetch_listing Sample.search_url true 6 (Some ∅) in
  let outcome :=
    craigslist_bot_entry_point Sample.py_repr Sample.py_hash Sample.netloc (Sample.serve Sample.page_50)
      Sample.fetch_listing true Sample.chat Sample.json_decode Sample.format_llm_query
      Sample.build_craigslist_url Sample.create_search_hash
      Sample.send_notification_via_discord ∅ (Sample.config "strict") (Sample.store ∅) in
  List.length (json_ld_listings Sample.page_50) = 50
  ∧ (List.length listings ≤ 6)%nat
  ∧ scored outcome.2 = map id listings
  ∧ reported_counts outcome.1.1 = Some (List.length listings, List.length listings).
Proof.
  intros listings outcome.
  destruct (C7_initial_run_bounded Sample.py_repr Sample.py_hash Sample.netloc
              (Sample.serve Sample.page_50) Sample.fetch_listing true Sample.chat
              Sample.json_decode Sample.format_llm_query Sample.build_craigslist_url
              Sample.create_search_hash Sample.send_notification_via_discord ∅
              (Sample.config "strict") (Sample.store ∅))
    as (ls & Hls & Hlen & _ & Hscored & Hcounts).
  - simpl. lia.
  - reflexivity.
  - reflexivity.
  - reflexivity.
  - reflexivity.
  - fold outcome in Hscored, Hcounts.
    change (ls = listings) in Hls. subst ls.
    split_and!; [reflexivity | exact Hlen | exact Hscored |].
    destruct (reported_counts outcome.1.1) as [[total new]|] eqn:Hrep.
    + destruct (Hcounts total new eq_refl) as [-> ->]. reflexivity.
    + vm_compute in Hrep. discriminate.
Defined.

(** ** C6: a failing store *)

(** The reads of the store raise, and both listings of the page are
    recorded in it: the run goes on as an initial run, evaluates both as
    new and reports that it completed. *)
Lemma C6_counterexample :
  let outcome :=
    craigslist_bot_entry_point Sample.py_repr Sample.py_hash Sample.netloc (Sample.serve Sample.page_dom)
      Sample.fetch_listing true Sample.chat Sample.json_decode Sample.format_llm_query
      Sample.build_craigslist_url Sample.create_search_hash
      Sample.send_notification_via_discord ∅ (Sample.config "strict") Sample.broken_store in
  get_raises Sample.broken_store = true
  ∧ recorded Sample.broken_store Sample.search_hash
    = {["dom_0_7801234567"; "dom_1_7801234000"]}
  ∧ scored outcome.2 = ["dom_0_7801234567"; "dom_1_7801234000"]
  ∧ notifications outcome.2 = [["dom_0_7801234567"; "dom_1_7801234000"]]
  ∧ ∃ samples,
      outcome.1.1
      = Response 200 (Report "Craigslist bot execution completed" 2 2 2 true "strict" samples).
Proof.
  intros outcome. split_and!.
  - reflexivity.
  - vm_compute. reflexivity.
  - vm_compute. reflexivity.
  - vm_compute. reflexivity.
  - eexists. vm_compute. reflexivity.
Qed.

Lemma C6_witness :
  let run_at :=
    craigslist_bot_entry_point_at Sample.py_repr Sample.py_hash Sample.netloc
      (Sample.serve Sample.page_dom) Sample.fetch_listing true Sample.chat
      Sample.json_decode Sample.format_llm_query Sample.build_craigslist_url
      Sample.create_search_hash Sample.send_notification_via_discord ∅
      (Sample.config "strict") in
  let unreadable := Firestore true true false 0 (seen_listings Sample.used_store) in
  get_raises unreadable = true
  ∧ statusCode (run_at unreadable Sample.used_store).1.1 = 200
  ∧ recorded Sample.used_store Sample.search_hash = {["dom_0_7801230000"]}
  ∧ recorded (run_at unreadable Sample.used_store).1.2 Sample.search_hash
    = {["dom_0_7801230000"; "dom_0_7801234567"; "dom_1_7801234000"]}
  ∧ (run_at unreadable Sample.broken_store).1.2 = Sample.broken_store.
Proof.
  intros run_at unreadable.
  assert (Hread : get_raises unreadable = true) by reflexivity.
  assert (H200 : statusCode (run_at unreadable Sample.used_store).1.1 = 200)
    by (vm_compute; reflexivity).
  pose proof (C6_persistence_failure_is_swallowed Sample.py_repr Sample.py_hash
                Sample.netloc (Sample.serve Sample.page_dom) Sample.fetch_listing true
                Sample.chat Sample.json_decode Sample.format_llm_query
                Sample.build_craigslist_url Sample.create_search_hash
                Sample.send_notification_via_discord ∅ (Sample.config "strict")
                unreadable Sample.used_store (or_introl Hread)) as H.
  cbv zeta in H. destruct H as (_ & _ & _ & _ & Hrec).
  pose proof (C6_persistence_failure_is_swallowed Sample.py_repr Sample.py_hash
                Sample.netloc (Sample.serve Sample.page_dom) Sample.fetch_listing true
                Sample.chat Sample.json_decode Sample.format_llm_query
                Sample.build_craigslist_url Sample.create_search_hash
                Sample.send_notification_via_discord ∅ (Sample.config "strict")
                unreadable Sample.broken_store (or_introl Hread)) as H'.
  cbv zeta in H'. destruct H' as (_ & _ & _ & Hkeep & _).
  split_and!; [exact Hread | exact H200 | vm_compute; reflexivity | |].
  - etrans; [apply (Hrec Hread eq_refl eq_refl eq_refl eq_refl eq_refl)|].
    + vm_compute. discriminate.
    + exact H200.
    + vm_compute. reflexivity.
  - apply Hkeep. left. reflexivity.
Defined.

(** ** C4: a failed fetch *)

(** The request for the result page raises in one run, and the page holds
    no item in the other: the two runs of the task end with the same
    response, the same store and the same log entry. *)
Lemma C4_counterexample :
  let run fetch_search :=
    craigslist_bot_entry_point Sample.py_repr Sample.py_hash Sample.netloc fetch_search
      Sample.fetch_listing true Sample.chat Sample.json_decode Sample.format_llm_query
      Sample.build_craigslist_url Sample.create_search_hash
      Sample.send_notification_via_discord Sample.user_tasks
      (Sample.task_config "strict") Sample.used_store in
  run Sample.unreachable = run (Sample.serve (SearchPage [] []))
  ∧ run Sample.unreachable
    = (Response 200
         (Report "No new listings found - all listings have been processed previously"
            0 0 0 false "strict" []),
       Sample.used_store,
       [FetchedSearch Sample.search_url; SavedIds Sample.search_hash [];
        TaskStats "t1" 0 0 "Scrape: 4 - No new posts found" "warning" true]).
Proof. intros run. split; vm_compute; reflexivity. Qed.

Lemma C4_witness :
  let run fetch_search :=
    craigslist_bot_entry_point Sample.py_repr Sample.py_hash Sample.netloc fetch_search
      Sample.fetch_listing true Sample.chat Sample.json_decode Sample.format_llm_query
      Sample.build_craigslist_url Sample.create_search_hash
      Sample.send_notification_via_discord Sample.user_tasks
      (Sample.task_config "strict") Sample.used_store in
  Sample.unreachable Sample.search_url = None
  ∧ Sample.serve (SearchPage [] []) Sample.search_url = Some (SearchPage [] [])
  ∧ statusCode (run Sample.unreachable).1.1 = 200
  ∧ run Sample.unreachable = run (Sample.serve (SearchPage [] [])).
Proof.
  intros run.
  destruct (C4_fetch_failure_reported_as_empty Sample.py_repr Sample.py_hash Sample.netloc
              Sample.unreachable Sample.fetch_listing true Sample.chat Sample.json_decode
              Sample.format_llm_query Sample.build_craigslist_url
              Sample.create_search_hash Sample.send_notification_via_discord
              Sample.user_tasks (Sample.serve (SearchPage [] []))
              (Sample.task_config "strict") Sample.used_store eq_refl eq_refl)
    as (_ & Hstatus & _ & Hsame).
  split_and!; [reflexivity | reflexivity | exact Hstatus | exact Hsame].
Defined.

(** ** C5: an unknown strictness *)

(** A run with the strictness ["extreme"]: the result page is requested,
    both listings are scraped and evaluated, and the run then fails with
    status 500. *)
Lemma C5_counterexample :
  let outcome :=
    craigslist_bot_entry_point Sample.py_repr Sample.py_hash Sample.netloc (Sample.serve Sample.page_dom)
      Sample.fetch_listing true Sample.chat Sample.json_decode Sample.format_llm_query
      Sample.build_craigslist_url Sample.create_search_hash
      Sample.send_notification_via_discord ∅ (Sample.config "extreme") (Sample.store ∅) in
  STRICTNESS_THRESHOLDS !! "extreme" = None
  ∧ fetches outcome.2 = [Sample.search_url]
  ∧ scored outcome.2 = ["dom_0_7801234567"; "dom_1_7801234000"]
  ∧ outcome.1.1 = Response 500 (Failure "Craigslist bot execution failed: 'extreme'").
Proof. intros outcome. split_and!; vm_compute; reflexivity. Qed.

Lemma C5_witness :
  let outcome :=
    craigslist_bot_entry_point Sample.py_repr Sample.py_hash Sample.netloc (Sample.serve Sample.page_dom)
      Sample.fetch_listing true Sample.chat Sample.json_decode Sample.format_llm_query
      Sample.build_craigslist_url Sample.create_search_hash
      Sample.send_notification_via_discord ∅ (Sample.config "extreme") (Sample.store ∅) in
  STRICTNESS_THRESHOLDS !! strictness (Sample.config "extreme") = None
  ∧ fetches outcome.2 = [Sample.search_url]
  ∧ outcome.1.1 = Response 500 (Failure "Craigslist bot execution failed: 'extreme'")
  ∧ saves outcome.2 = []
  ∧ outcome.1.2 = Sample.store ∅.
Proof.
  intros outcome.
  destruct (C5_strictness_checked_after_evaluation Sample.py_repr Sample.py_hash Sample.netloc
              (Sample.serve Sample.page_dom) Sample.fetch_listing true Sample.chat
              Sample.json_decode Sample.format_llm_query Sample.build_craigslist_url
              Sample.create_search_hash Sample.send_notification_via_discord ∅
              (Sample.config "extreme") (Sample.store ∅))
    as (Hfetch & Hfail & _).
  - vm_compute. reflexivity.
  - reflexivity.
  - reflexivity.
  - destruct Hfail as (Hbody & _ & _ & Hsaves & Hstore).
    { vm_compute. discriminate. }
    split_and!; [vm_compute; reflexivity | exact Hfetch | | exact Hsaves | exact Hstore].
    etrans; [exact Hbody|]. vm_compute. reflexivity.
Defined.

(** * Further properties *)

(** ** The numeric id of a URL: [extract_listing_id_from_url] *)

Lemma append_assoc (a b c : string) : (a +:+ b) +:+ c = a +:+ (b +:+ c).
Proof.
  induction a as [|x a IH]; [reflexivity|].
  change (String x ((a +:+ b) +:+ c) = String x (a +:+ (b +:+ c))). by rewrite IH.
Qed.

Lemma span_append (p : ascii → bool) (s a b : string) :
  span p s = (a, b) → s = a +:+ b ∧ all_chars p a = true.
Proof.
  revert a b. induction s as [|c s IH]; simpl; intros a b H.
  - by injection H as <- <-.
  - destruct (p c) eqn:Hc.
    + destruct (span p s) as [a' b'] eqn:Hs. injection H as <- <-.
      destruct (IH a' b' eq_refl) as [-> Ha]. simpl. by rewrite Hc, Ha.
    + by injection H as <- <-.
Qed.

Lemma startswith_append (p s : string) :
  PyStr.startswith p s = true → ∃ r, s = p +:+ r.
Proof.
  revert s. induction p as [|a p IH]; intros s H; simpl in *.
  - by exists s.
  - destruct s as [|b s]; [done|]. case_decide; [|done]. subst b.
    destruct (IH s H) as [r ->]. by exists r.
Qed.

Lemma match_numeric_here_shape (s g : string) :
  match_numeric_here s = Some g →
  g ≠ "" ∧ all_chars is_digit g = true ∧ ∃ r, s = "/" +:+ g +:+ ".html" +:+ r.
Proof.
  unfold match_numeric_here. destruct s as [|c s]; [done|].
  case_decide; [|done]. subst c.
  destruct (span is_digit s) as [ds r'] eqn:Hspan.
  destruct (span_append _ _ _ _ Hspan) as [-> Hds].
  destruct (PyStr.truthy ds) eqn:Hne; [|done]. cbn [andb].
  destruct (PyStr.startswith ".html" r') eqn:Hsw; [|done]. intros [= <-].
  destruct (startswith_append _ _ Hsw) as [r ->].
  split_and!; [by destruct ds | done | by exists r].
Qed.

Lemma re_search_Some here (s g : string) :
  re_search here s = Some g → ∃ p s', s = p +:+ s' ∧ here s' = Some g.
Proof.
  induction s as [|c s IH]; simpl.
  - destruct (here "") eqn:H; [|done]. intros [= <-]. by exists "", "".
  - destruct (here (String c s)) eqn:H.
    + intros [= <-]. by exists "", (String c s).
    + intros (p & s' & -> & Hs')%IH. by exists (String c p), s'.
Qed.

Lemma re_search_None here (s : string) :
  re_search here s = None → ∀ p s', s = p +:+ s' → here s' = None.
Proof.
  induction s as [|c s IH]; simpl.
  - destruct (here "") eqn:H; [done|]. intros _ [|? ?] s' Hs; [|discriminate Hs].
    change (EmptyString = s') in Hs. by subst.
  - destruct (here (String c s)) eqn:H; [done|]. intros Hr [|x p] s' Hs.
    + change (String c s = s') in Hs. by subst.
    + change (String c s = String x (p +:+ s')) in Hs.
      injection Hs as -> ->. by apply (IH Hr p).
Qed.

Lemma match_titled_here_numeric (s g : string) :
  match_titled_here s = Some g → ∃ p s', s = p +:+ s' ∧ match_numeric_here s' = Some g.
Proof.
  unfold match_titled_here.
  destruct s as [|c0 [|c1 [|c2 r]]]; try done.
  case_decide as Hc; [|done]. destruct Hc as (-> & -> & ->).
  destruct (span _ r) as [seg r'] eqn:Hspan.
  destruct (span_append _ _ _ _ Hspan) as [-> _].
  destruct (PyStr.truthy seg); [|done]. intros H.
  exists ("/d/" +:+ seg), r'. split; [|done]. simpl. by rewrite append_assoc.
Qed.

Lemma extract_is_numeric_search (url : string) :
  extract_listing_id_from_url url = re_search match_numeric_here url.
Proof.
  unfold extract_listing_id_from_url.
  destruct (re_search match_numeric_here url) as [g|] eqn:Hfirst; [done|].
  destruct (re_search match_titled_here url) as [g|] eqn:Hsecond; [|done].
  apply re_search_Some in Hsecond as (p & s' & -> & Hs').
  apply match_titled_here_numeric in Hs' as (p' & s'' & -> & Hnum).
  rewrite (re_search_None _ _ Hfirst (p +:+ p') s'') in Hnum; [done|].
  by rewrite append_assoc.
Qed.

(** X1.  The second regular expression of [extract_listing_id_from_url]
    never finds an id that the first one missed: whenever the search for
    [/d/([^/]+)/(\d+)\.html] matches, the search for [/(\d+)\.html]
    matches too, so the function is the first search alone. *)
Theorem X1_alternative_pattern_is_redundant :
  ∀ url,
    (∀ g, re_search match_titled_here url = Some g →
          is_Some (re_search match_numeric_here url))
    ∧ extract_listing_id_from_url url = re_search match_numeric_here url.
Proof.
  intros url. split; [|apply extract_is_numeric_search].
  intros g Hsecond.
  destruct (re_search match_numeric_here url) as [g'|] eqn:Hfirst; [by eexists|].
  apply re_search_Some in Hsecond as (p & s' & -> & Hs').
  apply match_titled_here_numeric in Hs' as (p' & s'' & -> & Hnum).
  rewrite (re_search_None _ _ Hfirst (p +:+ p') s'') in Hnum; [done|].
  by rewrite append_assoc.
Qed.

(** X2.  An id extracted from a URL of ASCII characters is a non-empty
    string of the digits [0] to [9], and the URL holds it between a slash
    and [.html].  (On such a URL [\d] is [[0-9]], as [is_digit] has it;
    beyond ASCII Python's [\d] also matches the decimal digits of other
    scripts, which is why the URL is asked to be ASCII.) *)
Theorem X2_extracted_id_is_numeric :
  ∀ url g,
    all_chars is_ascii url = true →
    extract_listing_id_from_url url = Some g →
    g ≠ "" ∧ all_chars is_digit g = true
    ∧ ∃ p r, url = p +:+ "/" +:+ g +:+ ".html" +:+ r.
Proof.
  intros url g _. rewrite extract_is_numeric_search.
  intros (p & s' & -> & Hs')%re_search_Some.
  apply match_numeric_here_shape in Hs' as (Hne & Hdig & r & ->).
  split_and!; [done..|]. by exists p, r.
Qed.

Lemma X2_witness :
  all_chars is_ascii "https://sfbay.craigslist.org/pen/bia/d/listing-title/1234567890.html"
  = true
  ∧ extract_listing_id_from_url
      "https://sfbay.craigslist.org/pen/bia/d/listing-title/1234567890.html"
    = Some "1234567890"
  ∧ all_chars is_digit "1234567890" = true.
Proof.
  assert (Ha : all_chars is_ascii
                 "https://sfbay.craigslist.org/pen/bia/d/listing-title/1234567890.html"
               = true) by (vm_compute; reflexivity).
  assert (H : extract_listing_id_from_url
                "https://sfbay.craigslist.org/pen/bia/d/listing-title/1234567890.html"
              = Some "1234567890") by (vm_compute; reflexivity).
  split; [exact Ha|]. split; [exact H|].
  exact (proj1 (proj2 (X2_extracted_id_is_numeric _ _ Ha H))).
Defined.

Lemma append_cons (c : ascii) (s t : string) : String c s +:+ t = String c (s +:+ t).
Proof. reflexivity. Qed.

Lemma append_nil (t : string) : "" +:+ t = t.
Proof. reflexivity. Qed.

Lemma span_all (p : ascii → bool) (d t : string) :
  all_chars p d = true →
  match t with String c _ => p c = false | EmptyString => True end →
  span p (d +:+ t) = (d, t).
Proof.
  intros Hd Ht. induction d as [|c d IH].
  - rewrite append_nil. destruct t as [|c t]; [done|]. simpl. by rewrite Ht.
  - simpl in Hd. apply andb_true_iff in Hd as [Hc Hd].
    rewrite append_cons. simpl. by rewrite Hc, (IH Hd).
Qed.

Lemma span_before_slash (p' T a b : string) :
  span is_digit p' = (a, b) →
  span is_digit (p' +:+ "/" +:+ T) = (a, b +:+ "/" +:+ T).
Proof.
  revert a b. induction p' as [|c p' IH]; intros a b H.
  - simpl in H. injection H as <- <-. reflexivity.
  - rewrite append_cons. simpl in *. destruct (is_digit c).
    + destruct (span is_digit p') as [a' b'] eqn:Hs. injection H as <- <-.
      by rewrite (IH a' b' eq_refl).
    + by injection H as <- <-.
Qed.

Lemma startswith_html_boundary (b T : string) :
  PyStr.startswith ".html" (b +:+ "/" +:+ T) = true → PyStr.startswith ".html" b = true.
Proof.
  destruct b as [|c1 [|c2 [|c3 [|c4 [|c5 b]]]]];
    rewrite ?append_cons, ?append_nil; simpl;
    repeat (case_decide; [subst|done]); done.
Qed.

Lemma startswith_contains (t s : string) :
  PyStr.startswith t s = true → PyStr.contains t s = true.
Proof. intros H. destruct s; simpl; by rewrite H. Qed.

Lemma contains_suffix (t a b : string) :
  PyStr.contains t b = true → PyStr.contains t (a +:+ b) = true.
Proof.
  intros H. induction a as [|c a IH]; [done|].
  rewrite append_cons. simpl. rewrite IH. apply orb_true_r.
Qed.

Lemma no_numeric_match_in (p T : string) :
  PyStr.contains ".html" p = false →
  re_search match_numeric_here (p +:+ "/" +:+ T)
  = re_search match_numeric_here ("/" +:+ T).
Proof.
  induction p as [|c p IH]; intros Hp; [done|].
  assert (Hp' : PyStr.contains ".html" p = false).
  { simpl in Hp. by apply orb_false_iff in Hp as [_ ?]. }
  rewrite append_cons.
  change (re_search match_numeric_here (String c (p +:+ "/" +:+ T)))
    with (match match_numeric_here (String c (p +:+ "/" +:+ T)) with
          | Some g => Some g
          | None => re_search match_numeric_here (p +:+ "/" +:+ T)
          end).
  replace (match_numeric_here (String c (p +:+ "/" +:+ T))) with (@None string);
    [by apply IH|].
  symmetry. unfold match_numeric_here. case_decide; [|done].
  destruct (span is_digit p) as [a b] eqn:Hspan.
  rewrite (span_before_slash _ _ _ _ Hspan).
  destruct (PyStr.truthy a); [|done]. cbn [andb].
  destruct (PyStr.startswith ".html" (b +:+ "/" +:+ T)) eqn:Hsw; [|done].
  apply startswith_html_boundary, startswith_contains in Hsw.
  destruct (span_append _ _ _ _ Hspan) as [-> _].
  by rewrite (contains_suffix _ a b Hsw) in Hp'.
Qed.

(** X3.  Round trip.  When a URL ends in a slash, a non-empty run of
    decimal digits and [.html] (followed by anything), and what comes
    before holds no [.html], the function returns exactly those digits. *)
Theorem X3_extract_recovers_id :
  ∀ p d r,
    PyStr.contains ".html" p = false →
    d ≠ "" → all_chars is_digit d = true →
    extract_listing_id_from_url (p +:+ "/" +:+ d +:+ ".html" +:+ r) = Some d.
Proof.
  intros p d r Hp Hne Hd.
  rewrite extract_is_numeric_search, (no_numeric_match_in p _ Hp).
  rewrite append_cons, append_nil.
  change (re_search match_numeric_here (String "/" (d +:+ ".html" +:+ r)))
    with (match match_numeric_here (String "/" (d +:+ ".html" +:+ r)) with
          | Some g => Some g
          | None => re_search match_numeric_here (d +:+ ".html" +:+ r)
          end).
  unfold match_numeric_here. rewrite decide_True by done.
  rewrite (span_all is_digit d (".html" +:+ r) Hd) by reflexivity.
  destruct d; [done|]. reflexivity.
Qed.

Lemma X3_witness :
  extract_listing_id_from_url
    ("https://sfbay.craigslist.org/sfc/bik/d/trek-domane-54cm" +:+ "/" +:+ "7801234567"
     +:+ ".html" +:+ "?lang=en")
  = Some "7801234567".
Proof.
  apply (X3_extract_recovers_id "https://sfbay.craigslist.org/sfc/bik/d/trek-domane-54cm"
           "7801234567" "?lang=en"); [reflexivity | discriminate | reflexivity].
Defined.

(** ** More on the crawl of [backend/main.py] *)

Section CrawlEdges.

Variable py_hash : string → Z.
Variable netloc : string → string.
Variable fetch_search : string → option search_page.
Variable fetch_listing : string → option listing_page.

Local Abbreviation loop := (scrape_loop py_hash netloc fetch_listing).
Local Abbreviation crawl :=
  (scrape_new_listings_data py_hash netloc fetch_search fetch_listing).

(** A result whose link is relative is skipped as long as [urlparse] is
    unbound, and leaves it unbound. *)
Lemma process_relative_dom dom u i (e : dom_element) :
  (∀ a, link e = Some a → PyStr.startswith_slash (href a) = true) →
  process_element py_hash netloc fetch_listing dom u false i (FromDom e) = (false, None).
Proof.
  intros Hrel. unfold process_element. destruct (link e) as [a|]; [|done].
  destruct (negb (PyStr.truthy (href a))); [done|].
  unfold make_absolute. by rewrite (Hrel a eq_refl).
Qed.

Lemma scrape_loop_cons dom u initial seen bound i e rest :
  loop dom u initial seen bound i (e :: rest)
  = match process_element py_hash netloc fetch_listing dom u bound i e with
    | (bound', None) => loop dom u initial seen bound' (S i) rest
    | (bound', Some l) =>
        if negb initial && seen_before seen (id l) then []
        else l :: loop dom u initial seen bound' (S i) rest
    end.
Proof. reflexivity. Qed.

Lemma scrape_loop_relative_dom dom u initial seen i (els : list dom_element) :
  (∀ e a, e ∈ els → link e = Some a → PyStr.startswith_slash (href a) = true) →
  loop dom u initial seen false i (map FromDom els) = [].
Proof.
  revert i. induction els as [|e els IH]; intros i Hrel; [done|].
  cbn [map]. rewrite scrape_loop_cons, process_relative_dom.
  - apply IH. intros e' a He'. apply Hrel. by right.
  - intros a. apply Hrel. by left.
Qed.

Lemma py_take_map {A B : Type} (f : A → B) (n : Z) (l : list A) :
  py_take n (map f l) = map f (py_take n l).
Proof.
  unfold py_take. rewrite length_map. case_decide; by rewrite <- fmap_take.
Qed.

Lemma py_take_subseteq {A : Type} (n : Z) (l : list A) (x : A) :
  x ∈ py_take n l → x ∈ l.
Proof.
  unfold py_take. case_decide; intros Hx; by eapply subseteq_take.
Qed.

(** X4.  A result page that is read from the DOM (it has no JSON-LD entry)
    and whose result links are all relative gives no listing at all, on an
    initial run as on an incremental one: [urlparse] is imported inside
    the function, in the JSON-LD branch, so in the DOM branch the name is
    unbound, every turn of the loop raises and is skipped. *)
Theorem X4_relative_dom_links_are_all_skipped :
  ∀ (search_url : string) (page : search_page) (is_initial_run : bool)
    (count : Z) (seen_ids : option (gset string)),
    fetch_search search_url = Some page →
    json_ld_listings page = [] →
    (∀ e a, e ∈ dom_elements page → link e = Some a →
            PyStr.startswith_slash (href a) = true) →
    crawl search_url is_initial_run count seen_ids = [].
Proof.
  intros u page initial count seen Hpage Hld Hrel.
  unfold scrape_new_listings_data, listing_elements. rewrite Hpage, Hld.
  destruct initial.
  - rewrite py_take_map. apply scrape_loop_relative_dom.
    intros e a He. apply Hrel. by eapply py_take_subseteq.
  - by apply scrape_loop_relative_dom.
Qed.

(** Without a seen set the flag [is_initial_run] only cuts the elements. *)
Lemma scrape_loop_no_seen dom u initial bound i els :
  loop dom u initial None bound i els = loop dom u true None bound i els.
Proof.
  revert bound i. induction els as [|e els IH]; intros bound i; simpl; [done|].
  destruct (process_element _ _ _ _ _ _ _ _) as [bound' [l|]]; simpl;
    rewrite ?andb_false_r; by rewrite IH.
Qed.

Lemma scrape_loop_empty_seen dom u initial bound i els :
  loop dom u initial (Some ∅) bound i els = loop dom u initial None bound i els.
Proof.
  revert bound i. induction els as [|e els IH]; intros bound i; simpl; [done|].
  destruct (process_element _ _ _ _ _ _ _ _) as [bound' [l|]]; simpl;
    rewrite ?decide_True by done; by rewrite IH.
Qed.

(** The listings of a walk over the first elements are the first listings
    of the walk over all of them. *)
Lemma scrape_loop_take dom u bound i n els :
  loop dom u true None bound i (take n els) `prefix_of` loop dom u true None bound i els.
Proof.
  revert bound i n. induction els as [|e els IH]; intros bound i n.
  - by rewrite take_nil.
  - destruct n as [|n]; [apply prefix_nil|]. simpl.
    destruct (process_element _ _ _ _ _ _ _ _) as [bound' [l|]]; simpl.
    + apply prefix_cons, IH.
    + apply IH.
Qed.

Lemma scrape_initial_prefix u count :
  crawl u true count None `prefix_of` crawl u false count None.
Proof.
  unfold scrape_new_listings_data. destruct (fetch_search u) as [page|]; [|done].
  rewrite (scrape_loop_no_seen _ _ false). unfold listing_elements, py_take.
  case_decide; apply scrape_loop_take.
Qed.

(** X5.  The bounds of [initial_scrape_count], which the program does not
    validate.  With the count 0 an initial crawl returns nothing.  With a
    negative count [-k] it is not empty: the slice [[:-k]] keeps every
    element of the page but the last [k], and the loop walks those. *)
Theorem X5_initial_scrape_count_bounds :
  ∀ (search_url : string) (page : search_page) (k : nat) (seen_ids : option (gset string)),
    fetch_search search_url = Some page →
    0 < k →
    let all := listing_elements page false 0 in
    crawl search_url true 0 seen_ids = []
    ∧ crawl search_url true (- Z.of_nat k) seen_ids
      = loop (dom_elements page) search_url true seen_ids false 0
          (take (List.length all - k) all).
Proof.
  intros u page k seen Hpage Hk all.
  unfold scrape_new_listings_data. rewrite Hpage. split.
  - unfold listing_elements, py_take. rewrite decide_True by done.
    by rewrite take_0.
  - f_equal. unfold listing_elements, py_take. rewrite decide_False by lia.
    subst all. unfold listing_elements. f_equal. lia.
Qed.

End CrawlEdges.

Lemma X4_witness :
  let page :=
    SearchPage [DomElement (Some (Anchor "/sfc/bik/d/trek-domane/7801234567.html"
                                    "trek-domane"))] [] in
  scrape_new_listings_data Sample.py_hash Sample.netloc (Sample.serve page)
    Sample.fetch_listing Sample.search_url true 6 None = [].
Proof.
  intros page.
  apply (X4_relative_dom_links_are_all_skipped Sample.py_hash Sample.netloc
           (Sample.serve page) Sample.fetch_listing Sample.search_url page);
    [reflexivity | reflexivity |].
  intros e a ->%list_elem_of_singleton [= <-]. reflexivity.
Defined.

Lemma X5_witness :
  map title
    (scrape_new_listings_data Sample.py_hash Sample.netloc (Sample.serve Sample.page_abcd)
       Sample.fetch_listing Sample.search_url true (-1) None)
  = ["A"; "B"; "C"].
Proof.
  destruct (X5_initial_scrape_count_bounds Sample.py_hash Sample.netloc
              (Sample.serve Sample.page_abcd) Sample.fetch_listing Sample.search_url
              Sample.page_abcd 1 None eq_refl) as [_ H]; [lia|].
  change (- Z.of_nat 1)%Z with (-1)%Z in H. rewrite H. vm_compute. reflexivity.
Defined.

(** ** More on the scorer and on the filter *)

Lemma fill_required_lookup (d : evaluation_dict) (k : string) :
  fill_required d !! k
  = match d !! k with
    | Some v => Some v
    | None => if decide (k ∈ required_fields) then Some (JStr "Unknown") else None
    end.
Proof.
  assert (Hstep : ∀ (ev : evaluation_dict) (f : string),
            match ev !! f with Some _ => ev | None => <[f := JStr "Unknown"]> ev end !! k
            = match ev !! k with
              | Some v => Some v
              | None => if decide (k = f) then Some (JStr "Unknown") else None
              end).
  { intros ev f. destruct (ev !! f) eqn:Hf.
    - destruct (ev !! k) eqn:Hk; [done|]. case_decide; [congruence | done].
    - rewrite lookup_insert. case_decide as Hkf.
      + subst f. by rewrite Hf, decide_True.
      + destruct (ev !! k); [done|]. by rewrite decide_False by congruence. }
  unfold fill_required, required_fields. cbn [foldl]. rewrite !Hstep.
  destruct (d !! k); [done|].
  repeat case_decide; try done; subst; exfalso;
    repeat match goal with
           | H : _ ∉ _ |- _ => apply H; set_solver
           | H : _ ∈ _ |- _ => set_solver
           end.
Qed.

Lemma parse_evaluation_inr json_decode (t : string) (e : evaluation_dict) :
  parse_evaluation json_decode t = Some (inr e) →
  ∃ decoded,
    json_loads json_decode
      (PyStr.slice t (PyStr.find "{"%char t) (PyStr.rfind "}"%char t + 1)) = Some decoded
    ∧ e = fill_required decoded.
Proof.
  unfold parse_evaluation. case_decide; [|done].
  destruct (json_loads _ _) as [decoded|]; [|done].
  destruct (fill_required decoded !! "reasoning") as [v|]; [|done].
  destruct (slice_error v); [done|]. intros [= <-]. by exists decoded.
Qed.

(** X10.  Whatever the language model answers, the evaluation of a listing
    holds the four keys [match_score], [reasoning], [feature_match] and
    [quality_assessment]; so the filter never fails on a missing key. *)
Theorem X10_evaluation_has_required_fields :
  ∀ (openai_client : bool) (chat : listing → string → completion)
    (json_decode : string → option evaluation_dict) (l : listing) (user_criteria : string)
    (threshold : Q),
    (∀ field, field ∈ required_fields →
       is_Some (llm_evaluate_listing openai_client chat json_decode l user_criteria
                  !! field))
    ∧ meets_threshold
        (Evaluated l (llm_evaluate_listing openai_client chat json_decode l user_criteria))
        threshold ≠ inl "'match_score'".
Proof.
  intros client chat jd l c t.
  assert (Hall : ∀ field, field ∈ required_fields →
            is_Some (llm_evaluate_listing client chat jd l c !! field)).
  { intros field Hfield.
    destruct (llm_evaluate_listing_cases client chat jd l c)
      as [(r & -> & _)|(text & e & _ & _ & Hparse & ->)].
    - unfold fallback_evaluation, required_fields in *.
      apply list_elem_of_In in Hfield. simpl in Hfield.
      destruct Hfield as [<-|[<-|[<-|[<-|[]]]]]; by simplify_map_eq.
    - apply parse_evaluation_inr in Hparse as (decoded & _ & ->).
      rewrite fill_required_lookup. destruct (decoded !! field); [done|].
      by rewrite decide_True. }
  split; [exact Hall|].
  unfold meets_threshold. simpl.
  destruct (Hall "match_score") as [v ->]; [set_solver|].
  destruct (py_ge v t); [done|]. destruct v; simpl; discriminate.
Qed.

Lemma get_production_listings_error (ls : list evaluated_listing) (t : Q) :
  (∃ message, get_production_listings ls t = inl message)
  ↔ ∃ l message, l ∈ ls ∧ meets_threshold l t = inl message.
Proof.
  induction ls as [|a ls IH]; simpl.
  - split; [by intros [? ?] | by intros (? & ? & ?%elem_of_nil & _)].
  - destruct (meets_threshold a t) as [m|keep] eqn:Ha.
    + split; [|by eauto]. intros _. exists a, m. split; [by left | done].
    + destruct (get_production_listings ls t) as [m|kept].
      * split; [|by eauto]. intros _.
        destruct (proj1 IH) as (l & m' & Hl & Hm'); [by eauto|].
        exists l, m'. split; [by right | done].
      * split; [by intros [? ?]|].
        intros (l & m & [->|Hl]%elem_of_cons & Hm); [congruence|].
        destruct (proj2 IH) as [? ?]; [by eauto | done].
Qed.

Lemma py_ge_threshold_free (v : json_value) (t1 t2 : Q) :
  is_Some (py_ge v t1) ↔ is_Some (py_ge v t2).
Proof. destruct v as [| | |[]| | |]; simpl; split; intros [? ?]; try done; by eauto. Qed.

Lemma meets_threshold_error_free (l : evaluated_listing) (t1 t2 : Q) m :
  meets_threshold l t1 = inl m → meets_threshold l t2 = inl m.
Proof.
  unfold meets_threshold. destruct (evaluation l !! "match_score") as [v|]; [|done].
  destruct (py_ge v t1) eqn:H1; [done|]. intros [= <-].
  destruct (py_ge v t2) eqn:H2; [|done].
  destruct (proj2 (py_ge_threshold_free v t1 t2)) as [? ?]; [by eauto | congruence].
Qed.

Lemma Qle_bool_trans (a b c : Q) :
  (a <= b)%Q → Qle_bool b c = true → Qle_bool a c = true.
Proof. intros Hab Hbc%Qle_bool_iff. apply Qle_bool_iff. by eapply Qle_trans. Qed.

Lemma meets_threshold_mono (l : evaluated_listing) (t1 t2 : Q) :
  (t1 <= t2)%Q → meets_threshold l t2 = inr true → meets_threshold l t1 = inr true.
Proof.
  intros Hle. unfold meets_threshold.
  destruct (evaluation l !! "match_score") as [v|]; [|done].
  destruct v as [|b|z|[q| | |]|s| |]; simpl; try done;
    intros [= H]; f_equal; by eapply Qle_bool_trans.
Qed.

(** X11.  The filter with a larger threshold keeps fewer listings.  For
    [t1 <= t2], if the filter returns with one of the two thresholds it
    returns with the other (whether it raises does not depend on the
    threshold), and what it keeps with [t2] is a sublist of what it keeps
    with [t1]. *)
Theorem X11_filter_is_antitone :
  ∀ (ls : list evaluated_listing) (t1 t2 : Q) (kept2 : list evaluated_listing),
    (t1 <= t2)%Q →
    get_production_listings ls t2 = inr kept2 →
    ∃ kept1, get_production_listings ls t1 = inr kept1 ∧ sublist kept2 kept1.
Proof.
  intros ls t1 t2 kept2 Hle. revert kept2.
  induction ls as [|a ls IH]; simpl; intros kept2 H2.
  - injection H2 as <-. by exists [].
  - destruct (meets_threshold a t2) as [m|k2] eqn:Ha2; [done|].
    destruct (get_production_listings ls t2) as [m|r2]; [done|]. injection H2 as <-.
    destruct (IH r2 eq_refl) as (r1 & -> & Hsub).
    destruct (meets_threshold a t1) as [m|k1] eqn:Ha1.
    { by rewrite (meets_threshold_error_free a t1 t2 m Ha1) in Ha2. }
    destruct k2.
    + rewrite (meets_threshold_mono a t1 t2 Hle Ha2) in Ha1. injection Ha1 as <-.
      exists (a :: r1). split; [done | by constructor].
    + exists (if k1 then a :: r1 else r1). split; [done|].
      destruct k1; [by constructor | done].
Qed.

Lemma X11_witness :
  let ls := [Sample.scored_listing "1" (JFloat (Finite float_0_70));
             Sample.scored_listing "2" (JFloat (Finite (6 # 10)));
             Sample.scored_listing "3" (JInt 1)] in
  ∃ kept1 kept2,
    get_production_listings ls float_0_50 = inr kept1
    ∧ get_production_listings ls float_0_85 = inr kept2
    ∧ sublist kept2 kept1.
Proof.
  intros ls.
  destruct (X11_filter_is_antitone ls float_0_50 float_0_85
              [Sample.scored_listing "3" (JInt 1)]) as (kept1 & H1 & Hsub).
  - vm_compute. discriminate.
  - vm_compute. reflexivity.
  - exists kept1, [Sample.scored_listing "3" (JInt 1)].
    split_and!; [exact H1 | vm_compute; reflexivity | exact Hsub].
Defined.

(** X12.  The neutral evaluation and the three strictness levels.  A
    listing whose evaluation is the fallback (score 0.5) is kept by the
    filter with the threshold of [less_strict] and dropped with the
    thresholds of [strict] and [very_strict]: under [less_strict] a listing
    on which the scorer failed is recommended. *)
Theorem X12_fallback_passes_less_strict_only :
  ∀ (l : listing) (reasoning level : string) (threshold : Q),
    STRICTNESS_THRESHOLDS !! level = Some threshold →
    meets_threshold (Evaluated l (fallback_evaluation reasoning)) threshold
    = inr (bool_decide (level = "less_strict")).
Proof.
  intros l r level t Hlevel. unfold meets_threshold. simpl.
  rewrite fallback_match_score. simpl. f_equal.
  unfold STRICTNESS_THRESHOLDS in Hlevel.
  apply lookup_insert_Some in Hlevel as [[<- <-]|[Hn1 Hlevel]]; [done|].
  apply lookup_insert_Some in Hlevel as [[<- <-]|[Hn2 Hlevel]]; [done|].
  apply lookup_insert_Some in Hlevel as [[<- <-]|[Hn3 Hlevel]]; [done|].
  by rewrite lookup_empty in Hlevel.
Qed.

Lemma X12_witness :
  let l := Listing "dom_0_7801234567"
             "https://sfbay.craigslist.org/sfc/bik/d/trek-domane/7801234567.html"
             "trek-domane" "Well kept, 54cm." "$500" "94105" in
  get_production_listings
    [Evaluated l (fallback_evaluation "Failed to parse LLM response")] float_0_50
  = inr [Evaluated l (fallback_evaluation "Failed to parse LLM response")].
Proof.
  intros l. simpl.
  rewrite (X12_fallback_passes_less_strict_only l "Failed to parse LLM response"
             "less_strict" float_0_50 eq_refl).
  reflexivity.
Defined.

Lemma rfind_ge (c : ascii) (s : string) : (-1 ≤ PyStr.rfind c s)%Z.
Proof.
  induction s as [|a s IH]; simpl; [done|].
  repeat case_decide; lia.
Qed.

(** An answer that is a JSON object without [match_score] gets the string
    ['Unknown'] as its score. *)
Lemma llm_missing_score client chat json_decode l q text decoded r :
  client = true →
  chat l q = ApiText text →
  PyStr.find "{"%char text ≠ (-1)%Z →
  json_loads json_decode
    (PyStr.slice text (PyStr.find "{"%char text) (PyStr.rfind "}"%char text + 1))
  = Some decoded →
  decoded !! "match_score" = None →
  decoded !! "reasoning" = Some (JStr r) →
  llm_evaluate_listing client chat json_decode l q !! "match_score"
  = Some (JStr "Unknown").
Proof.
  intros -> Hchat Hfind Hloads Hscore Hreason.
  unfold llm_evaluate_listing, parse_evaluation. simpl. rewrite Hchat.
  rewrite decide_True by (split; [done | pose proof (rfind_ge "}" text); lia]).
  rewrite Hloads, fill_required_lookup, Hreason. simpl.
  rewrite fill_required_lookup, Hscore. by rewrite decide_True by set_solver.
Qed.

(** ** The crawl and Python's [hash] *)

Lemma process_element_same_hash (py_hash py_hash' : string → Z) netloc fetch_listing
    dom u b i e :
  (∀ item, e = FromJsonLd item → py_hash' (ld_title item) = py_hash (ld_title item)) →
  process_element py_hash' netloc fetch_listing dom u b i e
  = process_element py_hash netloc fetch_listing dom u b i e.
Proof.
  intros H. destruct e as [item|d]; [|reflexivity].
  unfold process_element, json_ld_listing_id. by rewrite (H item eq_refl).
Qed.

Lemma scrape_loop_same_hash (py_hash py_hash' : string → Z) netloc fetch_listing
    dom u init seen elements :
  (∀ item, FromJsonLd item ∈ elements →
           py_hash' (ld_title item) = py_hash (ld_title item)) →
  ∀ b i,
    scrape_loop py_hash' netloc fetch_listing dom u init seen b i elements
    = scrape_loop py_hash netloc fetch_listing dom u init seen b i elements.
Proof.
  induction elements as [|e rest IH]; intros H b i; [reflexivity|].
  rewrite !scrape_loop_cons.
  rewrite (process_element_same_hash py_hash py_hash').
  - destruct (process_element _ _ _ _ _ _ _ _) as [b' [l|]].
    + rewrite IH; [done|]. intros item Hin. apply H. by right.
    + apply IH. intros item Hin. apply H. by right.
  - intros item ->. apply H. by left.
Qed.

Lemma scrape_same_hash (py_hash py_hash' : string → Z) netloc fetch_search fetch_listing
    u init count seen :
  (∀ page item, fetch_search u = Some page → item ∈ json_ld_listings page →
                py_hash' (ld_title item) = py_hash (ld_title item)) →
  scrape_new_listings_data py_hash' netloc fetch_search fetch_listing u init count seen
  = scrape_new_listings_data py_hash netloc fetch_search fetch_listing u init count seen.
Proof.
  intros H. unfold scrape_new_listings_data.
  destruct (fetch_search u) as [page|] eqn:Hp; [|reflexivity].
  apply scrape_loop_same_hash. intros item Hin. apply (H page); [done|].
  unfold listing_elements in Hin.
  assert (Hin' : FromJsonLd item
                 ∈ match json_ld_listings page with
                   | [] => map FromDom (dom_elements page)
                   | _ => map FromJsonLd (json_ld_listings page)
                   end).
  { destruct init; [by apply py_take_subseteq in Hin | done]. }
  destruct (json_ld_listings page) as [|i0 items] eqn:Hld.
  - apply list_elem_of_fmap in Hin' as (d & Hd & _). discriminate Hd.
  - apply list_elem_of_fmap in Hin' as (it & [= ->] & Hit). done.
Qed.

(** ** More on the run of [backend/main.py] *)

Section RunEdges.

Variable py_repr : string → string.
Variable py_hash : string → Z.
Variable netloc : string → string.
Variable fetch_search : string → option search_page.
Variable fetch_listing : string → option listing_page.
Variable openai_client : bool.
Variable chat : listing → string → completion.
Variable json_decode : string → option evaluation_dict.
Variable format_llm_query : string → string.
Variable build_craigslist_url : string → string → string → string.
Variable create_search_hash : string → string → string → string → option string → string.
Variable send_notification_via_discord : list evaluated_listing → string → bool.
Variable user_tasks : gmap string task_doc.

Local Abbreviation crawl :=
  (scrape_new_listings_data py_hash netloc fetch_search fetch_listing).
Local Abbreviation run :=
  (craigslist_bot_entry_point py_repr py_hash netloc fetch_search fetch_listing openai_client
     chat json_decode format_llm_query build_craigslist_url create_search_hash
     send_notification_via_discord user_tasks).
Local Abbreviation url_of cfg :=
  (build_craigslist_url (format_llm_query (search_query cfg)) (location cfg) (distance cfg)).
Local Abbreviation hash_of cfg :=
  (create_search_hash (format_llm_query (search_query cfg)) (location cfg) (distance cfg)
     (user_id cfg) (task_id cfg)).

Lemma scrape_empty_seen u initial count :
  crawl u initial count (Some ∅) = crawl u initial count None.
Proof.
  unfold scrape_new_listings_data. destruct (fetch_search u); [|done].
  apply scrape_loop_empty_seen.
Qed.

Lemma scrape_incremental_count u count count' seen :
  crawl u false count seen = crawl u false count' seen.
Proof. reflexivity. Qed.

(** X6.  When the initial scrape is disabled and nothing is recorded for
    the fingerprint (and the run is not a seeding run), the run is treated
    as a subsequent run with an empty seen set: nothing stops the crawl
    and [initial_scrape_count] does not apply, so every listing the whole
    page yields is handed to the scorer. *)
Theorem X6_disabled_initial_scrape_walks_whole_page cfg fs :
  enable_initial_scrape cfg = false →
  seed_seen_set cfg = false →
  task_is_paused user_tasks cfg = false →
  get_seen_listing_ids fs (hash_of cfg) = [] →
  ∀ count, scored (run cfg fs).2 = map id (crawl (url_of cfg) false count None).
Proof.
  intros Hen Hseed Hpause Hseen count.
  unfold craigslist_bot_entry_point, craigslist_bot_entry_point_at. cbv zeta.
  rewrite Hpause, Hseed, Hseen, Hen. simpl list_to_set. cbn [andb negb].
  unfold scrape. rewrite scrape_empty_seen.
  rewrite (scrape_incremental_count _ _ count).
  set (listings := crawl (url_of cfg) false count None).
  rewrite size_empty. rewrite (bool_decide_eq_false_2 (0 < 0)) by lia.
  cbn [andb negb]. rewrite andb_true_r.
  destruct (bool_decide (List.length listings = 0)) eqn:Hlen.
  - apply bool_decide_eq_true, length_zero_iff_nil in Hlen. rewrite Hlen. cbn [fst snd].
    by rewrite !scored_app, scored_opening_logs, scored_task_log.
  - destruct (STRICTNESS_THRESHOLDS !! strictness cfg) as [threshold|]; cbn [fst snd].
    + destruct (get_production_listings _ _) as [error|rec]; cbn [fst snd].
      * by rewrite !scored_app, scored_opening_logs, scored_map_Scored.
      * destruct listings as [|l0 ls0]; [done|]. cbn [fst snd].
        rewrite !scored_app, scored_opening_logs, scored_map_Scored, scored_notified,
          scored_task_log.
        by rewrite !app_nil_r.
    + by rewrite !scored_app, scored_opening_logs, scored_map_Scored.
Qed.

Lemma notifications_task_log (tasks : gmap string task_doc) cfg a b m lv ini :
  notifications (task_log tasks cfg a b m lv ini) = [].
Proof. unfold task_log. by destruct (task_id cfg). Qed.

Lemma saves_task_log cfg a b m lv ini : saves (task_log user_tasks cfg a b m lv ini) = [].
Proof. unfold task_log. by destruct (task_id cfg). Qed.

(** X7.  A seeding run (not paused) evaluates no listing and sends no
    notification.  It crawls as an initial run limited to one listing and
    the only identity it can record is that of this listing: when the
    crawl returns nothing the store is left as it was, and otherwise the
    identities recorded afterwards are the former ones and at most the
    identity of the first listing. *)
Theorem X7_seeding_records_at_most_one cfg fs :
  seed_seen_set cfg = true →
  task_is_paused user_tasks cfg = false →
  scored (run cfg fs).2 = []
  ∧ notifications (run cfg fs).2 = []
  ∧ fetches (run cfg fs).2 = [url_of cfg]
  ∧ match crawl (url_of cfg) true 1 None with
    | [] => (run cfg fs).1.2 = fs ∧ saves (run cfg fs).2 = []
    | most_recent :: _ =>
        saves (run cfg fs).2 = [[id most_recent]]
        ∧ ∀ h, recorded fs h ⊆ recorded (run cfg fs).1.2 h
               ∧ recorded (run cfg fs).1.2 h ⊆ recorded fs h ∪ {[id most_recent]}
    end.
Proof.
  intros Hseed Hpause.
  unfold craigslist_bot_entry_point, craigslist_bot_entry_point_at. cbv zeta. rewrite Hpause, Hseed. unfold scrape.
  destruct (crawl (url_of cfg) true 1 None) as [|l ls]; cbn [fst snd].
  - rewrite !scored_app, !notifications_app, !fetches_app, !saves_app,
      scored_opening_logs, notifications_opening_logs, fetches_opening_logs,
      saves_opening_logs. done.
  - destruct (save_listing_ids fs (hash_of cfg) [id l]) as [fs' ok] eqn:Hsave.
    cbn [fst snd].
    rewrite !scored_app, !notifications_app, !fetches_app, !saves_app,
      scored_opening_logs, notifications_opening_logs, fetches_opening_logs,
      saves_opening_logs.
    split_and!; [by destruct (task_id cfg)..|].
    intros h. replace fs' with (save_listing_ids fs (hash_of cfg) [id l]).1
      by (by rewrite Hsave).
    rewrite save_listing_ids_recorded. case_decide; set_solver.
Qed.

Lemma run_completed_records cfg fs :
  firestore_client fs = true → get_raises fs = false → set_raises fs = false →
  seed_seen_set cfg = false →
  task_is_paused user_tasks cfg = false →
  let seen_ids : gset string := list_to_set (get_seen_listing_ids fs (hash_of cfg)) in
  let is_initial_run := enable_initial_scrape cfg && bool_decide (size seen_ids = 0) in
  let listings :=
    crawl (url_of cfg) is_initial_run (initial_scrape_count cfg) (Some seen_ids) in
  (statusCode (run cfg fs).1.1 = 200 →
   recorded (run cfg fs).1.2 (hash_of cfg)
   = recorded fs (hash_of cfg) ∪ list_to_set (map id listings))
  ∧ (statusCode (run cfg fs).1.1 ≠ 200 → (run cfg fs).1.2 = fs)
  ∧ ∀ h, h ≠ hash_of cfg → recorded (run cfg fs).1.2 h = recorded fs h.
Proof.
  intros Hc Hg Hs Hseed Hpause seen_ids is_initial_run listings.
  assert (Hsave : ∀ ids,
            recorded (save_listing_ids fs (hash_of cfg) ids).1 (hash_of cfg)
            = recorded fs (hash_of cfg) ∪ list_to_set ids).
  { intros ids. rewrite save_listing_ids_recorded, decide_True; [done|].
    split; [done|]. by apply save_listing_ids_succeeds. }
  assert (Hother : ∀ ids h, h ≠ hash_of cfg →
            recorded (save_listing_ids fs (hash_of cfg) ids).1 h = recorded fs h).
  { intros ids h Hh. rewrite save_listing_ids_recorded, decide_False; [done|].
    by intros [? _]. }
  unfold craigslist_bot_entry_point, craigslist_bot_entry_point_at. cbv zeta. rewrite Hpause, Hseed. unfold scrape.
  fold seen_ids. fold is_initial_run. fold listings.
  destruct listings as [|l ls] eqn:Hl.
  - rewrite (bool_decide_eq_true_2 (List.length [] = 0)) by done. cbn [andb map].
    destruct (negb _); cbn [fst snd].
    + split_and!; [intros _; set_solver | done | done].
    + destruct (save_listing_ids fs (hash_of cfg) []) as [fs' ok] eqn:Hsv. cbn [fst snd].
      replace fs' with (save_listing_ids fs (hash_of cfg) []).1 by (by rewrite Hsv).
      split_and!; [intros _; by rewrite Hsave | done | by apply Hother].
  - rewrite (bool_decide_eq_false_2 (List.length (l :: ls) = 0)) by done. cbn [andb].
    destruct (STRICTNESS_THRESHOLDS !! strictness cfg) as [t|]; cbn [fst snd];
      [|done].
    destruct (get_production_listings _ _) as [e|rec]; cbn [fst snd]; [done|].
    split_and!; [intros _; by rewrite Hsave | done | by apply Hother].
Qed.

(** X8.  On a store that works, a run that is neither paused nor seeding
    and ends with status 200 has recorded, for its fingerprint, the former
    identities and those of every listing the crawl returned; a run that
    ends with another status has left the store as it was.  No other
    fingerprint is touched. *)
Theorem X8_completed_run_records_scraped cfg fs :
  firestore_client fs = true → get_raises fs = false → set_raises fs = false →
  seed_seen_set cfg = false →
  task_is_paused user_tasks cfg = false →
  let seen_ids : gset string := list_to_set (get_seen_listing_ids fs (hash_of cfg)) in
  let is_initial_run := enable_initial_scrape cfg && bool_decide (size seen_ids = 0) in
  let listings :=
    crawl (url_of cfg) is_initial_run (initial_scrape_count cfg) (Some seen_ids) in
  (statusCode (run cfg fs).1.1 = 200 →
   recorded (run cfg fs).1.2 (hash_of cfg)
   = recorded fs (hash_of cfg) ∪ list_to_set (map id listings))
  ∧ (statusCode (run cfg fs).1.1 ≠ 200 → (run cfg fs).1.2 = fs)
  ∧ ∀ h, h ≠ hash_of cfg → recorded (run cfg fs).1.2 h = recorded fs h.
Proof. apply run_completed_records. Qed.

Lemma get_seen_recorded fs h :
  firestore_client fs = true → get_raises fs = false →
  list_to_set (get_seen_listing_ids fs h) = recorded fs h.
Proof.
  intros Hc Hg. unfold get_seen_listing_ids, read_listing_ids, recorded.
  rewrite Hc, Hg. simpl. by destruct (seen_listings fs !! h).
Qed.

Lemma run_keeps_store_working cfg fs :
  firestore_client fs = true → get_raises fs = false → set_raises fs = false →
  firestore_client (run cfg fs).1.2 = true
  ∧ get_raises (run cfg fs).1.2 = false
  ∧ set_raises (run cfg fs).1.2 = false.
Proof.
  intros Hc Hg Hs.
  destruct (run_final_store py_repr py_hash netloc fetch_search fetch_listing openai_client chat
              json_decode format_llm_query build_craigslist_url create_search_hash
              send_notification_via_discord user_tasks cfg fs) as [->|(h & ids & ->)];
    [done|].
  by destruct (save_listing_ids_succeeds fs h ids Hc Hg Hs) as (_ & ? & ? & ?).
Qed.

Lemma prefix_before_first_seen_head (seen : gset string) l rest :
  id l ∈ seen → prefix_before_first_seen seen (l :: rest) = [].
Proof. intros H. simpl. by rewrite bool_decide_eq_true_2. Qed.

Lemma run_second_time cfg fs (py_hash' : string → Z) (openai_client' : bool)
    (chat' : listing → string → completion) (format_llm_query' : string → string)
    (send_notification_via_discord' : list evaluated_listing → string → bool)
    (user_tasks' : gmap string task_doc) :
  let run' :=
    craigslist_bot_entry_point py_repr py_hash' netloc fetch_search fetch_listing
      openai_client' chat' json_decode format_llm_query' build_craigslist_url
      create_search_hash send_notification_via_discord' user_tasks' in
  firestore_client fs = true → get_raises fs = false → set_raises fs = false →
  seed_seen_set cfg = false →
  task_is_paused user_tasks cfg = false →
  task_is_paused user_tasks' cfg = false →
  enable_initial_scrape cfg = true →
  get_seen_listing_ids fs (hash_of cfg) = [] →
  statusCode (run cfg fs).1.1 = 200 →
  scored (run cfg fs).2 ≠ [] →
  format_llm_query' (search_query cfg) = format_llm_query (search_query cfg) →
  (∀ page item, fetch_search (url_of cfg) = Some page → item ∈ json_ld_listings page →
                py_hash' (ld_title item) = py_hash (ld_title item)) →
  let fs1 := (run cfg fs).1.2 in
  scored (run' cfg fs1).2 = []
  ∧ notifications (run' cfg fs1).2 = []
  ∧ (run' cfg fs1).1.2 = fs1
  ∧ (run' cfg fs1).1.1
    = Response 200
        (Report "No new listings found - all listings have been processed previously"
           0 0 0 false (strictness cfg) []).
Proof.
  intros run' Hc Hg Hs Hseed Hpause Hpause' Hen Hseen H200 Hscored Hquery Hhash fs1.
  set (L := crawl (url_of cfg) true (initial_scrape_count cfg) None).
  destruct (run_initial_all_new py_repr py_hash netloc fetch_search fetch_listing
              openai_client chat json_decode format_llm_query build_craigslist_url
              create_search_hash send_notification_via_discord user_tasks cfg fs Hen
              Hseed Hpause Hseen)
    as [HL _].
  fold L in HL. rewrite HL in Hscored.
  destruct L as [|l0 L'] eqn:HLeq; [done|].
  (* what the first run recorded *)
  pose proof (run_completed_records cfg fs Hc Hg Hs Hseed Hpause) as Hrec.
  cbv zeta in Hrec. destruct Hrec as (Hrec & _ & _).
  specialize (Hrec H200). fold fs1 in Hrec.
  rewrite Hseen in Hrec. rewrite !list_to_set_nil in Hrec. rewrite size_empty in Hrec.
  rewrite Hen in Hrec. rewrite (bool_decide_eq_true_2 (0 = 0)) in Hrec by done.
  cbn [andb] in Hrec. rewrite scrape_empty_seen in Hrec. fold L in Hrec.
  rewrite HLeq in Hrec.
  destruct (run_keeps_store_working cfg fs Hc Hg Hs) as (Hc1 & Hg1 & Hs1).
  fold fs1 in Hc1, Hg1, Hs1.
  assert (Hseen1 : id l0 ∈ (list_to_set (get_seen_listing_ids fs1 (hash_of cfg))
                             : gset string)).
  { rewrite (get_seen_recorded fs1 _ Hc1 Hg1), Hrec. set_solver. }
  set (S1 := (list_to_set (get_seen_listing_ids fs1 (hash_of cfg)) : gset string)) in *.
  (* the crawl of the second run *)
  assert (Hcrawl : scrape_new_listings_data py_hash' netloc fetch_search fetch_listing
                     (url_of cfg) false (initial_scrape_count cfg) (Some S1) = []).
  { rewrite (scrape_same_hash py_hash py_hash') by exact Hhash.
    rewrite scrape_cut.
    destruct (scrape_initial_prefix py_hash netloc fetch_search fetch_listing
                (url_of cfg) (initial_scrape_count cfg)) as [rest Hrest].
    fold L in Hrest. rewrite HLeq in Hrest. rewrite Hrest.
    by apply prefix_before_first_seen_head. }
  assert (Hsize : size S1 ≠ 0).
  { intros Hz. apply size_empty_iff in Hz. set_solver. }
  unfold run', craigslist_bot_entry_point, craigslist_bot_entry_point_at. cbv zeta.
  rewrite Hquery, Hpause', Hseed. unfold scrape.
  fold S1. rewrite Hen. rewrite (bool_decide_eq_false_2 (size S1 = 0)) by done.
  cbn [andb negb]. rewrite Hcrawl.
  rewrite (bool_decide_eq_true_2 (0 < size S1)) by lia.
  rewrite (bool_decide_eq_true_2 (List.length [] = 0)) by done. cbn [andb negb map].
  unfold save_listing_ids. rewrite Hc1. cbn [negb fst snd].
  rewrite !scored_app, !notifications_app, scored_opening_logs,
    notifications_opening_logs, scored_task_log, notifications_task_log.
  done.
Qed.

(** X9.  Running twice over an unchanged page.  On a store that works and
    holds nothing for the fingerprint, let an initial run end with status
    200 after it evaluated at least one listing.  The second run is
    another call of the function, maybe in another process: it has its own
    salt of Python's [hash], its own answers of the language model and of
    Discord, and finds the task with its counters updated; the web, the
    configuration and the store are those the first run left.  If the
    language model refines the query to the same text as before, and
    [hash] gives the titles of the JSON-LD entries of the page the same
    values as before (so when the page has no such entry, or when the
    process is the same), the second run stops at the first listing of
    the page: it evaluates nothing, notifies nothing, leaves the store as
    the first run left it and answers that no new listing was found. *)
Theorem X9_second_run_finds_nothing_new cfg fs (py_hash' : string → Z)
    (openai_client' : bool) (chat' : listing → string → completion)
    (format_llm_query' : string → string)
    (send_notification_via_discord' : list evaluated_listing → string → bool)
    (user_tasks' : gmap string task_doc) :
  let run' :=
    craigslist_bot_entry_point py_repr py_hash' netloc fetch_search fetch_listing
      openai_client' chat' json_decode format_llm_query' build_craigslist_url
      create_search_hash send_notification_via_discord' user_tasks' in
  firestore_client fs = true → get_raises fs = false → set_raises fs = false →
  seed_seen_set cfg = false →
  task_is_paused user_tasks cfg = false →
  task_is_paused user_tasks' cfg = false →
  enable_initial_scrape cfg = true →
  get_seen_listing_ids fs (hash_of cfg) = [] →
  statusCode (run cfg fs).1.1 = 200 →
  scored (run cfg fs).2 ≠ [] →
  format_llm_query' (search_query cfg) = format_llm_query (search_query cfg) →
  (∀ page item, fetch_search (url_of cfg) = Some page → item ∈ json_ld_listings page →
                py_hash' (ld_title item) = py_hash (ld_title item)) →
  let fs1 := (run cfg fs).1.2 in
  scored (run' cfg fs1).2 = []
  ∧ notifications (run' cfg fs1).2 = []
  ∧ (run' cfg fs1).1.2 = fs1
  ∧ (run' cfg fs1).1.1
    = Response 200
        (Report "No new listings found - all listings have been processed previously"
           0 0 0 false (strictness cfg) []).
Proof. apply run_second_time. Qed.

(** X13.  A language model that answers with a JSON object without
    [match_score].  When the crawl of a run (not paused, not seeding, with
    a known strictness) returns a listing for which the model gives such
    an answer, every listing is still evaluated, the filter then raises on
    the score ['Unknown'], and the run ends with status 500 having sent no
    notification and recorded no identity: the store is left as it was. *)
Theorem X13_missing_score_fails_the_run cfg fs l text decoded r threshold :
  let seen_ids : gset string := list_to_set (get_seen_listing_ids fs (hash_of cfg)) in
  let is_initial_run := enable_initial_scrape cfg && bool_decide (size seen_ids = 0) in
  let listings :=
    crawl (url_of cfg) is_initial_run (initial_scrape_count cfg) (Some seen_ids) in
  seed_seen_set cfg = false →
  task_is_paused user_tasks cfg = false →
  STRICTNESS_THRESHOLDS !! strictness cfg = Some threshold →
  l ∈ listings →
  openai_client = true →
  chat l (search_query cfg) = ApiText text →
  PyStr.find "{"%char text ≠ (-1)%Z →
  json_loads json_decode
    (PyStr.slice text (PyStr.find "{"%char text) (PyStr.rfind "}"%char text + 1))
  = Some decoded →
  decoded !! "match_score" = None →
  decoded !! "reasoning" = Some (JStr r) →
  statusCode (run cfg fs).1.1 = 500
  ∧ scored (run cfg fs).2 = map id listings
  ∧ notifications (run cfg fs).2 = []
  ∧ saves (run cfg fs).2 = []
  ∧ (run cfg fs).1.2 = fs.
Proof.
  intros seen_ids is_initial_run listings Hseed Hpause Hlevel Hl Hclient Hchat Hfind
    Hloads Hscore Hreason.
  pose proof (llm_missing_score openai_client chat json_decode l (search_query cfg)
                text decoded r Hclient Hchat Hfind Hloads Hscore Hreason) as Hunknown.
  destruct (proj2 (get_production_listings_error
                     (evaluate_listings openai_client chat json_decode listings
                        (search_query cfg)) threshold)) as [message Hfilter].
  { exists (Evaluated l (llm_evaluate_listing openai_client chat json_decode l
                           (search_query cfg))). eexists. split.
    - unfold evaluate_listings. apply list_elem_of_fmap. by exists l.
    - unfold meets_threshold. simpl. rewrite Hunknown. reflexivity. }
  unfold craigslist_bot_entry_point, craigslist_bot_entry_point_at. cbv zeta. rewrite Hpause, Hseed. unfold scrape.
  fold seen_ids. fold is_initial_run. fold listings.
  destruct listings as [|l0 ls0] eqn:Hlist; [by apply elem_of_nil in Hl|].
  rewrite (bool_decide_eq_false_2 (List.length (l0 :: ls0) = 0)) by done.
  cbn [andb]. rewrite Hlevel, Hfilter. cbn [fst snd].
  rewrite !scored_app, !notifications_app, !saves_app, scored_opening_logs,
    notifications_opening_logs, saves_opening_logs, scored_map_Scored,
    notifications_map_Scored, saves_map_Scored.
  done.
Qed.

End RunEdges.

(** ** More on the store of [backend/main.py] *)

Lemma save_listing_ids_success fs h ids :
  ids ≠ [] → (save_listing_ids fs h ids).2 = true →
  firestore_client fs = true ∧ get_raises fs = false ∧ set_raises fs = false
  ∧ ∃ existing,
      read_listing_ids fs h = Some existing
      ∧ (save_listing_ids fs h ids).1
        = with_seen_listings fs
            (<[h := SeenDoc (list_of_set (existing ++ ids)) (server_timestamp fs)]>
               (seen_listings fs)).
Proof.
  intros Hne. unfold save_listing_ids, read_listing_ids, write_listing_ids.
  destruct (firestore_client fs); [|done]. destruct ids as [|i ids]; [done|]. simpl.
  destruct (get_raises fs); [done|]. destruct (set_raises fs); [done|]. simpl.
  intros _. split_and!; [done..|]. by eexists.
Qed.

(** X14.  After a merge of [backend/main.py] that reports success on a
    non-empty list, the identities read back for the fingerprint hold no
    duplicate and are, as a set, the former ones and the new ones; and
    merging the same identities once more changes nothing in that set. *)
Theorem X14_merged_ids_have_no_duplicates :
  ∀ (fs : firestore) (search_hash : string) (ids : list string),
    ids ≠ [] →
    (save_listing_ids fs search_hash ids).2 = true →
    let fs' := (save_listing_ids fs search_hash ids).1 in
    NoDup (get_seen_listing_ids fs' search_hash)
    ∧ list_to_set (get_seen_listing_ids fs' search_hash)
      = recorded fs search_hash ∪ list_to_set ids
    ∧ recorded (save_listing_ids fs' search_hash ids).1 search_hash
      = recorded fs' search_hash.
Proof.
  intros fs h ids Hne Hok fs'.
  destruct (save_listing_ids_success fs h ids Hne Hok)
    as (Hc & Hg & Hs & existing & Hread & Hfs').
  fold fs' in Hfs'.
  assert (Hseen : get_seen_listing_ids fs' h = list_of_set (existing ++ ids)).
  { rewrite Hfs'. unfold get_seen_listing_ids, read_listing_ids. simpl.
    rewrite Hc, Hg. simpl. by rewrite lookup_insert_eq. }
  assert (Hrec : recorded fs' h = recorded fs h ∪ list_to_set ids).
  { subst fs'. rewrite save_listing_ids_recorded. by rewrite decide_True. }
  split_and!.
  - rewrite Hseen. unfold list_of_set. apply NoDup_elements.
  - rewrite Hseen, list_of_set_elements, list_to_set_app_L.
    by rewrite (recorded_read _ _ _ Hread).
  - rewrite save_listing_ids_recorded. case_decide; [|done].
    rewrite Hrec. set_solver.
Qed.

Lemma X14_witness :
  let fs' := (save_listing_ids Sample.used_store Sample.search_hash
                ["dom_0_7801230000"; "dom_0_7801234567"; "dom_0_7801234567"]).1 in
  NoDup (get_seen_listing_ids fs' Sample.search_hash)
  ∧ list_to_set (get_seen_listing_ids fs' Sample.search_hash)
    =@{gset string} {["dom_0_7801230000"; "dom_0_7801234567"]}.
Proof.
  intros fs'.
  destruct (X14_merged_ids_have_no_duplicates Sample.used_store Sample.search_hash
              ["dom_0_7801230000"; "dom_0_7801234567"; "dom_0_7801234567"])
    as (Hnodup & Hset & _); [discriminate | reflexivity |].
  split; [exact Hnodup|]. etrans; [exact Hset|]. vm_compute. reflexivity.
Defined.

(** X15.  A merge of [backend/main.py] never removes an identity, whatever
    the state of the service: after any call every identity recorded
    before, for any fingerprint, is still recorded; and a call that
    reports failure has changed nothing.  On a service that works, merging
    [x, y] and then [y, z] leaves the former identities and [x], [y],
    [z], which is also what is read back. *)
Theorem X15_backend_merge_only_grows :
  ∀ (fs : firestore) (search_hash : string) (ids : list string),
    (∀ h, recorded fs h ⊆ recorded (save_listing_ids fs search_hash ids).1 h)
    ∧ ((save_listing_ids fs search_hash ids).2 = false →
       (save_listing_ids fs search_hash ids).1 = fs)
    ∧ ∀ x y z,
        firestore_client fs = true → get_raises fs = false → set_raises fs = false →
        let fs1 := (save_listing_ids fs search_hash [x; y]).1 in
        let fs2 := (save_listing_ids fs1 search_hash [y; z]).1 in
        recorded fs2 search_hash = recorded fs search_hash ∪ {[x; y; z]}
        ∧ list_to_set (get_seen_listing_ids fs2 search_hash)
          = recorded fs search_hash ∪ {[x; y; z]}.
Proof.
  intros fs h ids. split_and!.
  - intros h'. apply save_listing_ids_monotone.
  - unfold save_listing_ids. destruct (firestore_client fs); [|done].
    destruct ids; [done|]. destruct (read_listing_ids fs h); [|done].
    by destruct (write_listing_ids fs h _).
  - intros x y z Hc Hg Hs. by apply save_listing_ids_twice.
Qed.

(** ** The program of the root [main.py] *)

Section RootFacts.

Variable py_repr : string → string.
Variable netloc : string → string.
Variable fetch_search : string → option search_page.
Variable fetch_listing : string → option listing_page.
Variable openai_client : bool.
Variable chat : listing → string → completion.
Variable json_decode : string → option evaluation_dict.
Variable format_llm_query : string → string.
Variable build_craigslist_url : string → string → string → string.
Variable create_search_hash : string → string → string → string.
Variable send_notification_via_discord : list evaluated_listing → string → bool.
Variable SEARCH_QUERY SEARCH_POSTAL SEARCH_DISTANCE PRODUCTION_STRICTNESS : string.

Local Abbreviation root_crawl := (Root.scrape_new_listings_data netloc fetch_search fetch_listing).
Local Abbreviation root_run :=
  (Root.craigslist_bot_entry_point py_repr netloc fetch_search fetch_listing openai_client chat
     json_decode format_llm_query build_craigslist_url create_search_hash
     send_notification_via_discord SEARCH_QUERY SEARCH_POSTAL SEARCH_DISTANCE
     PRODUCTION_STRICTNESS).
Local Abbreviation root_url :=
  (build_craigslist_url (format_llm_query SEARCH_QUERY) SEARCH_POSTAL SEARCH_DISTANCE).
Local Abbreviation root_hash :=
  (create_search_hash SEARCH_QUERY SEARCH_POSTAL SEARCH_DISTANCE).

Lemma root_process_element_id u e l :
  Root.process_element netloc fetch_listing u e = Some l →
  extract_listing_id_from_url (url l) = Some (id l).
Proof.
  unfold Root.process_element. destruct (link e) as [a|]; [|done].
  destruct (negb _); [done|].
  destruct (extract_listing_id_from_url _) as [g|] eqn:Hid; [|done].
  destruct (fetch_listing _); [|done]. by intros [= <-].
Qed.

(** X16.  In the root [main.py] the identity of a listing does not depend
    on its rank.  Every listing the crawl returns has, as its identity,
    the numeric id of its own URL; and the listings of the results [older]
    are the same whether the page holds them alone or below other results
    [newer]: the crawl of the longer page is the listings of [newer]
    followed by the crawl of the shorter one. *)
Theorem X16_root_identity_is_rank_free :
  ∀ (search_url : string),
    (∀ l, l ∈ root_crawl search_url →
          extract_listing_id_from_url (url l) = Some (id l))
    ∧ ∀ (fetch_before : string → option search_page) (newer older : list dom_element)
        (ld ld' : list json_ld_item),
        fetch_before search_url = Some (SearchPage older ld) →
        fetch_search search_url = Some (SearchPage (newer ++ older) ld') →
        root_crawl search_url
        = omap (Root.process_element netloc fetch_listing search_url) newer
          ++ Root.scrape_new_listings_data netloc fetch_before fetch_listing search_url.
Proof.
  intros u. split.
  - intros l. unfold Root.scrape_new_listings_data.
    destruct (fetch_search u) as [page|]; [|by intros ?%elem_of_nil].
    intros (e & _ & He)%list_elem_of_omap. by eapply root_process_element_id.
  - intros fetch_before newer older ld ld' Hbefore Hafter.
    unfold Root.scrape_new_listings_data. rewrite Hbefore, Hafter. simpl.
    apply omap_app.
Qed.

(** X17.  A run of the root [main.py] hands to the scorer the listings of
    the page whose identity is not among the identities read from the
    store, in the order of the page, or none at all; so it never evaluates
    a listing whose identity was read as seen. *)
Theorem X17_root_run_evaluates_unseen_only :
  ∀ (fs : firestore),
    let seen_ids := get_seen_listing_ids fs root_hash in
    let new_listings := filter (λ l, id l ∉ seen_ids) (root_crawl root_url) in
    scored (root_run fs).2 = map id new_listings
    ∧ ∀ i, i ∈ scored (root_run fs).2 → i ∉ seen_ids.
Proof.
  intros fs seen_ids new_listings.
  assert (Hscored : scored (root_run fs).2 = map id new_listings).
  { unfold Root.craigslist_bot_entry_point. cbv zeta. fold seen_ids.
    destruct (root_crawl root_url) as [|l0 ls0] eqn:Hcrawl; [done|].
    fold new_listings.
    destruct new_listings as [|n0 ns0] eqn:Hnew; [done|].
    destruct (STRICTNESS_THRESHOLDS !! PRODUCTION_STRICTNESS) as [t|]; cbn [fst snd].
    - destruct (get_production_listings _ _) as [e|rec]; cbn [fst snd].
      + by rewrite scored_app, scored_map_Scored.
      + rewrite !scored_app, scored_map_Scored. destruct rec; simpl; by rewrite app_nil_r.
    - by rewrite scored_app, scored_map_Scored. }
  split; [exact Hscored|].
  intros i. rewrite Hscored. intros (l & -> & Hl)%list_elem_of_fmap.
  by apply list_elem_of_filter in Hl as [? _].
Qed.

(** X18.  The seen set of the root [main.py] is a window on the last
    page.  On a store that can be written, after a run that ends with
    status 200 over a page that gave at least one listing, the identities
    recorded for the fingerprint are exactly those of the listings of that
    page: an identity recorded before that is not on the page is no longer
    recorded. *)
Theorem X18_root_run_records_the_page_only :
  ∀ (fs : firestore),
    firestore_client fs = true → set_raises fs = false →
    root_crawl root_url ≠ [] →
    Root.statusCode (root_run fs).1.1 = 200 →
    recorded (root_run fs).1.2 root_hash = list_to_set (map id (root_crawl root_url)).
Proof.
  intros fs Hc Hs Hne H200.
  assert (Hsave : ∀ ids, ids ≠ [] →
            recorded (Legacy.save_listing_ids fs root_hash ids).1 root_hash
            = list_to_set ids).
  { intros ids Hids. unfold Legacy.save_listing_ids, write_listing_ids, recorded.
    rewrite Hc, Hs. destruct ids; [done|]. simpl. by rewrite lookup_insert_eq. }
  revert H200. unfold Root.craigslist_bot_entry_point. cbv zeta.
  destruct (root_crawl root_url) as [|l0 ls0] eqn:Hcrawl; [done|].
  destruct (filter _ _) as [|n0 ns0]; cbn [fst snd]; [intros _; by apply Hsave|].
  destruct (STRICTNESS_THRESHOLDS !! PRODUCTION_STRICTNESS) as [t|]; cbn [fst snd];
    [|done].
  destruct (get_production_listings _ _) as [e|rec]; cbn [fst snd]; [done|].
  intros _. by apply Hsave.
Qed.

End RootFacts.

(** ** The search URL *)

(** X19.  The zip table of [get_craigslist_region_from_zip] has three
    branches that no zip code reaches: the function never answers
    [providence], [nh] or [maine], because the range of [boston]
    (01000-05599) comes first and covers theirs; and a text that is not a
    number is sent to [sfbay]. *)
Theorem X19_region_table_dead_branches :
  ∀ (py_int : string → option Z) (zip_code : string),
    Url.get_craigslist_region_from_zip py_int zip_code ≠ "providence"
    ∧ Url.get_craigslist_region_from_zip py_int zip_code ≠ "nh"
    ∧ Url.get_craigslist_region_from_zip py_int zip_code ≠ "maine"
    ∧ (∀ z, py_int zip_code = Some z → (2800 ≤ z ≤ 4999)%Z →
            Url.get_craigslist_region_from_zip py_int zip_code = "boston")
    ∧ (py_int zip_code = None →
       Url.get_craigslist_region_from_zip py_int zip_code = "sfbay").
Proof.
  intros py_int zip. unfold Url.get_craigslist_region_from_zip.
  destruct (py_int zip) as [z|]; [|by split_and!].
  split_and!; try (intros ? [= <-] ?); try done;
    unfold Url.region_of_int; repeat case_decide; first [done | lia].
Qed.

Lemma all_chars_append (p : ascii → bool) (a b : string) :
  all_chars p (a +:+ b) = all_chars p a && all_chars p b.
Proof.
  induction a as [|c a IH]; [done|].
  rewrite append_cons. simpl. by rewrite IH, andb_assoc.
Qed.

Lemma hex_digit_safe (n : nat) : Url.always_safe (Url.hex_digit n) = true.
Proof. do 16 (destruct n as [|n]; [reflexivity|]). reflexivity. Qed.

Lemma hex_digit_inj (a b : nat) :
  a < 16 → b < 16 → Url.hex_digit a = Url.hex_digit b → a = b.
Proof.
  intros Ha Hb H.
  do 16 (destruct a as [|a];
         [do 16 (destruct b as [|b]; [first [reflexivity | discriminate H]|]); lia|]).
  lia.
Qed.

Lemma nat_of_ascii_inj (c d : ascii) : nat_of_ascii c = nat_of_ascii d → c = d.
Proof.
  intros H. rewrite <- (ascii_nat_embedding c), <- (ascii_nat_embedding d). by rewrite H.
Qed.

Lemma quote_byte_cases (c : ascii) :
  (Url.always_safe c = true ∧ Url.quote_byte c = String c "")
  ∨ (c = " "%char ∧ Url.quote_byte c = "+")
  ∨ (Url.always_safe c = false ∧ c ≠ " "%char
     ∧ Url.quote_byte c
       = String "%" (String (Url.hex_digit (nat_of_ascii c / 16))
                       (String (Url.hex_digit (nat_of_ascii c `mod` 16)) ""))).
Proof.
  unfold Url.quote_byte. destruct (Url.always_safe c) eqn:Hs; [by left|].
  case_bool_decide as Hsp; [right; left; by subst | right; right; done].
Qed.

Lemma quote_plus_chars (s : string) : all_chars Url.quoted_char (Url.quote_plus s) = true.
Proof.
  induction s as [|c s IH]; [done|]. simpl. rewrite all_chars_append, IH, andb_true_r.
  destruct (quote_byte_cases c) as [[Hs ->]|[[-> ->]|(Hs & Hsp & ->)]].
  - simpl. unfold Url.quoted_char. by rewrite Hs.
  - reflexivity.
  - simpl. unfold Url.quoted_char. rewrite !hex_digit_safe. reflexivity.
Qed.

Lemma quote_plus_inj (s1 s2 : string) : Url.quote_plus s1 = Url.quote_plus s2 → s1 = s2.
Proof.
  revert s2. induction s1 as [|c1 s1 IH]; intros [|c2 s2]; simpl.
  - done.
  - destruct (quote_byte_cases c2) as [[_ ->]|[[_ ->]|(_ & _ & ->)]]; discriminate.
  - destruct (quote_byte_cases c1) as [[_ ->]|[[_ ->]|(_ & _ & ->)]]; discriminate.
  - destruct (quote_byte_cases c1) as [[Hs1 ->]|[[-> ->]|(Hs1 & Hsp1 & ->)]];
      destruct (quote_byte_cases c2) as [[Hs2 ->]|[[-> ->]|(Hs2 & Hsp2 & ->)]];
      rewrite ?append_cons, ?append_nil; intros H;
      (first [discriminate H | injection H; clear H; intros; subst]);
      try (by vm_compute in Hs1); try (by vm_compute in Hs2).
    + f_equal. by apply IH.
    + f_equal. by apply IH.
    + match goal with
      | Hhi : Url.hex_digit (Nat.divmod _ 15 0 15).1 = _,
        Hlo : Url.hex_digit (15 - _) = _ |- _ =>
          change (Url.hex_digit (nat_of_ascii c1 / 16)
                  = Url.hex_digit (nat_of_ascii c2 / 16)) in Hhi;
          change (Url.hex_digit (nat_of_ascii c1 `mod` 16)
                  = Url.hex_digit (nat_of_ascii c2 `mod` 16)) in Hlo;
          pose proof (nat_ascii_bounded c1); pose proof (nat_ascii_bounded c2);
          apply hex_digit_inj in Hhi; [|apply Nat.Div0.div_lt_upper_bound; lia..];
          apply hex_digit_inj in Hlo; [|apply Nat.mod_upper_bound; lia..];
          f_equal; [|by apply IH];
          apply nat_of_ascii_inj;
          rewrite (Nat.div_mod_eq (nat_of_ascii c1) 16),
            (Nat.div_mod_eq (nat_of_ascii c2) 16);
          by rewrite Hhi, Hlo
      end.
Qed.

(** X20.  [quote_plus], with which [urlencode] writes every parameter.  A
    quoted text is made of letters, digits, [_], [.], [-], [~], [+] and
    [%] only, so it holds no space, [&], [=], [#], [?] or [/]; and two
    different texts are never quoted to the same text. *)
Theorem X20_quote_plus_is_safe_and_injective :
  (∀ s, all_chars Url.quoted_char (Url.quote_plus s) = true)
  ∧ (∀ c, c ∈ [" "; "&"; "="; "#"; "?"; "/"]%char → Url.quoted_char c = false)
  ∧ (∀ s1 s2, Url.quote_plus s1 = Url.quote_plus s2 → s1 = s2).
Proof.
  split_and!.
  - apply quote_plus_chars.
  - intros c Hc. apply list_elem_of_In in Hc. simpl in Hc.
    destruct Hc as [<-|[<-|[<-|[<-|[<-|[<-|[]]]]]]]; reflexivity.
  - apply quote_plus_inj.
Qed.

Lemma all_chars_impl (p q : ascii → bool) (s : string) :
  (∀ c, p c = true → q c = true) → all_chars p s = true → all_chars q s = true.
Proof.
  intros Hpq. induction s as [|c s IH]; [done|]. simpl.
  intros [Hc Hs]%andb_true_iff. by rewrite (Hpq c Hc), (IH Hs).
Qed.

Lemma split_at_char (c : ascii) (a b x y : string) :
  all_chars (λ d, negb (bool_decide (d = c))) a = true →
  all_chars (λ d, negb (bool_decide (d = c))) b = true →
  a +:+ String c x = b +:+ String c y → a = b ∧ x = y.
Proof.
  revert b. induction a as [|d a IH]; intros [|e b] Ha Hb H;
    rewrite ?append_cons, ?append_nil in H.
  - by injection H.
  - injection H as <- _. simpl in Hb. by rewrite bool_decide_eq_true_2 in Hb.
  - injection H as -> _. simpl in Ha. by rewrite bool_decide_eq_true_2 in Ha.
  - injection H as -> H. simpl in Ha, Hb.
    apply andb_true_iff in Ha as [_ Ha]. apply andb_true_iff in Hb as [_ Hb].
    destruct (IH b Ha Hb H) as [-> ->]. done.
Qed.

Lemma region_has_no_dot py_int zip :
  all_chars (λ d, negb (bool_decide (d = "."%char)))
    (Url.get_craigslist_region_from_zip py_int zip) = true.
Proof.
  unfold Url.get_craigslist_region_from_zip. destruct (py_int zip); [|reflexivity].
  unfold Url.region_of_int. repeat case_decide; reflexivity.
Qed.

Lemma quote_plus_has_no_amp (s : string) :
  all_chars (λ d, negb (bool_decide (d = "&"%char))) (Url.quote_plus s) = true.
Proof.
  apply (all_chars_impl Url.quoted_char); [|apply quote_plus_chars].
  intros c Hc. case_bool_decide; [|done]. subst. by vm_compute in Hc.
Qed.

Lemma build_craigslist_url_shape py_int query postal distance :
  Url.build_craigslist_url py_int query postal distance
  = "https://" +:+ Url.get_craigslist_region_from_zip py_int postal
    +:+ String "." ("craigslist.org/search/sss?query=" +:+ Url.quote_plus query
    +:+ String "&" ("postal=" +:+ Url.quote_plus postal
    +:+ String "&" ("search_distance=" +:+ Url.quote_plus distance
    +:+ String "&" "sort=date"))).
Proof.
  unfold Url.build_craigslist_url, Url.urlencode. cbn [map Url.join_amp fst snd].
  change (Url.quote_plus "query") with "query".
  change (Url.quote_plus "postal") with "postal".
  change (Url.quote_plus "search_distance") with "search_distance".
  change (Url.quote_plus "sort") with "sort".
  change (Url.quote_plus "date") with "date".
  generalize (Url.get_craigslist_region_from_zip py_int postal),
    (Url.quote_plus query), (Url.quote_plus postal), (Url.quote_plus distance).
  intros r q p d.
  repeat first [rewrite append_assoc | rewrite append_cons | rewrite append_nil].
  reflexivity.
Qed.

(** X21.  Different searches get different URLs: if
    [build_craigslist_url] gives the same URL for two triples of query,
    postal code and distance, the triples are the same.  No parameter can
    run into the next one, whatever characters it holds. *)
Theorem X21_build_craigslist_url_is_injective :
  ∀ (py_int : string → option Z) (q1 p1 d1 q2 p2 d2 : string),
    Url.build_craigslist_url py_int q1 p1 d1 = Url.build_craigslist_url py_int q2 p2 d2 →
    q1 = q2 ∧ p1 = p2 ∧ d1 = d2.
Proof.
  intros py_int q1 p1 d1 q2 p2 d2. rewrite !build_craigslist_url_shape. intros H.
  apply (inj (String.append "https://")) in H.
  apply split_at_char in H as [_ H]; [|apply region_has_no_dot..].
  apply (inj (String.append "craigslist.org/search/sss?query=")) in H.
  apply split_at_char in H as [Hq H]; [|apply quote_plus_has_no_amp..].
  apply (inj (String.append "postal=")) in H.
  apply split_at_char in H as [Hp H]; [|apply quote_plus_has_no_amp..].
  apply (inj (String.append "search_distance=")) in H.
  apply split_at_char in H as [Hd _]; [|apply quote_plus_has_no_amp..].
  by rewrite (quote_plus_inj _ _ Hq), (quote_plus_inj _ _ Hp), (quote_plus_inj _ _ Hd).
Qed.

Lemma X21_witness :
  Url.build_craigslist_url Url.digits_to_int "road bike & parts" "94105" "15"
  = "https://sfbay.craigslist.org/search/sss?query=road+bike+%26+parts&postal=94105&search_distance=15&sort=date"
  ∧ ∀ q p d,
      Url.build_craigslist_url Url.digits_to_int q p d
      = Url.build_craigslist_url Url.digits_to_int "road bike & parts" "94105" "15" →
      q = "road bike & parts".
Proof.
  split; [vm_compute; reflexivity|].
  intros q p d H.
  exact (proj1 (X21_build_craigslist_url_is_injective Url.digits_to_int _ _ _ _ _ _ H)).
Defined.

(** ** Identities within one crawl *)

Lemma pretty_N_go_digits (x : N) (s : string) :
  all_chars is_digit s = true → all_chars is_digit (pretty_N_go x s) = true.
Proof.
  revert s. induction (N.lt_wf_0 x) as [x _ IH]; intros s Hs.
  assert (x = 0 ∨ 0 < x)%N as [->|?] by lia; [by rewrite pretty_N_go_0|].
  rewrite pretty_N_go_step by done. apply IH; [by apply N.div_lt|].
  cbn [all_chars]. rewrite Hs, andb_true_r.
  unfold pretty_N_char. by repeat case_match.
Qed.

Lemma pretty_nat_digits (n : nat) : all_chars is_digit (pretty n) = true.
Proof.
  unfold pretty, pretty_nat, pretty, pretty_N.
  case_decide; [done|]. by apply pretty_N_go_digits.
Qed.

Lemma rank_prefix_inj (i j : nat) (x y : string) :
  pretty i +:+ "_" +:+ x = pretty j +:+ "_" +:+ y → i = j.
Proof.
  intros H. rewrite !append_cons, !append_nil in H.
  apply split_at_char in H as [H _].
  - by apply (inj pretty) in H.
  - apply (all_chars_impl is_digit); [|apply pretty_nat_digits].
    intros c Hc. case_bool_decide; [|done]. subst. by vm_compute in Hc.
  - apply (all_chars_impl is_digit); [|apply pretty_nat_digits].
    intros c Hc. case_bool_decide; [|done]. subst. by vm_compute in Hc.
Qed.

Lemma identity_rank_inj py_hash (i j : nat) (s : string) :
  (∃ g, s = dom_listing_id i g) ∨ (∃ t, s = json_ld_listing_id py_hash i t) →
  (∃ g, s = dom_listing_id j g) ∨ (∃ t, s = json_ld_listing_id py_hash j t) →
  i = j.
Proof.
  unfold dom_listing_id, json_ld_listing_id.
  intros [[g ->]|[t ->]] [[g' H]|[t' H]].
  - apply (inj (String.append "dom_")) in H. by apply rank_prefix_inj in H.
  - rewrite !append_cons in H. discriminate H.
  - rewrite !append_cons in H. discriminate H.
  - apply (inj (String.append "json_ld_")) in H. by apply rank_prefix_inj in H.
Qed.

Section CrawlIdentities.

Variable py_hash : string → Z.
Variable netloc : string → string.
Variable fetch_search : string → option search_page.
Variable fetch_listing : string → option listing_page.

Lemma process_element_rank dom u b i e b' l :
  process_element py_hash netloc fetch_listing dom u b i e = (b', Some l) →
  (∃ g, id l = dom_listing_id i g) ∨ (∃ t, id l = json_ld_listing_id py_hash i t).
Proof.
  unfold process_element. intros H.
  repeat (case_match; simplify_eq/=); eauto.
Qed.

Lemma scrape_loop_ranks dom u init seen elements :
  ∀ b i l,
    l ∈ scrape_loop py_hash netloc fetch_listing dom u init seen b i elements →
    ∃ k, (i ≤ k)%nat
         ∧ ((∃ g, id l = dom_listing_id k g)
            ∨ (∃ t, id l = json_ld_listing_id py_hash k t)).
Proof.
  induction elements as [|e rest IH]; intros b i l Hl; [by apply elem_of_nil in Hl|].
  rewrite scrape_loop_cons in Hl.
  destruct (process_element _ _ _ _ _ _ _ _) as [b' [l0|]] eqn:Hp.
  - destruct (negb init && seen_before seen (id l0)); [by apply elem_of_nil in Hl|].
    apply elem_of_cons in Hl as [->|Hl].
    + exists i. split; [lia|]. by eapply process_element_rank.
    + destruct (IH _ _ _ Hl) as (k & Hk & Hid). exists k. split; [lia|done].
  - destruct (IH _ _ _ Hl) as (k & Hk & Hid). exists k. split; [lia|done].
Qed.

Lemma scrape_loop_NoDup dom u init seen elements :
  ∀ b i,
    NoDup (map id (scrape_loop py_hash netloc fetch_listing dom u init seen b i elements)).
Proof.
  induction elements as [|e rest IH]; intros b i; [constructor|].
  rewrite scrape_loop_cons.
  destruct (process_element _ _ _ _ _ _ _ _) as [b' [l0|]] eqn:Hp; [|apply IH].
  destruct (negb init && seen_before seen (id l0)); [constructor|].
  cbn [map]. constructor; [|apply IH].
  intros (l' & Hid & Hl')%list_elem_of_fmap.
  apply scrape_loop_ranks in Hl' as (k & Hk & Hrank).
  apply process_element_rank in Hp. rewrite Hid in Hp.
  pose proof (identity_rank_inj py_hash i k _ Hp Hrank). lia.
Qed.

(** X28.  No two listings of one crawl of [backend/main.py] have the same
    identity, whatever the page holds: the identity carries the rank of
    the entry, so a page that shows one listing twice gives two
    identities. *)
Theorem X28_crawl_identities_are_distinct :
  ∀ (search_url : string) (is_initial_run : bool) (initial_scrape_count : Z)
    (seen_ids : option (gset string)),
    NoDup (map id (scrape_new_listings_data py_hash netloc fetch_search fetch_listing
                     search_url is_initial_run initial_scrape_count seen_ids)).
Proof.
  intros u init n seen. unfold scrape_new_listings_data.
  destruct (fetch_search u) as [page|]; [apply scrape_loop_NoDup | constructor].
Qed.

End CrawlIdentities.

(** ** The fingerprint *)

(** X22.  The fingerprint joins its fields with [_] and does not keep them
    apart: a piece [_x] moved from the end of the location to the front of
    the distance gives the same fingerprint; a search of user [u] has the
    fingerprint of the search of nobody whose distance ends in [_u]; and a
    task id given without a user id is not used. *)
Theorem X22_fingerprint_does_not_separate_fields :
  ∀ (md5_hexdigest lower : string → string) (q l d x : string) (u t : option string),
    Fingerprint.create_search_hash md5_hexdigest lower q (l +:+ "_" +:+ x) d u t
    = Fingerprint.create_search_hash md5_hexdigest lower q l (x +:+ "_" +:+ d) u t
    ∧ (∀ user, PyStr.truthy user = true →
         Fingerprint.create_search_hash md5_hexdigest lower q l d (Some user) None
         = Fingerprint.create_search_hash md5_hexdigest lower q l (d +:+ "_" +:+ user)
             None None)
    ∧ Fingerprint.create_search_hash md5_hexdigest lower q l d None t
      = Fingerprint.create_search_hash md5_hexdigest lower q l d None None
    ∧ Fingerprint.create_search_hash md5_hexdigest lower q l d (Some "") t
      = Fingerprint.create_search_hash md5_hexdigest lower q l d None None.
Proof.
  intros md5_hexdigest lower q l d x u t. split_and!.
  - unfold Fingerprint.create_search_hash. cbv zeta. f_equal.
    repeat case_match; by rewrite !append_assoc.
  - intros user Hu. unfold Fingerprint.create_search_hash. cbv zeta.
    cbn [Fingerprint.given andb default]. rewrite Hu. reflexivity.
  - reflexivity.
  - reflexivity.
Qed.

Lemma X22_witness :
  Fingerprint.create_search_hash (λ s, s) (λ s, s) "road bike" "94105" "15" (Some "u1") None
  = Fingerprint.create_search_hash (λ s, s) (λ s, s) "road bike" "94105" "15_u1" None None.
Proof.
  apply (X22_fingerprint_does_not_separate_fields (λ s, s) (λ s, s)
           "road bike" "94105" "15" "" None None).
  reflexivity.
Defined.

(** ** Tasks *)

Lemma cron_minutes (f : Z) :
  (2 ≤ f < 60)%Z → TaskApi.cron_schedule f = "*/" +:+ pretty f +:+ " * * * *".
Proof.
  intros Hf. unfold TaskApi.cron_schedule. cbv zeta. by repeat case_decide; try lia.
Qed.

Lemma cron_hours (f : Z) :
  (60 < f < 1440)%Z →
  TaskApi.cron_schedule f = "0 */" +:+ pretty (f `div` 60)%Z +:+ " * * *".
Proof.
  intros Hf. unfold TaskApi.cron_schedule. cbv zeta. by repeat case_decide; try lia.
Qed.

Lemma cron_days (f : Z) :
  (2880 ≤ f)%Z →
  TaskApi.cron_schedule f = "0 0 */" +:+ pretty (f `div` 1440)%Z +:+ " * *".
Proof.
  intros Hf. unfold TaskApi.cron_schedule. cbv zeta.
  assert (2 ≤ f `div` 1440)%Z by (apply Z.div_le_lower_bound; lia).
  by repeat case_decide; try lia.
Qed.

Lemma framed_inj (pre post a b : string) :
  pre +:+ a +:+ post = pre +:+ b +:+ post → a = b.
Proof.
  intros H. induction pre as [|c pre IH].
  - rewrite !append_nil in H. by apply append_inv_tail in H.
  - rewrite !append_cons in H. injection H as H. by apply IH.
Qed.

(** X23.  The schedule of a task keeps whole hours, or whole days, of the
    frequency asked for.  Two frequencies between one hour and one day get
    the same schedule exactly when they hold the same number of whole
    hours, and two frequencies of two days or more exactly when they hold
    the same number of whole days; below one hour the schedule tells the
    frequencies apart, and everything below two minutes is scheduled as
    two minutes. *)
Theorem X23_cron_schedule_keeps_whole_hours :
  ∀ (f g : Z),
    ((60 < f < 1440)%Z → (60 < g < 1440)%Z →
       (TaskApi.cron_schedule f = TaskApi.cron_schedule g ↔ (f `div` 60 = g `div` 60)%Z))
    ∧ ((2880 ≤ f)%Z → (2880 ≤ g)%Z →
       (TaskApi.cron_schedule f = TaskApi.cron_schedule g
        ↔ (f `div` 1440 = g `div` 1440)%Z))
    ∧ ((2 ≤ f < 60)%Z → (2 ≤ g < 60)%Z →
       TaskApi.cron_schedule f = TaskApi.cron_schedule g → f = g)
    ∧ ((f < 2)%Z → TaskApi.cron_schedule f = TaskApi.cron_schedule 2).
Proof.
  intros f g. split_and!.
  - intros Hf Hg. rewrite !cron_hours by done. split; [|by intros ->].
    intros H. apply framed_inj in H. by apply (inj pretty) in H.
  - intros Hf Hg. rewrite !cron_days by done. split; [|by intros ->].
    intros H. apply framed_inj in H. by apply (inj pretty) in H.
  - intros Hf Hg. rewrite !cron_minutes by done.
    intros H. apply framed_inj in H. by apply (inj pretty) in H.
  - intros Hf. unfold TaskApi.cron_schedule at 1. cbv zeta.
    destruct (decide (f < 2)%Z); [reflexivity | lia].
Qed.

Lemma X23_witness :
  TaskApi.cron_schedule 61 = "0 */1 * * *"
  ∧ TaskApi.cron_schedule 61 = TaskApi.cron_schedule 119.
Proof.
  split; [vm_compute; reflexivity|].
  apply (proj1 (X23_cron_schedule_keeps_whole_hours 61 119)); [lia | lia |].
  vm_compute. reflexivity.
Defined.

Lemma toggle_text_cooldown now db t u data s :
  TaskApi.tasks db !! t = Some data →
  data !! "next_cooldown" = Some (JStr s) →
  TaskApi.toggle_task_active now db t u true = (false, db, []).
Proof.
  intros Ht Hs. unfold TaskApi.toggle_task_active. cbv zeta.
  rewrite Ht, Hs. cbn [default py_float_ge].
  by repeat case_match.
Qed.

(** X24.  A task whose statistics have been updated cannot be set active
    again.  [update_task_stats] writes the next cooldown as a text, and
    [toggle_task_active] compares the clock, a float, with that field:
    after any update that succeeds, every call that sets the task active
    answers [False], whoever asks and whatever the time, and changes
    nothing and calls nobody. *)
Theorem X24_resume_fails_after_stats_update :
  ∀ (strftime_gmtime : Q → string) (cooldown_iso : Q → json_value → option string)
    (float_add : pyfloat → Z → pyfloat) (current_time : Q) (db db' : TaskApi.database)
    (task_id : string) (total_scrapes total_matches : Z)
    (log_entry increment_run_count : bool),
    TaskApi.update_task_stats strftime_gmtime cooldown_iso float_add current_time db
      task_id total_scrapes total_matches log_entry increment_run_count = (true, db') →
    ∀ (later : Q) (user_id : string),
      TaskApi.toggle_task_active later db' task_id user_id true = (false, db', []).
Proof.
  intros strftime_gmtime cooldown_iso float_add now db db' t s m log inc Hup later u.
  unfold TaskApi.update_task_stats in Hup. cbv zeta in Hup.
  destruct (TaskApi.reads_raise db); [done|].
  destruct (TaskApi.tasks db !! t) as [data|]; [|done].
  destruct (cooldown_iso _ _) as [iso|]; [|done].
  destruct (TaskApi.py_add _ _ _) as [runs|]; [|done].
  destruct (TaskApi.py_add _ _ _) as [scrapes|]; [|done].
  destruct (TaskApi.py_add _ _ _) as [matches|]; [|done].
  destruct (TaskApi.updates_raise db); [done|].
  injection Hup as <-.
  eapply (toggle_text_cooldown _ _ _ _ _ iso).
  - unfold TaskApi.with_tasks. cbn [TaskApi.tasks]. apply lookup_insert_eq.
  - destruct log; by rewrite ?lookup_insert_ne, ?lookup_insert_eq by done.
Qed.

Lemma X24_witness :
  let db' :=
    (TaskApi.update_task_stats TaskApi.sample_iso TaskApi.sample_cooldown
       TaskApi.sample_float_add 1735689600 TaskApi.sample_db "u1_1735689600" 6 2 true
       true).2 in
  (TaskApi.tasks db' !! "u1_1735689600") ≫= (.!! "total_runs") = Some (JInt 1)
  ∧ TaskApi.toggle_task_active 1735700000 db' "u1_1735689600" "u1" true = (false, db', []).
Proof.
  intros db'. split; [vm_compute; reflexivity|].
  apply (X24_resume_fails_after_stats_update TaskApi.sample_iso TaskApi.sample_cooldown
           TaskApi.sample_float_add 1735689600 TaskApi.sample_db db' "u1_1735689600"
           6%Z 2%Z true true).
  vm_compute. reflexivity.
Defined.

(** X25.  A task that is paused stays paused.  For a task as
    [create_user_task] writes it, with its next cooldown as a text, the
    owner's call that sets it inactive succeeds, records [is_active] false
    and pauses the job; the owner's later call that sets it active answers
    [False] and leaves the task inactive. *)
Theorem X25_paused_task_stays_paused :
  ∀ (now later : Q) (db : TaskApi.database) (task_id user_id s : string)
    (data : gmap string json_value),
    TaskApi.reads_raise db = false → TaskApi.updates_raise db = false →
    TaskApi.tasks db !! task_id = Some data →
    TaskApi.owned_by data user_id = true →
    data !! "next_cooldown" = Some (JStr s) →
    let paused := TaskApi.toggle_task_active now db task_id user_id false in
    paused.1.1 = true
    ∧ paused.2 = [TaskApi.PauseJob task_id]
    ∧ (TaskApi.tasks paused.1.2 !! task_id) ≫= (.!! "is_active") = Some (JBool false)
    ∧ TaskApi.toggle_task_active later paused.1.2 task_id user_id true
      = (false, paused.1.2, []).
Proof.
  intros now later db t u s data Hr Hu Ht Ho Hs paused.
  assert (Hp : paused
               = (true,
                  TaskApi.with_tasks db
                    (<[t := <["is_active" := JBool false]> data]> (TaskApi.tasks db)),
                  [TaskApi.PauseJob t])).
  { unfold paused, TaskApi.toggle_task_active. cbv zeta.
    by rewrite Hr, Ht, Ho, Hu. }
  rewrite Hp. cbn [fst snd TaskApi.with_tasks TaskApi.tasks]. split_and!; [done..| |].
  - rewrite lookup_insert_eq. cbn. by rewrite lookup_insert_eq.
  - eapply (toggle_text_cooldown _ _ _ _ _ s).
    + cbn [TaskApi.tasks]. apply lookup_insert_eq.
    + by rewrite lookup_insert_ne.
Qed.

Lemma X25_witness :
  let paused :=
    TaskApi.toggle_task_active 1735689700 TaskApi.sample_db "u1_1735689600" "u1" false in
  paused.1.1 = true
  ∧ TaskApi.toggle_task_active 1735700000 paused.1.2 "u1_1735689600" "u1" true
    = (false, paused.1.2, []).
Proof.
  intros paused.
  pose proof (X25_paused_task_stays_paused 1735689700 1735700000 TaskApi.sample_db
                "u1_1735689600" "u1" "2025-01-01T02:00:00Z" TaskApi.sample_task
                eq_refl eq_refl) as H.
  cbv zeta in H. destruct H as (H1 & _ & _ & H2).
  - vm_compute. reflexivity.
  - vm_compute. reflexivity.
  - vm_compute. reflexivity.
  - split; [exact H1 | exact H2].
Defined.

Lemma toggle_store_cases now db t u a :
  (TaskApi.toggle_task_active now db t u a).1.2 = db
  ∨ ∃ data, TaskApi.tasks db !! t = Some data
            ∧ (TaskApi.toggle_task_active now db t u a).1.2
              = TaskApi.with_tasks db
                  (<[t := <["is_active" := JBool a]> data]> (TaskApi.tasks db)).
Proof.
  unfold TaskApi.toggle_task_active. cbv zeta.
  destruct (TaskApi.reads_raise db); [by left|].
  destruct (TaskApi.tasks db !! t) as [data|]; [|by left].
  destruct (negb _); [by left|].
  destruct a.
  - destruct (py_float_ge _ _) as [[|]|]; [| |by left].
    all: destruct (TaskApi.updates_raise db); [by left|]; right; by exists data.
  - destruct (TaskApi.updates_raise db); [by left|]; right; by exists data.
Qed.

(** X26.  [toggle_task_active] changes one field of one task, for its
    owner only.  Every other task, and every field of the task other than
    [is_active], is after the call as it was before; and a call that
    changes the collection or calls the scheduler or the cloud function
    was made for a task that exists with the caller as its [user_id].  A
    call may still answer [False] after it has started an immediate run:
    that is when the cooldown has passed and the update raises. *)
Theorem X26_toggle_changes_one_field_for_owner :
  ∀ (now : Q) (db : TaskApi.database) (task_id user_id : string) (is_active : bool),
    let out := TaskApi.toggle_task_active now db task_id user_id is_active in
    (∀ other, other ≠ task_id →
       TaskApi.tasks out.1.2 !! other = TaskApi.tasks db !! other)
    ∧ (∀ field, field ≠ "is_active" →
         (TaskApi.tasks out.1.2 !! task_id) ≫= (.!! field)
         = (TaskApi.tasks db !! task_id) ≫= (.!! field))
    ∧ (out.1.2 ≠ db ∨ out.2 ≠ [] →
         ∃ data, TaskApi.tasks db !! task_id = Some data
                 ∧ data !! "user_id" = Some (JStr user_id))
    ∧ (TaskApi.updates_raise db = true → is_active = true →
       TaskApi.reads_raise db = false →
       (∃ data, TaskApi.tasks db !! task_id = Some data
                ∧ TaskApi.owned_by data user_id = true
                ∧ data !! "next_cooldown" = None) →
       out = (false, db, [TaskApi.ImmediateRun task_id])).
Proof.
  intros now db t u a out.
  assert (Hown : ∀ data, TaskApi.owned_by data u = true →
                         data !! "user_id" = Some (JStr u)).
  { intros data. unfold TaskApi.owned_by.
    destruct (data !! "user_id") as [[| | | |v| |]|]; try done.
    by intros ->%bool_decide_eq_true. }
  split_and!.
  - intros other Hne. unfold out.
    destruct (toggle_store_cases now db t u a) as [->|(data & Ht & ->)]; [done|].
    cbn [TaskApi.with_tasks TaskApi.tasks]. by rewrite lookup_insert_ne.
  - intros field Hne. unfold out.
    destruct (toggle_store_cases now db t u a) as [->|(data & Ht & ->)]; [done|].
    cbn [TaskApi.with_tasks TaskApi.tasks]. rewrite lookup_insert_eq, Ht.
    cbn [mbind option_bind]. by rewrite lookup_insert_ne.
  - unfold out, TaskApi.toggle_task_active. cbv zeta.
    destruct (TaskApi.reads_raise db); [by intros [|]|].
    destruct (TaskApi.tasks db !! t) as [data|]; [|by intros [|]].
    destruct (TaskApi.owned_by data u) eqn:Ho; cbn [negb]; [|by intros [|]].
    intros _. exists data. split; [done|]. by apply Hown.
  - intros Hu -> Hr (data & Ht & Ho & Hc).
    unfold out, TaskApi.toggle_task_active. cbv zeta.
    rewrite Hr, Ht, Ho, Hc, Hu. cbn [negb default py_float_ge].
    assert (Qle_bool now now = true) as -> by (apply Qle_bool_iff, Qle_refl).
    reflexivity.
Qed.

Lemma X26_witness :
  TaskApi.toggle_task_active 1735689700
    (TaskApi.Database false true false
       {["t1" := <["user_id" := JStr "u1"]> (∅ : gmap string json_value)]})
    "t1" "u1" true
  = (false,
     TaskApi.Database false true false
       {["t1" := <["user_id" := JStr "u1"]> (∅ : gmap string json_value)]},
     [TaskApi.ImmediateRun "t1"]).
Proof.
  apply (X26_toggle_changes_one_field_for_owner 1735689700
           (TaskApi.Database false true false
              {["t1" := <["user_id" := JStr "u1"]> (∅ : gmap string json_value)]})
           "t1" "u1" true).
  - reflexivity.
  - reflexivity.
  - reflexivity.
  - eexists. split_and!; vm_compute; reflexivity.
Defined.

(** X27.  [delete_user_task] removes a task for its owner only, and once.
    A call that answers [True] was made by the owner of a task that
    existed, leaves the collection without that task and asks for the
    deletion of its job; a call that answers [False] changes nothing and
    asks for nothing; other tasks are never touched; and the same call
    made again after a success answers [False]. *)
Theorem X27_delete_is_for_owner_and_once :
  ∀ (db : TaskApi.database) (task_id user_id : string),
    let out := TaskApi.delete_user_task db task_id user_id in
    (∀ other, other ≠ task_id →
       TaskApi.tasks out.1.2 !! other = TaskApi.tasks db !! other)
    ∧ (out.1.1 = true →
         TaskApi.tasks out.1.2 !! task_id = None
         ∧ out.2 = [TaskApi.DeleteJob task_id]
         ∧ (∃ data, TaskApi.tasks db !! task_id = Some data
                    ∧ data !! "user_id" = Some (JStr user_id))
         ∧ TaskApi.delete_user_task out.1.2 task_id user_id = (false, out.1.2, []))
    ∧ (out.1.1 = false → out.1.2 = db ∧ out.2 = []).
Proof.
  intros db t u out.
  assert (Hown : ∀ data, TaskApi.owned_by data u = true →
                         data !! "user_id" = Some (JStr u)).
  { intros data. unfold TaskApi.owned_by.
    destruct (data !! "user_id") as [[| | | |v| |]|]; try done.
    by intros ->%bool_decide_eq_true. }
  unfold out, TaskApi.delete_user_task.
  destruct (TaskApi.reads_raise db) eqn:Hr; [done|].
  destruct (TaskApi.tasks db !! t) as [data|] eqn:Ht; [|done].
  destruct (TaskApi.owned_by data u) eqn:Ho; cbn [negb]; [|done].
  destruct (TaskApi.deletes_raise db) eqn:Hd; [done|].
  cbn [fst snd TaskApi.with_tasks TaskApi.tasks TaskApi.reads_raise]. split_and!.
  - intros other Hne. by rewrite lookup_delete_ne.
  - intros _. split_and!.
    + apply lookup_delete_eq.
    + done.
    + exists data. split; [done|]. by apply Hown.
    + by rewrite Hr, lookup_delete_eq.
  - done.
Qed.

Lemma X27_witness :
  let out := TaskApi.delete_user_task TaskApi.sample_db "u1_1735689600" "u1" in
  out.1.1 = true
  ∧ TaskApi.delete_user_task out.1.2 "u1_1735689600" "u1" = (false, out.1.2, [])
  ∧ TaskApi.delete_user_task TaskApi.sample_db "u1_1735689600" "u2"
    = (false, TaskApi.sample_db, []).
Proof.
  intros out.
  assert (H1 : out.1.1 = true) by (vm_compute; reflexivity).
  split; [exact H1|]. split.
  - exact (proj2 (proj2 (proj2
      (proj1 (proj2 (X27_delete_is_for_owner_and_once TaskApi.sample_db
                       "u1_1735689600" "u1")) H1)))).
  - vm_compute. reflexivity.
Defined.

Lemma X18_witness :
  let run :=
    Root.craigslist_bot_entry_point Sample.py_repr Sample.netloc (Sample.serve Sample.page_dom)
      Sample.fetch_listing true Sample.chat Sample.json_decode Sample.format_llm_query
      Sample.build_craigslist_url Sample2.create_search_hash
      Sample.send_notification_via_discord "road bike" "94105" "15" "strict" in
  recorded Sample.used_store Sample.search_hash = {["dom_0_7801230000"]}
  ∧ recorded (run Sample.used_store).1.2 Sample.search_hash
    = {["7801234567"; "7801234000"]}.
Proof.
  intros run. split; [vm_compute; reflexivity|].
  pose proof (X18_root_run_records_the_page_only Sample.py_repr Sample.netloc
                (Sample.serve Sample.page_dom) Sample.fetch_listing true Sample.chat
                Sample.json_decode Sample.format_llm_query Sample.build_craigslist_url
                Sample2.create_search_hash Sample.send_notification_via_discord
                "road bike" "94105" "15" "strict" Sample.used_store
                eq_refl eq_refl) as H.
  etrans; [apply H|].
  - vm_compute. discriminate.
  - vm_compute. reflexivity.
  - vm_compute. reflexivity.
Defined.

Lemma X6_witness :
  scored
    (craigslist_bot_entry_point Sample.py_repr Sample.py_hash Sample.netloc (Sample.serve Sample.page_50)
       Sample.fetch_listing true Sample.chat Sample.json_decode Sample.format_llm_query
       Sample.build_craigslist_url Sample.create_search_hash
       Sample.send_notification_via_discord ∅ Sample2.config_no_initial
       (Sample.store ∅)).2
  = map id
      (scrape_new_listings_data Sample.py_hash Sample.netloc (Sample.serve Sample.page_50)
         Sample.fetch_listing Sample.search_url false 0 None)
  ∧ List.length
      (scrape_new_listings_data Sample.py_hash Sample.netloc (Sample.serve Sample.page_50)
         Sample.fetch_listing Sample.search_url false 0 None) = 50.
Proof.
  split; [|vm_compute; reflexivity].
  apply (X6_disabled_initial_scrape_walks_whole_page Sample.py_repr Sample.py_hash Sample.netloc
           (Sample.serve Sample.page_50) Sample.fetch_listing true Sample.chat
           Sample.json_decode Sample.format_llm_query Sample.build_craigslist_url
           Sample.create_search_hash Sample.send_notification_via_discord ∅
           Sample2.config_no_initial (Sample.store ∅)); reflexivity.
Defined.

Lemma X7_witness :
  let outcome :=
    craigslist_bot_entry_point Sample.py_repr Sample.py_hash Sample.netloc (Sample.serve Sample.page_dom)
      Sample.fetch_listing true Sample.chat Sample.json_decode Sample.format_llm_query
      Sample.build_craigslist_url Sample.create_search_hash
      Sample.send_notification_via_discord ∅ Sample2.config_seed (Sample.store ∅) in
  scored outcome.2 = []
  ∧ saves outcome.2 = [["dom_0_7801234567"]]
  ∧ recorded outcome.1.2 Sample.search_hash = {["dom_0_7801234567"]}.
Proof.
  intros outcome.
  destruct (X7_seeding_records_at_most_one Sample.py_repr Sample.py_hash Sample.netloc
              (Sample.serve Sample.page_dom) Sample.fetch_listing true Sample.chat
              Sample.json_decode Sample.format_llm_query Sample.build_craigslist_url
              Sample.create_search_hash Sample.send_notification_via_discord ∅
              Sample2.config_seed (Sample.store ∅) eq_refl eq_refl)
    as (Hscored & _ & _ & Hrest).
  split_and!; [exact Hscored | vm_compute; reflexivity | vm_compute; reflexivity].
Defined.

Lemma X8_witness :
  let outcome :=
    craigslist_bot_entry_point Sample.py_repr Sample.py_hash Sample.netloc (Sample.serve Sample.page_dom)
      Sample.fetch_listing true Sample.chat Sample.json_decode Sample.format_llm_query
      Sample.build_craigslist_url Sample.create_search_hash
      Sample.send_notification_via_discord ∅ (Sample.config "strict") (Sample.store ∅) in
  statusCode outcome.1.1 = 200
  ∧ recorded outcome.1.2 Sample.search_hash = {["dom_0_7801234567"; "dom_1_7801234000"]}.
Proof.
  intros outcome.
  assert (H200 : statusCode outcome.1.1 = 200) by (vm_compute; reflexivity).
  split; [exact H200|].
  pose proof (X8_completed_run_records_scraped Sample.py_repr Sample.py_hash Sample.netloc
                (Sample.serve Sample.page_dom) Sample.fetch_listing true Sample.chat
                Sample.json_decode Sample.format_llm_query Sample.build_craigslist_url
                Sample.create_search_hash Sample.send_notification_via_discord ∅
                (Sample.config "strict") (Sample.store ∅)
                eq_refl eq_refl eq_refl eq_refl eq_refl) as H.
  cbv zeta in H. destruct H as (Hrec & _ & _).
  etrans; [exact (Hrec H200)|]. vm_compute. reflexivity.
Defined.

Lemma X9_witness :
  let run :=
    craigslist_bot_entry_point Sample.py_repr Sample.py_hash Sample.netloc
      (Sample.serve Sample.page_dom) Sample.fetch_listing true Sample.chat
      Sample.json_decode Sample.format_llm_query Sample.build_craigslist_url
      Sample.create_search_hash Sample.send_notification_via_discord ∅
      (Sample.config "strict") in
  let run' :=
    craigslist_bot_entry_point Sample.py_repr (λ _, 7%Z) Sample.netloc
      (Sample.serve Sample.page_dom) Sample.fetch_listing true Sample.chat_down
      Sample.json_decode Sample.format_llm_query Sample.build_craigslist_url
      Sample.create_search_hash Sample.send_notification_via_discord Sample.user_tasks
      (Sample.config "strict") in
  scored (run (Sample.store ∅)).2 = ["dom_0_7801234567"; "dom_1_7801234000"]
  ∧ scored (run' (run (Sample.store ∅)).1.2).2 = [].
Proof.
  intros run run'. split; [vm_compute; reflexivity|].
  pose proof (X9_second_run_finds_nothing_new Sample.py_repr Sample.py_hash Sample.netloc
                (Sample.serve Sample.page_dom) Sample.fetch_listing true Sample.chat
                Sample.json_decode Sample.format_llm_query Sample.build_craigslist_url
                Sample.create_search_hash Sample.send_notification_via_discord ∅
                (Sample.config "strict") (Sample.store ∅) (λ _, 7%Z) true
                Sample.chat_down Sample.format_llm_query
                Sample.send_notification_via_discord Sample.user_tasks
                eq_refl eq_refl eq_refl eq_refl eq_refl eq_refl eq_refl eq_refl) as H.
  cbv zeta in H. apply H.
  - vm_compute. reflexivity.
  - vm_compute. discriminate.
  - reflexivity.
  - intros page item [= <-] Hin. by apply elem_of_nil in Hin.
Defined.

Lemma X13_witness :
  let outcome :=
    craigslist_bot_entry_point Sample.py_repr Sample.py_hash Sample.netloc (Sample.serve Sample.page_dom)
      Sample.fetch_listing true Sample2.chat_no_score Sample2.json_decode_no_score
      Sample.format_llm_query Sample.build_craigslist_url Sample.create_search_hash
      Sample.send_notification_via_discord ∅ (Sample.config "strict") (Sample.store ∅) in
  statusCode outcome.1.1 = 500
  ∧ scored outcome.2 = ["dom_0_7801234567"; "dom_1_7801234000"]
  ∧ outcome.1.2 = Sample.store ∅.
Proof.
  intros outcome.
  pose proof (X13_missing_score_fails_the_run Sample.py_repr Sample.py_hash Sample.netloc
                (Sample.serve Sample.page_dom) Sample.fetch_listing true
                Sample2.chat_no_score Sample2.json_decode_no_score
                Sample.format_llm_query Sample.build_craigslist_url
                Sample.create_search_hash Sample.send_notification_via_discord ∅
                (Sample.config "strict") (Sample.store ∅) Sample2.trek
                "Here it is: {reasoning}" (<["reasoning" := JStr "Looks close."]> ∅)
                "Looks close." float_0_70) as H.
  cbv zeta in H.
  destruct H as (Hstatus & Hscored & _ & _ & Hstore).
  - reflexivity.
  - reflexivity.
  - vm_compute. reflexivity.
  - replace (scrape_new_listings_data _ _ _ _ _ _ _ _)
      with [Sample2.trek;
            Listing "dom_1_7801234000"
              "https://sfbay.craigslist.org/sfc/bik/d/cannondale-caad/7801234000.html"
              "cannondale-caad" "Well kept, 54cm." "$500" "94105"]
      by (vm_compute; reflexivity).
    by left.
  - reflexivity.
  - reflexivity.
  - vm_compute. discriminate.
  - vm_compute. reflexivity.
  - vm_compute. reflexivity.
  - vm_compute. reflexivity.
  - split_and!; [exact Hstatus | | exact Hstore].
    etrans; [exact Hscored|]. vm_compute. reflexivity.
Defined.

Lemma X1_witness :
  re_search match_titled_here
    "https://sfbay.craigslist.org/sfc/bik/d/trek-domane/7801234567.html"
  = Some "7801234567"
  ∧ is_Some (re_search match_numeric_here
               "https://sfbay.craigslist.org/sfc/bik/d/trek-domane/7801234567.html").
Proof.
  assert (H : re_search match_titled_here
                "https://sfbay.craigslist.org/sfc/bik/d/trek-domane/7801234567.html"
              = Some "7801234567") by (vm_compute; reflexivity).
  split; [exact H|].
  exact (proj1 (X1_alternative_pattern_is_redundant _) _ H).
Defined.

Lemma X10_witness :
  is_Some (llm_evaluate_listing true Sample.chat_prose Sample.json_decode Sample2.trek
             "road bike" !! "match_score").
Proof.
  apply (proj1 (X10_evaluation_has_required_fields true Sample.chat_prose
                  Sample.json_decode Sample2.trek "road bike" float_0_70)).
  unfold required_fields. apply list_elem_of_here.
Defined.

Lemma X15_witness :
  let fs1 := (save_listing_ids (Sample.store ∅) Sample.search_hash ["x"; "y"]).1 in
  let fs2 := (save_listing_ids fs1 Sample.search_hash ["y"; "z"]).1 in
  recorded fs2 Sample.search_hash = {["x"; "y"; "z"]}.
Proof.
  intros fs1 fs2.
  pose proof (proj2 (proj2 (X15_backend_merge_only_grows (Sample.store ∅)
                              Sample.search_hash [])) "x" "y" "z"
                eq_refl eq_refl eq_refl) as H.
  cbv zeta in H. destruct H as [H _].
  etrans; [exact H|]. vm_compute. reflexivity.
Defined.

Lemma X16_witness :
  let l :=
    Listing "7801234567"
      "https://sfbay.craigslist.org/sfc/bik/d/trek-domane/7801234567.html"
      "trek-domane" "Well kept, 54cm." "$500" "94105" in
  l ∈ Root.scrape_new_listings_data Sample.netloc (Sample.serve Sample.page_dom)
        Sample.fetch_listing Sample.search_url
  ∧ extract_listing_id_from_url (url l) = Some (id l).
Proof.
  intros l.
  assert (Hl : l ∈ Root.scrape_new_listings_data Sample.netloc
                     (Sample.serve Sample.page_dom) Sample.fetch_listing
                     Sample.search_url).
  { replace (Root.scrape_new_listings_data _ _ _ _)
      with [l; Listing "7801234000"
                 "https://sfbay.craigslist.org/sfc/bik/d/cannondale-caad/7801234000.html"
                 "cannondale-caad" "Well kept, 54cm." "$500" "94105"]
      by (vm_compute; reflexivity).
    apply list_elem_of_here. }
  split; [exact Hl|].
  exact (proj1 (X16_root_identity_is_rank_free Sample.netloc
                  (Sample.serve Sample.page_dom) Sample.fetch_listing Sample.search_url)
           l Hl).
Defined.

Lemma X17_witness :
  let run :=
    Root.craigslist_bot_entry_point Sample.py_repr Sample.netloc (Sample.serve Sample.page_dom)
      Sample.fetch_listing true Sample.chat Sample.json_decode Sample.format_llm_query
      Sample.build_craigslist_url Sample2.create_search_hash
      Sample.send_notification_via_discord "road bike" "94105" "15" "strict" in
  scored (run Sample.used_store).2 = ["7801234567"; "7801234000"]
  ∧ "7801234567" ∉ get_seen_listing_ids Sample.used_store Sample.search_hash.
Proof.
  intros run.
  assert (H : scored (run Sample.used_store).2 = ["7801234567"; "7801234000"])
    by (vm_compute; reflexivity).
  split; [exact H|].
  pose proof (X17_root_run_evaluates_unseen_only Sample.py_repr Sample.netloc
                (Sample.serve Sample.page_dom) Sample.fetch_listing true Sample.chat
                Sample.json_decode Sample.format_llm_query Sample.build_craigslist_url
                Sample2.create_search_hash Sample.send_notification_via_discord
                "road bike" "94105" "15" "strict" Sample.used_store) as H17.
  cbv zeta in H17. destruct H17 as [_ H17].
  apply (H17 "7801234567"). fold run. rewrite H. apply list_elem_of_here.
Defined.

Lemma X19_witness :
  Url.digits_to_int "03101" = Some 3101%Z
  ∧ Url.get_craigslist_region_from_zip Url.digits_to_int "03101" = "boston"
  ∧ Url.get_craigslist_region_from_zip Url.digits_to_int "ninety" = "sfbay".
Proof.
  assert (H : Url.digits_to_int "03101" = Some 3101%Z) by (vm_compute; reflexivity).
  split; [exact H|]. split.
  - apply (proj1 (proj2 (proj2 (proj2
             (X19_region_table_dead_branches Url.digits_to_int "03101")))) 3101%Z H).
    lia.
  - apply (proj2 (proj2 (proj2 (proj2
             (X19_region_table_dead_branches Url.digits_to_int "ninety"))))).
    vm_compute. reflexivity.
Defined.

Lemma X20_witness :
  Url.quote_plus "road bike & parts" = "road+bike+%26+parts"
  ∧ ∀ s, Url.quote_plus s = "road+bike+%26+parts" → s = "road bike & parts".
Proof.
  assert (H : Url.quote_plus "road bike & parts" = "road+bike+%26+parts")
    by (vm_compute; reflexivity).
  split; [exact H|].
  intros s Hs.
  apply (proj2 (proj2 X20_quote_plus_is_safe_and_injective)).
  rewrite Hs. symmetry. exact H.
Defined.
